(** * RTC periodic wake-up firmware (main.c): model and properties

    The firmware is one C file.  Its functions are embedded as functions of a
    small state monad over the [world]: the globals of main.c, the interrupt
    mask, a cursor into each stream of answers given by the peripherals, and
    the list of actions the firmware has performed so far (the [trace]). *)

From Stdlib Require Import ZArith List String Ascii Bool Lia DecimalString PeanoNat.
Import ListNotations.
Open Scope string_scope.
Open Scope list_scope.
Open Scope Z_scope.

(** ** Macros of main.c *)

Definition MAX_ATTEMPTS : Z := 500.
Definition INIT_DELAY_MS : Z := 5.
Definition SHORT_PRESS_COUNT : Z := 10.
Definition LONG_PRESS_COUNT : Z := 200.
Definition SHORT_GLITCH_DELAY_MS : Z := 10.
Definition LONG_GLITCH_DELAY_MS : Z := 100.
Definition STRING_BUFFER_SIZE : nat := 80.

(** Width of [uint32_t]; counters wrap modulo this. *)
Definition UINT32_MOD : Z := 2 ^ 32.

(** ** Types *)

Inductive en_switch_event_t : Type :=
| SWITCH_NO_EVENT
| SWITCH_SHORT_PRESS
| SWITCH_LONG_PRESS.

(** The outcomes listed in the header comment of [rtc_alarmconfig]. *)
Inductive cy_en_rtc_status_t : Type :=
| CY_RTC_SUCCESS
| CY_RTC_BAD_PARAM
| CY_RTC_TIMEOUT
| CY_RTC_INVALID_STATE
| CY_RTC_UNKNOWN.

Definition rtc_ok (r : cy_en_rtc_status_t) : bool :=
  match r with CY_RTC_SUCCESS => true | _ => false end.

(** The fields of [cy_stc_rtc_config_t] that main.c reads (all [uint32_t]). *)
Record cy_stc_rtc_config_t : Type := mk_rtc_config {
  sec : Z;
  min : Z;
  hour : Z;
  date : Z;
  month : Z;
  year : Z
}.

(** What the firmware does to the outside world, in the order it does it. *)
Inductive event : Type :=
| EvPrintf (text : string)                      (* printf of a literal *)
| EvLogLine (stamp : option string) (msg : string)
                                                (* printf("%s: %s\r\n", buffer, str) *)
| EvDelay (ms : Z)                              (* Cy_SysLib_Delay *)
| EvRtcInit (r : cy_en_rtc_status_t)            (* Cy_RTC_Init and its outcome *)
| EvSetAlarm (r : cy_en_rtc_status_t)           (* Cy_RTC_SetAlarmDateAndTime and its outcome *)
| EvHal (name : string)                         (* a configuration call without a result *)
| EvDeepSleep                                   (* Cy_SysPm_CpuEnterDeepSleep *)
| EvEnterHibernate (r : option Z)               (* Cy_SysPm_SystemEnterHibernate; None: no return *)
| EvEnableIrq                                   (* __enable_irq *)
| EvDisableIrq                                  (* __disable_irq *)
| EvAssertFailed.                               (* CY_ASSERT(0) *)

(** The board and the peripherals.  Constants of the BSP/PDL headers that
    main.c names but does not define are fields; every call into the PDL
    whose answer main.c looks at has a stream of answers, the n-th element
    being the answer to the n-th call. *)
Record platform : Type := mk_platform {
  CY_RSLT_SUCCESS : Z;
  CY_SYSPM_SUCCESS : Z;
  CYBSP_BTN_PRESSED : Z;
  CY_SYSLIB_RESET_HIB_WAKEUP : Z;
  in_cybsp_init : Z;
  in_io_frozen : bool;
  in_uart_init : Z;
  in_hal_uart_setup : Z;
  in_retarget_io_init : Z;
  in_reset_reason : Z;
  in_irq_at_reset : bool;                      (* interrupts unmasked when main starts *)
  in_rtc_init : nat -> cy_en_rtc_status_t;
  in_set_alarm : nat -> cy_en_rtc_status_t;
  in_clock : nat -> cy_stc_rtc_config_t;
  in_gpio : nat -> Z;
  in_hibernate : nat -> option Z;
  in_alarm2 : nat -> bool                      (* ALARM2 pending at the n-th interruptible point *)
}.

(** Globals of main.c, interrupt state, stream cursors and the trace. *)
Record world : Type := mk_world {
  alarm_flag : Z;               (* uint8_t alarm_flag *)
  buffer : option string;       (* char buffer[80]; None: contents not determined *)
  irq_enabled : bool;           (* PRIMASK clear *)
  nvic_rtc : bool;              (* srss_interrupt_backup_IRQn enabled in the NVIC *)
  n_rtc_init : nat;
  n_set_alarm : nat;
  n_clock : nat;
  n_gpio : nat;
  n_hibernate : nat;
  n_irq : nat;
  trace : list event
}.

Definition set_alarm_flag (v : Z) (w : world) : world :=
  mk_world v (buffer w) (irq_enabled w) (nvic_rtc w) (n_rtc_init w)
           (n_set_alarm w) (n_clock w) (n_gpio w) (n_hibernate w) (n_irq w) (trace w).
Definition set_buffer (b : option string) (w : world) : world :=
  mk_world (alarm_flag w) b (irq_enabled w) (nvic_rtc w) (n_rtc_init w)
           (n_set_alarm w) (n_clock w) (n_gpio w) (n_hibernate w) (n_irq w) (trace w).
Definition set_irq_enabled (b : bool) (w : world) : world :=
  mk_world (alarm_flag w) (buffer w) b (nvic_rtc w) (n_rtc_init w)
           (n_set_alarm w) (n_clock w) (n_gpio w) (n_hibernate w) (n_irq w) (trace w).
Definition set_nvic_rtc (b : bool) (w : world) : world :=
  mk_world (alarm_flag w) (buffer w) (irq_enabled w) b (n_rtc_init w)
           (n_set_alarm w) (n_clock w) (n_gpio w) (n_hibernate w) (n_irq w) (trace w).
Definition tick_rtc_init (w : world) : world :=
  mk_world (alarm_flag w) (buffer w) (irq_enabled w) (nvic_rtc w) (S (n_rtc_init w))
           (n_set_alarm w) (n_clock w) (n_gpio w) (n_hibernate w) (n_irq w) (trace w).
Definition tick_set_alarm (w : world) : world :=
  mk_world (alarm_flag w) (buffer w) (irq_enabled w) (nvic_rtc w) (n_rtc_init w)
           (S (n_set_alarm w)) (n_clock w) (n_gpio w) (n_hibernate w) (n_irq w) (trace w).
Definition tick_clock (w : world) : world :=
  mk_world (alarm_flag w) (buffer w) (irq_enabled w) (nvic_rtc w) (n_rtc_init w)
           (n_set_alarm w) (S (n_clock w)) (n_gpio w) (n_hibernate w) (n_irq w) (trace w).
Definition tick_gpio (w : world) : world :=
  mk_world (alarm_flag w) (buffer w) (irq_enabled w) (nvic_rtc w) (n_rtc_init w)
           (n_set_alarm w) (n_clock w) (S (n_gpio w)) (n_hibernate w) (n_irq w) (trace w).
Definition tick_hibernate (w : world) : world :=
  mk_world (alarm_flag w) (buffer w) (irq_enabled w) (nvic_rtc w) (n_rtc_init w)
           (n_set_alarm w) (n_clock w) (n_gpio w) (S (n_hibernate w)) (n_irq w) (trace w).
Definition tick_irq (w : world) : world :=
  mk_world (alarm_flag w) (buffer w) (irq_enabled w) (nvic_rtc w) (n_rtc_init w)
           (n_set_alarm w) (n_clock w) (n_gpio w) (n_hibernate w) (S (n_irq w)) (trace w).
Definition log_event (e : event) (w : world) : world :=
  mk_world (alarm_flag w) (buffer w) (irq_enabled w) (nvic_rtc w) (n_rtc_init w)
           (n_set_alarm w) (n_clock w) (n_gpio w) (n_hibernate w) (n_irq w) (trace w ++ [e]).

(** ** The monad *)

(** How a piece of the firmware ends. *)
Inductive result (A : Type) : Type :=
| Ret (a : A)      (* falls through to the next statement *)
| Stop             (* stopped in CY_ASSERT(0) *)
| PowerDown        (* Cy_SysPm_SystemEnterHibernate did not return *)
| Spin.            (* still polling the button when the fuel ran out *)
Arguments Ret {A} a.
Arguments Stop {A}.
Arguments PowerDown {A}.
Arguments Spin {A}.

Definition M (A : Type) : Type := world -> result A * world.

Definition ret {A} (a : A) : M A := fun w => (Ret a, w).

Definition bind {A B} (c : M A) (k : A -> M B) : M B :=
  fun w =>
    match c w with
    | (Ret a, w1) => k a w1
    | (Stop, w1) => (Stop, w1)
    | (PowerDown, w1) => (PowerDown, w1)
    | (Spin, w1) => (Spin, w1)
    end.

Notation "x <- c ;; k" := (bind c (fun x => k))
  (at level 61, c at next level, right associativity).
Notation "c ;;; k" := (bind c (fun _ => k))
  (at level 61, right associativity).

Definition modify (f : world -> world) : M unit := fun w => (Ret tt, f w).
Definition emit (e : event) : M unit := modify (log_event e).
Definition when (b : bool) (c : M unit) : M unit := if b then c else ret tt.

(** ** Text *)

Definition CR : string := String (ascii_of_nat 13) EmptyString.
Definition LF : string := String (ascii_of_nat 10) EmptyString.
Definition CRLF : string := CR ++ LF.
Definition ESC : string := String (ascii_of_nat 27) EmptyString.

(** [(int)v] for a [uint32_t] v. *)
Definition to_int (v : Z) : Z :=
  let u := v mod UINT32_MOD in
  if u <? 2 ^ 31 then u else u - UINT32_MOD.

(** The characters printf writes for ["%d"]. *)
Definition fmt_d (v : Z) : string := NilZero.string_of_int (Z.to_int v).

(** [sprintf(buf, "%d", (int)v)] into [char buf[size]]: the digits and the
    terminating NUL must fit, otherwise the call writes past the array and
    the contents are not determined (None). *)
Definition sprintf_d (size : nat) (v : Z) : option string :=
  let s := fmt_d (to_int v) in
  if (String.length s + 1 <=? size)%nat then Some s else None.

(** [snprintf(dst, size, "%s %s ... %s", args)]: the arguments separated by
    single blanks, cut to size-1 characters. *)
Definition snprintf_words (size : nat) (args : list string) : string :=
  substring 0 (size - 1) (String.concat " " args).

(** The text a trace entry puts on the console, when it is determined. *)
Definition line_text (e : event) : option string :=
  match e with
  | EvPrintf t => Some t
  | EvLogLine (Some b) msg => Some (b ++ ": " ++ msg ++ CRLF)%string
  | _ => None
  end.

(** ** The firmware *)

Section Firmware.

Variable P : platform.

(** *** Interrupt context *)

(** [Cy_RTC_Alarm2Interrupt] (main.c:522): [alarm_flag = 1u;]. *)
Definition Cy_RTC_Alarm2Interrupt : M unit := modify (set_alarm_flag 1).

(** [Cy_RTC_Interrupt(NULL, false)] is the PDL's dispatcher.  main.c unmasks
    only CY_RTC_INTR_ALARM2, so a taken RTC interrupt has that cause and the
    dispatcher calls the Alarm2 callback, which main.c overrides. *)
Definition Cy_RTC_Interrupt : M unit := Cy_RTC_Alarm2Interrupt.

(** [rtc_interrupt_handler] (main.c:500). *)
Definition rtc_interrupt_handler : M unit := Cy_RTC_Interrupt.

(** A point at which the CPU can take the RTC interrupt: the handler runs
    there when the alarm is pending, the line is enabled in the NVIC and
    interrupts are not masked.  The model has such a point in every call
    that lets time pass: [Cy_SysLib_Delay] and the deep sleep. *)
Definition interrupt_point : M unit :=
  fun w =>
    let pending := in_alarm2 P (n_irq w) in
    let w1 := tick_irq w in
    if pending && irq_enabled w && nvic_rtc w
    then rtc_interrupt_handler w1
    else (Ret tt, w1).

(** *** Calls into the PDL and the BSP *)

Definition Cy_SysLib_Delay (ms : Z) : M unit :=
  emit (EvDelay ms) ;;; interrupt_point.

Definition Cy_RTC_GetDateAndTime : M cy_stc_rtc_config_t :=
  fun w => (Ret (in_clock P (n_clock w)), tick_clock w).

Definition Cy_RTC_Init : M cy_en_rtc_status_t :=
  fun w =>
    let r := in_rtc_init P (n_rtc_init w) in
    (Ret r, log_event (EvRtcInit r) (tick_rtc_init w)).

Definition Cy_RTC_SetAlarmDateAndTime : M cy_en_rtc_status_t :=
  fun w =>
    let r := in_set_alarm P (n_set_alarm w) in
    (Ret r, log_event (EvSetAlarm r) (tick_set_alarm w)).

Definition Cy_GPIO_Read : M Z :=
  fun w => (Ret (in_gpio P (n_gpio w)), tick_gpio w).

(** Waits for an interrupt; a pending alarm is served on wake-up. *)
Definition Cy_SysPm_CpuEnterDeepSleep : M unit :=
  emit EvDeepSleep ;;; interrupt_point.

(** Returns a status, or does not return at all when the device powers down. *)
Definition Cy_SysPm_SystemEnterHibernate : M Z :=
  fun w =>
    let r := in_hibernate P (n_hibernate w) in
    let w1 := log_event (EvEnterHibernate r) (tick_hibernate w) in
    match r with
    | Some s => (Ret s, w1)
    | None => (PowerDown, w1)
    end.

Definition printf (text : string) : M unit := emit (EvPrintf text).

Definition __enable_irq : M unit :=
  modify (set_irq_enabled true) ;;; emit EvEnableIrq.

Definition __disable_irq : M unit :=
  modify (set_irq_enabled false) ;;; emit EvDisableIrq.

(** Modelled from the spec: [CY_ASSERT] is a macro of the PDL headers, which
    are not part of main.c.  The spec describes the failed assertion as a
    non-recoverable stop state: execution does not go past [CY_ASSERT(0)]. *)
Definition CY_ASSERT_0 : M unit :=
  fun w => (Stop, log_event EvAssertFailed w).

(** *** main.c *)

(** [handle_error] (main.c:144). *)
Definition handle_error : M unit :=
  __disable_irq ;;; CY_ASSERT_0.

(** [convert_date_to_string] (main.c:458): six [sprintf]s into two-byte
    arrays, then one [snprintf] into the global [buffer].  When one of the
    [sprintf]s does not fit, the text in [buffer] is not determined; the
    model records that and carries on with the control flow. *)
Definition convert_date_to_string (dateTime : cy_stc_rtc_config_t) : M unit :=
  let secbuf := sprintf_d 2 (sec dateTime) in
  let minbuf := sprintf_d 2 (min dateTime) in
  let hourbuf := sprintf_d 2 (hour dateTime) in
  let daybuf := sprintf_d 2 (date dateTime) in
  let monthbuf := sprintf_d 2 (month dateTime) in
  let yearbuf := sprintf_d 2 (year dateTime) in
  match secbuf, minbuf, hourbuf, daybuf, monthbuf, yearbuf with
  | Some s, Some mi, Some h, Some d, Some mo, Some y =>
      modify (set_buffer (Some (snprintf_words STRING_BUFFER_SIZE
                [h; ":"; mi; ":"; s; ""; y; "-"; mo; "-"; d])))
  | _, _, _, _, _, _ => modify (set_buffer None)
  end.

(** [debug_printf] (main.c:430). *)
Definition debug_printf (str : string) : M unit :=
  dateTime <- Cy_RTC_GetDateAndTime ;;
  convert_date_to_string dateTime ;;;
  (fun w => emit (EvLogLine (buffer w) str) w).

(** The do-while of [rtc_init] (main.c:319).  [attempts] is decremented once
    per pass and the loop is left when it reaches 0; [remaining] is the value
    of [attempts] after the decrement of the current pass. *)
Fixpoint rtc_init_loop (remaining : nat) : M cy_en_rtc_status_t :=
  rtc_result <- Cy_RTC_Init ;;
  Cy_SysLib_Delay INIT_DELAY_MS ;;;
  match remaining with
  | O => ret rtc_result
  | S n => if rtc_ok rtc_result then ret rtc_result else rtc_init_loop n
  end.

(** [rtc_init] (main.c:312). *)
Definition rtc_init : M cy_en_rtc_status_t :=
  let attempts := MAX_ATTEMPTS in
  rtc_init_loop (Z.to_nat ((attempts - 1) mod UINT32_MOD)).

(** The do-while of [rtc_alarmconfig] (main.c:360), counted as above. *)
Fixpoint rtc_alarmconfig_loop (remaining : nat) : M cy_en_rtc_status_t :=
  rtc_result <- Cy_RTC_SetAlarmDateAndTime ;;
  Cy_SysLib_Delay INIT_DELAY_MS ;;;
  match remaining with
  | O => ret rtc_result
  | S n => if rtc_ok rtc_result then ret rtc_result else rtc_alarmconfig_loop n
  end.

(** [rtc_alarmconfig] (main.c:350). *)
Definition rtc_alarmconfig : M cy_en_rtc_status_t :=
  let attempts := MAX_ATTEMPTS in
  debug_printf ("RTC alarm will be generated after 1 second" ++ CRLF) ;;;
  rtc_alarmconfig_loop (Z.to_nat ((attempts - 1) mod UINT32_MOD)).

(** The classification at the end of [get_switch_event] (main.c:401-409). *)
Definition classify_press (press_count : Z) : en_switch_event_t :=
  let event := SWITCH_NO_EVENT in
  if press_count >? LONG_PRESS_COUNT then SWITCH_LONG_PRESS
  else if press_count >? SHORT_PRESS_COUNT then SWITCH_SHORT_PRESS
  else event.

(** The polling loop of [get_switch_event] (main.c:392).  It runs for as long
    as the button is held, so it takes fuel. *)
Fixpoint poll_button (fuel : nat) (press_count : Z) : M Z :=
  match fuel with
  | O => fun w => (Spin, w)
  | S f =>
      v <- Cy_GPIO_Read ;;
      if v =? CYBSP_BTN_PRESSED P
      then Cy_SysLib_Delay SHORT_GLITCH_DELAY_MS ;;;
           poll_button f ((press_count + 1) mod UINT32_MOD)
      else ret press_count
  end.

(** [get_switch_event] (main.c:386). *)
Definition get_switch_event (fuel : nat) : M en_switch_event_t :=
  press_count <- poll_button fuel 0 ;;
  let event := classify_press press_count in
  Cy_SysLib_Delay SHORT_GLITCH_DELAY_MS ;;;
  ret event.

(** The [switch] of main's loop (main.c:263-295). *)
Definition switch_event (ev : en_switch_event_t) : M unit :=
  match ev with
  | SWITCH_SHORT_PRESS =>
      debug_printf ("Go to DeepSleep mode" ++ CRLF) ;;;
      _ <- rtc_alarmconfig ;;
      Cy_SysLib_Delay LONG_GLITCH_DELAY_MS ;;;
      Cy_SysPm_CpuEnterDeepSleep ;;;
      debug_printf ("Wakeup from DeepSleep mode" ++ CRLF)
  | SWITCH_LONG_PRESS =>
      debug_printf ("Go to Hibernate mode" ++ CRLF) ;;;
      _ <- rtc_alarmconfig ;;
      Cy_SysLib_Delay LONG_GLITCH_DELAY_MS ;;;
      emit (EvHal "Cy_SysPm_SetHibernateWakeupSource") ;;;
      status <- Cy_SysPm_SystemEnterHibernate ;;
      when (negb (CY_SYSPM_SUCCESS P =? status))
        (printf ("The CPU did not enter Hibernate mode" ++ CRLF ++ CRLF) ;;;
         CY_ASSERT_0)
  | SWITCH_NO_EVENT => ret tt
  end.

(** One pass of [for (;;)]. *)
Definition loop_body (fuel : nat) : M unit :=
  ev <- get_switch_event fuel ;;
  switch_event ev.

(** The first [n] passes of [for (;;)]. *)
Fixpoint main_loop (n : nat) (fuel : nat) : M unit :=
  match n with
  | O => ret tt
  | S n' => loop_body fuel ;;; main_loop n' fuel
  end.

Definition HIB_WAKEUP_MSG : string := "Wakeup from the Hibernate mode" ++ CRLF ++ LF.

(** main.c:177-239: board, UART and retarget-io set-up, banner, button pin
    and RTC interrupt line. *)
Definition bring_up : M unit :=
  emit (EvHal "cybsp_init") ;;;
  when (negb (in_cybsp_init P =? CY_RSLT_SUCCESS P)) handle_error ;;;
  when (in_io_frozen P) (emit (EvHal "Cy_SysPm_IoUnfreeze")) ;;;
  emit (EvHal "Cy_SCB_UART_Init") ;;;
  when (negb (in_uart_init P =? CY_RSLT_SUCCESS P)) CY_ASSERT_0 ;;;
  emit (EvHal "Cy_SCB_UART_Enable") ;;;
  emit (EvHal "mtb_hal_uart_setup") ;;;
  when (negb (in_hal_uart_setup P =? CY_RSLT_SUCCESS P)) CY_ASSERT_0 ;;;
  emit (EvHal "cy_retarget_io_init") ;;;
  when (negb (in_retarget_io_init P =? CY_RSLT_SUCCESS P)) CY_ASSERT_0 ;;;
  printf (ESC ++ "[2J" ++ ESC ++ "[;H") ;;;
  printf ("*************************************************************" ++ CRLF) ;;;
  printf ("PDL: RTC periodic wakeup alarm example" ++ CRLF) ;;;
  printf ("*************************************************************" ++ CRLF) ;;;
  printf ("Short press 'SW2' key to DeepSleep mode." ++ CRLF ++ CRLF) ;;;
  printf ("Long press 'SW2' key to Hibernate mode." ++ CRLF ++ CRLF) ;;;
  emit (EvHal "Cy_GPIO_Pin_SecFastInit") ;;;
  emit (EvHal "Cy_RTC_SetInterruptMask") ;;;
  emit (EvHal "Cy_SysInt_Init") ;;;
  emit (EvHal "NVIC_ClearPendingIRQ") ;;;
  modify (set_nvic_rtc true) ;;; emit (EvHal "NVIC_EnableIRQ").

(** main.c:241-246: the reset reason is queried once. *)
Definition check_reset_reason : M unit :=
  when (CY_SYSLIB_RESET_HIB_WAKEUP P =?
        Z.land (in_reset_reason P) (CY_SYSLIB_RESET_HIB_WAKEUP P))
    (debug_printf HIB_WAKEUP_MSG).

(** main.c:248-259: the RTC is initialised, the time is printed and
    interrupts are enabled. *)
Definition start_rtc : M unit :=
  rtcSta <- rtc_init ;;
  when (negb (rtc_ok rtcSta)) handle_error ;;;
  debug_printf ("Current date and time" ++ CRLF) ;;;
  __enable_irq.

(** main up to the loop (main.c:174-259). *)
Definition startup : M unit :=
  bring_up ;;;
  check_reset_reason ;;;
  start_rtc.

(** The state main starts in: [alarm_flag = 0u], [buffer] zeroed. *)
Definition boot : world :=
  mk_world 0 (Some "") (in_irq_at_reset P) false 0 0 0 0 0 0 [].

(** main run from reset through the first [n] passes of its loop. *)
Definition main (n fuel : nat) : result unit * world :=
  (startup ;;; main_loop n fuel) boot.

End Firmware.

(** * Properties *)

(** ** Text of a status line *)

Lemma fmt_d_digit (v : Z) :
  0 <= v <= 9 -> exists c, fmt_d v = String c EmptyString.
Proof.
  intros Hv.
  assert (Hc : v = 0 \/ v = 1 \/ v = 2 \/ v = 3 \/ v = 4 \/
               v = 5 \/ v = 6 \/ v = 7 \/ v = 8 \/ v = 9) by lia.
  repeat (destruct Hc as [Hc | Hc]; [subst v; eexists; reflexivity |]).
  subst v; eexists; reflexivity.
Qed.

Lemma to_int_small (v : Z) : 0 <= v < 2 ^ 31 -> to_int v = v.
Proof.
  intros Hv. unfold to_int, UINT32_MOD.
  rewrite Z.mod_small by lia.
  destruct (Z.ltb_spec v (2 ^ 31)); lia.
Qed.

Lemma sprintf_d_digit (v : Z) :
  0 <= v <= 9 -> sprintf_d 2 v = Some (fmt_d v).
Proof.
  intros Hv. unfold sprintf_d.
  rewrite to_int_small by lia.
  destruct (fmt_d_digit v Hv) as [c Hc]. rewrite Hc. reflexivity.
Qed.

(** Every two-digit value needs three bytes. *)
Lemma sprintf_d_two_digits (v : Z) :
  10 <= v <= 99 -> sprintf_d 2 v = None.
Proof.
  intros Hv.
  assert (Hall : forallb (fun n => match sprintf_d 2 (Z.of_nat n) with
                                   | None => true | Some _ => false end)
                         (seq 10 90) = true) by (vm_compute; reflexivity).
  rewrite forallb_forall in Hall.
  specialize (Hall (Z.to_nat v)).
  rewrite Z2Nat.id in Hall by lia.
  destruct (sprintf_d 2 v); [| reflexivity].
  assert (Hin : In (Z.to_nat v) (seq 10 90)) by (apply in_seq; lia).
  specialize (Hall Hin). discriminate.
Qed.

(** The time of day as the spec words it: two digits per field, colons in
    between. *)
Definition two_digits (v : Z) : string :=
  fmt_d (v / 10 mod 10) ++ fmt_d (v mod 10).

Definition spec_hhmmss (t : cy_stc_rtc_config_t) : string :=
  two_digits (hour t) ++ ":" ++ two_digits (min t) ++ ":" ++ two_digits (sec t).

(** The stamp main.c builds, for field values of one digit. *)
Definition stamp_of (t : cy_stc_rtc_config_t) : string :=
  fmt_d (hour t) ++ " : " ++ fmt_d (min t) ++ " : " ++ fmt_d (sec t) ++ "  " ++
  fmt_d (year t) ++ " - " ++ fmt_d (month t) ++ " - " ++ fmt_d (date t).

Definition one_digit (v : Z) : Prop := 0 <= v <= 9.

Definition one_digit_fields (t : cy_stc_rtc_config_t) : Prop :=
  one_digit (sec t) /\ one_digit (min t) /\ one_digit (hour t) /\
  one_digit (date t) /\ one_digit (month t) /\ one_digit (year t).

Section TextProperties.

Variable P : platform.

Lemma convert_date_to_string_digits (t : cy_stc_rtc_config_t) (w : world) :
  one_digit_fields t ->
  convert_date_to_string t w = (Ret tt, set_buffer (Some (stamp_of t)) w).
Proof.
  intros (Hs & Hm & Hh & Hd & Hmo & Hy).
  unfold convert_date_to_string, stamp_of.
  rewrite !sprintf_d_digit by assumption.
  destruct (fmt_d_digit _ Hs) as [cs ->].
  destruct (fmt_d_digit _ Hm) as [cm ->].
  destruct (fmt_d_digit _ Hh) as [ch ->].
  destruct (fmt_d_digit _ Hd) as [cd ->].
  destruct (fmt_d_digit _ Hmo) as [cmo ->].
  destruct (fmt_d_digit _ Hy) as [cy ->].
  reflexivity.
Qed.

Lemma debug_printf_digits (str : string) (w : world) :
  one_digit_fields (in_clock P (n_clock w)) ->
  debug_printf P str w =
  (Ret tt, log_event (EvLogLine (Some (stamp_of (in_clock P (n_clock w)))) str)
             (set_buffer (Some (stamp_of (in_clock P (n_clock w)))) (tick_clock w))).
Proof.
  intros Ht. unfold debug_printf, bind, Cy_RTC_GetDateAndTime.
  rewrite convert_date_to_string_digits by assumption.
  reflexivity.
Qed.

End TextProperties.

(** ** Footprints

    Every change the firmware makes to the [world] is one of a few atomic
    actions.  A footprint is a set of actions; a piece of the firmware keeps
    to a footprint when it moves the world only by actions in it. *)

Inductive action : Type :=
| ASetFlag                       (* alarm_flag = 1u *)
| ASetBuffer (b : option string)
| ASetIrq (b : bool)
| ASetNvic (b : bool)
| ATickRtcInit
| ATickSetAlarm
| ATickClock
| ATickGpio
| ATickHibernate
| ATickIrq
| ALog (e : event).

Definition apply_action (a : action) (w : world) : world :=
  match a with
  | ASetFlag => set_alarm_flag 1 w
  | ASetBuffer b => set_buffer b w
  | ASetIrq b => set_irq_enabled b w
  | ASetNvic b => set_nvic_rtc b w
  | ATickRtcInit => tick_rtc_init w
  | ATickSetAlarm => tick_set_alarm w
  | ATickClock => tick_clock w
  | ATickGpio => tick_gpio w
  | ATickHibernate => tick_hibernate w
  | ATickIrq => tick_irq w
  | ALog e => log_event e w
  end.

Definition apply_actions (l : list action) (w : world) : world :=
  fold_left (fun w a => apply_action a w) l w.

Definition footprint : Type := action -> bool.

Definition acts (Q : footprint) (w w' : world) : Prop :=
  exists l, forallb Q l = true /\ w' = apply_actions l w.

Definition keeps {A} (Q : footprint) (c : M A) : Prop :=
  forall w, acts Q w (snd (c w)).

Definition fp_union (Q1 Q2 : footprint) : footprint := fun a => Q1 a || Q2 a.
Infix "\/f" := fp_union (at level 50, left associativity).

Definition fp_sub (Q1 Q2 : footprint) : Prop := forall a, Q1 a = true -> Q2 a = true.

(** The footprints of the functions of main.c. *)

Definition fp_irq : footprint :=
  fun a => match a with ATickIrq | ASetFlag => true | _ => false end.

Definition fp_event (e0 : event -> bool) : footprint :=
  fun a => match a with ALog e => e0 e | _ => false end.

Definition is_delay (ms : Z) (e : event) : bool :=
  match e with EvDelay m => m =? ms | _ => false end.
Definition is_log_line (msg : string) (e : event) : bool :=
  match e with EvLogLine _ m => String.eqb m msg | _ => false end.
Definition is_printf (e : event) : bool :=
  match e with EvPrintf _ => true | _ => false end.
Definition is_hal (e : event) : bool :=
  match e with EvHal _ => true | _ => false end.
Definition is_rtc_init (e : event) : bool :=
  match e with EvRtcInit _ => true | _ => false end.
Definition is_set_alarm (e : event) : bool :=
  match e with EvSetAlarm _ => true | _ => false end.
Definition is_set_alarm_ok (e : event) : bool :=
  match e with EvSetAlarm CY_RTC_SUCCESS => true | _ => false end.
Definition is_deep_sleep (e : event) : bool :=
  match e with EvDeepSleep => true | _ => false end.
Definition is_hibernate (e : event) : bool :=
  match e with EvEnterHibernate _ => true | _ => false end.
Definition is_assert (e : event) : bool :=
  match e with EvAssertFailed => true | _ => false end.
Definition is_disable_irq (e : event) : bool :=
  match e with EvDisableIrq => true | _ => false end.
Definition is_enable_irq (e : event) : bool :=
  match e with EvEnableIrq => true | _ => false end.

Definition fp_delay (ms : Z) : footprint := fp_irq \/f fp_event (is_delay ms).

Definition fp_log (msg : string) : footprint :=
  fun a =>
    match a with
    | ATickClock | ASetBuffer _ => true
    | ALog e => is_log_line msg e
    | _ => false
    end.

Definition fp_assert : footprint := fp_event is_assert.

Definition fp_handle_error : footprint :=
  fun a =>
    match a with
    | ASetIrq false => true
    | ALog e => is_disable_irq e || is_assert e
    | _ => false
    end.

Definition fp_rtc_init : footprint :=
  (fun a =>
     match a with
     | ATickRtcInit => true
     | ALog e => is_rtc_init e
     | _ => false
     end) \/f fp_delay INIT_DELAY_MS.

Definition MSG_ALARM : string := "RTC alarm will be generated after 1 second" ++ CRLF.
Definition MSG_GO_DEEPSLEEP : string := "Go to DeepSleep mode" ++ CRLF.
Definition MSG_WAKE_DEEPSLEEP : string := "Wakeup from DeepSleep mode" ++ CRLF.
Definition MSG_GO_HIBERNATE : string := "Go to Hibernate mode" ++ CRLF.
Definition MSG_NO_HIBERNATE : string := "The CPU did not enter Hibernate mode" ++ CRLF ++ CRLF.
Definition MSG_CURRENT : string := "Current date and time" ++ CRLF.

Definition fp_alarm_loop : footprint :=
  (fun a =>
     match a with
     | ATickSetAlarm => true
     | ALog e => is_set_alarm e
     | _ => false
     end) \/f fp_delay INIT_DELAY_MS.

Definition fp_alarmconfig : footprint := fp_log MSG_ALARM \/f fp_alarm_loop.

Definition fp_get_switch : footprint :=
  (fun a => match a with ATickGpio => true | _ => false end) \/f
  fp_delay SHORT_GLITCH_DELAY_MS.

Definition fp_short : footprint :=
  fp_log MSG_GO_DEEPSLEEP \/f fp_alarmconfig \/f fp_delay LONG_GLITCH_DELAY_MS \/f
  fp_event is_deep_sleep \/f fp_irq \/f fp_log MSG_WAKE_DEEPSLEEP.

Definition fp_long : footprint :=
  fp_log MSG_GO_HIBERNATE \/f fp_alarmconfig \/f fp_delay LONG_GLITCH_DELAY_MS \/f
  (fun a =>
     match a with
     | ATickHibernate => true
     | ALog e => is_hal e || is_hibernate e || is_printf e || is_assert e
     | _ => false
     end).

Definition fp_switch (ev : en_switch_event_t) : footprint :=
  match ev with
  | SWITCH_SHORT_PRESS => fp_short
  | SWITCH_LONG_PRESS => fp_long
  | SWITCH_NO_EVENT => fun _ => false
  end.

Definition fp_loop : footprint := fp_get_switch \/f fp_short \/f fp_long.

Definition fp_bring_up : footprint :=
  fp_handle_error \/f
  (fun a =>
     match a with
     | ASetNvic true => true
     | ALog e => is_hal e || is_printf e || is_assert e
     | _ => false
     end).

Definition fp_start_rtc : footprint :=
  fp_rtc_init \/f fp_handle_error \/f fp_log MSG_CURRENT \/f
  (fun a =>
     match a with
     | ASetIrq true => true
     | ALog e => is_enable_irq e
     | _ => false
     end).

Definition fp_startup : footprint :=
  fp_bring_up \/f fp_log HIB_WAKEUP_MSG \/f fp_start_rtc.

Definition fp_main : footprint := fp_startup \/f fp_loop.

(** *** Footprint algebra *)

Lemma apply_actions_app (l1 l2 : list action) (w : world) :
  apply_actions (l1 ++ l2) w = apply_actions l2 (apply_actions l1 w).
Proof. unfold apply_actions. apply fold_left_app. Qed.

Lemma acts_refl (Q : footprint) (w : world) : acts Q w w.
Proof. exists []. split; reflexivity. Qed.

Lemma acts_trans (Q : footprint) (w1 w2 w3 : world) :
  acts Q w1 w2 -> acts Q w2 w3 -> acts Q w1 w3.
Proof.
  intros (l1 & H1 & ->) (l2 & H2 & ->).
  exists (l1 ++ l2). split.
  - rewrite forallb_app, H1, H2. reflexivity.
  - symmetry. apply apply_actions_app.
Qed.

Lemma acts_sub (Q Q' : footprint) (w w' : world) :
  fp_sub Q Q' -> acts Q w w' -> acts Q' w w'.
Proof.
  intros Hsub (l & Hl & ->). exists l. split; [| reflexivity].
  rewrite forallb_forall in *. intros a Ha. apply Hsub, Hl, Ha.
Qed.

Lemma fp_sub_refl (Q : footprint) : fp_sub Q Q.
Proof. intros a H. exact H. Qed.

Lemma fp_sub_union_l (Q Q1 Q2 : footprint) : fp_sub Q Q1 -> fp_sub Q (Q1 \/f Q2).
Proof. intros H a Ha. unfold fp_union. rewrite (H a Ha). reflexivity. Qed.

Lemma fp_sub_union_r (Q Q1 Q2 : footprint) : fp_sub Q Q2 -> fp_sub Q (Q1 \/f Q2).
Proof. intros H a Ha. unfold fp_union. rewrite (H a Ha). apply orb_true_r. Qed.

Create HintDb fp discriminated.
#[local] Hint Resolve fp_sub_refl fp_sub_union_l fp_sub_union_r : fp.

Lemma keeps_sub {A} (Q Q' : footprint) (c : M A) :
  fp_sub Q Q' -> keeps Q c -> keeps Q' c.
Proof. intros Hsub Hc w. eapply acts_sub; [exact Hsub | apply Hc]. Qed.

Lemma keeps_ret {A} (Q : footprint) (a : A) : keeps Q (ret a).
Proof. intros w. apply acts_refl. Qed.

Lemma keeps_bind {A B} (Q : footprint) (c : M A) (k : A -> M B) :
  keeps Q c -> (forall a, keeps Q (k a)) -> keeps Q (bind c k).
Proof.
  intros Hc Hk w. unfold bind.
  specialize (Hc w). destruct (c w) as [[a | | |] w1]; simpl in *; try exact Hc.
  eapply acts_trans; [exact Hc | apply Hk].
Qed.

Lemma keeps_when (Q : footprint) (b : bool) (c : M unit) :
  keeps Q c -> keeps Q (when b c).
Proof. intros Hc. destruct b; [exact Hc | apply keeps_ret]. Qed.

Lemma keeps_actions {A} (Q : footprint) (c : M A) (f : world -> list action) :
  (forall w, forallb Q (f w) = true) ->
  (forall w, snd (c w) = apply_actions (f w) w) ->
  keeps Q c.
Proof. intros HQ Hc w. exists (f w). split; [apply HQ | apply Hc]. Qed.

Lemma keeps_emit (Q : footprint) (e : event) :
  Q (ALog e) = true -> keeps Q (emit e).
Proof.
  intros He. apply keeps_actions with (f := fun _ => [ALog e]).
  - intros _. simpl. rewrite He. reflexivity.
  - reflexivity.
Qed.

Lemma keeps_modify (Q : footprint) (a : action) :
  Q a = true -> keeps Q (modify (apply_action a)).
Proof.
  intros Ha. apply keeps_actions with (f := fun _ => [a]).
  - intros _. simpl. rewrite Ha. reflexivity.
  - reflexivity.
Qed.

(** What a footprint tells about the two ends of a run. *)

Lemma acts_alarm_flag (Q : footprint) (w w' : world) :
  acts Q w w' -> alarm_flag w' = alarm_flag w \/ alarm_flag w' = 1.
Proof.
  intros (l & _ & ->). revert w.
  induction l as [| a l IH]; intros w; [left; reflexivity |].
  destruct (IH (apply_action a w)) as [H | H]; [| right; exact H].
  change (apply_actions (a :: l) w) with (apply_actions l (apply_action a w)).
  rewrite H. destruct a; simpl; auto.
Qed.

Lemma acts_trace (Q : footprint) (w w' : world) :
  acts Q w w' ->
  exists new, trace w' = trace w ++ new /\ Forall (fun e => Q (ALog e) = true) new.
Proof.
  intros (l & Hl & ->). revert w Hl.
  induction l as [| a l IH]; intros w Hl.
  - exists []. split; [symmetry; apply app_nil_r | constructor].
  - simpl in Hl. apply andb_true_iff in Hl. destruct Hl as [Ha Hl].
    destruct (IH (apply_action a w) Hl) as (new & Hnew & Hall).
    change (apply_actions (a :: l) w) with (apply_actions l (apply_action a w)).
    destruct a; try (exists new; split; [exact Hnew | exact Hall]).
    exists (e :: new). split.
    + rewrite Hnew. simpl. rewrite <- app_assoc. reflexivity.
    + constructor; assumption.
Qed.

Lemma acts_same {X} (f : world -> X) (Q : footprint) (w w' : world) :
  (forall a v, Q a = true -> f (apply_action a v) = f v) ->
  acts Q w w' -> f w' = f w.
Proof.
  intros Hf (l & Hl & ->). revert w Hl.
  induction l as [| a l IH]; intros w Hl; [reflexivity |].
  simpl in Hl. apply andb_true_iff in Hl. destruct Hl as [Ha Hl].
  change (apply_actions (a :: l) w) with (apply_actions l (apply_action a w)).
  rewrite (IH _ Hl). apply Hf, Ha.
Qed.

(** A piece of the firmware that always falls through. *)
Definition returns {A} (c : M A) : Prop :=
  forall w, exists a, fst (c w) = Ret a.

Lemma returns_ret {A} (a : A) : returns (ret a).
Proof. intros w. exists a. reflexivity. Qed.

Lemma returns_bind {A B} (c : M A) (k : A -> M B) :
  returns c -> (forall a, returns (k a)) -> returns (bind c k).
Proof.
  intros Hc Hk w. unfold bind.
  destruct (Hc w) as [a Ha]. destruct (c w) as [r w1]. simpl in Ha. subst r.
  apply Hk.
Qed.

Lemma returns_modify (f : world -> world) : returns (modify f).
Proof. intros w. exists tt. reflexivity. Qed.

Lemma returns_emit (e : event) : returns (emit e).
Proof. apply returns_modify. Qed.

Lemma run_returns {A} (c : M A) (w : world) :
  returns c -> exists a, c w = (Ret a, snd (c w)).
Proof.
  intros Hc. destruct (Hc w) as [a Ha]. exists a.
  destruct (c w) as [r w1]. simpl in *. subst r. reflexivity.
Qed.

Section Frames.

Variable P : platform.

Ltac fp_true :=
  repeat match goal with
         | |- context [String.eqb ?s ?s] => rewrite String.eqb_refl
         | |- context [Z.eqb ?z ?z] => rewrite Z.eqb_refl
         end;
  try reflexivity.

Lemma keeps_interrupt_point : keeps fp_irq (interrupt_point P).
Proof.
  intros w. unfold interrupt_point.
  destruct (in_alarm2 P (n_irq w) && irq_enabled w && nvic_rtc w).
  - exists [ATickIrq; ASetFlag]. split; reflexivity.
  - exists [ATickIrq]. split; reflexivity.
Qed.

Lemma returns_interrupt_point : returns (interrupt_point P).
Proof.
  intros w. exists tt. unfold interrupt_point.
  destruct (in_alarm2 P (n_irq w) && irq_enabled w && nvic_rtc w); reflexivity.
Qed.

Lemma keeps_Delay (ms : Z) : keeps (fp_delay ms) (Cy_SysLib_Delay P ms).
Proof.
  apply keeps_bind.
  - apply keeps_emit. unfold fp_delay, fp_union. simpl. fp_true.
  - intros _. eapply keeps_sub; [| apply keeps_interrupt_point].
    unfold fp_delay. auto with fp.
Qed.

Lemma returns_Delay (ms : Z) : returns (Cy_SysLib_Delay P ms).
Proof.
  apply returns_bind; [apply returns_emit | intros _; apply returns_interrupt_point].
Qed.

Lemma keeps_DeepSleep :
  keeps (fp_event is_deep_sleep \/f fp_irq) (Cy_SysPm_CpuEnterDeepSleep P).
Proof.
  apply keeps_bind.
  - apply keeps_emit. reflexivity.
  - intros _. eapply keeps_sub; [| apply keeps_interrupt_point]. auto with fp.
Qed.

Lemma returns_DeepSleep : returns (Cy_SysPm_CpuEnterDeepSleep P).
Proof.
  apply returns_bind; [apply returns_emit | intros _; apply returns_interrupt_point].
Qed.

Lemma convert_date_to_string_eq (t : cy_stc_rtc_config_t) :
  exists b, convert_date_to_string t = modify (set_buffer b).
Proof.
  unfold convert_date_to_string.
  destruct (sprintf_d 2 (sec t)), (sprintf_d 2 (min t)), (sprintf_d 2 (hour t)),
    (sprintf_d 2 (date t)), (sprintf_d 2 (month t)), (sprintf_d 2 (year t));
    eexists; reflexivity.
Qed.

Lemma debug_printf_eq (str : string) (w : world) :
  exists b, debug_printf P str w =
            (Ret tt, log_event (EvLogLine b str) (set_buffer b (tick_clock w))).
Proof.
  unfold debug_printf, bind, Cy_RTC_GetDateAndTime.
  destruct (convert_date_to_string_eq (in_clock P (n_clock w))) as [b ->].
  exists b. reflexivity.
Qed.

Lemma keeps_debug_printf (str : string) : keeps (fp_log str) (debug_printf P str).
Proof.
  intros w. destruct (debug_printf_eq str w) as [b ->].
  exists [ATickClock; ASetBuffer b; ALog (EvLogLine b str)].
  split; [simpl; fp_true | reflexivity].
Qed.

Lemma returns_debug_printf (str : string) : returns (debug_printf P str).
Proof. intros w. destruct (debug_printf_eq str w) as [b ->]. exists tt. reflexivity. Qed.

Lemma keeps_CY_ASSERT_0 : keeps fp_assert CY_ASSERT_0.
Proof. intros w. exists [ALog EvAssertFailed]. split; reflexivity. Qed.

Lemma keeps_handle_error : keeps fp_handle_error handle_error.
Proof.
  intros w. exists [ASetIrq false; ALog EvDisableIrq; ALog EvAssertFailed].
  split; reflexivity.
Qed.

Lemma keeps_rtc_init_loop (remaining : nat) :
  keeps fp_rtc_init (rtc_init_loop P remaining).
Proof.
  induction remaining as [| n IH]; simpl.
  - apply keeps_bind.
    + intros w. exists [ATickRtcInit; ALog (EvRtcInit (in_rtc_init P (n_rtc_init w)))].
      split; reflexivity.
    + intros r. apply keeps_bind; [| intros _; apply keeps_ret].
      eapply keeps_sub; [| apply keeps_Delay]. unfold fp_rtc_init. auto with fp.
  - apply keeps_bind.
    + intros w. exists [ATickRtcInit; ALog (EvRtcInit (in_rtc_init P (n_rtc_init w)))].
      split; reflexivity.
    + intros r. apply keeps_bind.
      * eapply keeps_sub; [| apply keeps_Delay]. unfold fp_rtc_init. auto with fp.
      * intros _. destruct (rtc_ok r); [apply keeps_ret | exact IH].
Qed.

Lemma returns_rtc_init_loop (remaining : nat) : returns (rtc_init_loop P remaining).
Proof.
  induction remaining as [| n IH]; simpl.
  - apply returns_bind; [intros w; eexists; reflexivity |].
    intros r. apply returns_bind; [apply returns_Delay | intros _; apply returns_ret].
  - apply returns_bind; [intros w; eexists; reflexivity |].
    intros r. apply returns_bind; [apply returns_Delay |].
    intros _. destruct (rtc_ok r); [apply returns_ret | exact IH].
Qed.

Lemma keeps_rtc_alarmconfig_loop (remaining : nat) :
  keeps fp_alarm_loop (rtc_alarmconfig_loop P remaining).
Proof.
  induction remaining as [| n IH]; simpl.
  - apply keeps_bind.
    + intros w. exists [ATickSetAlarm; ALog (EvSetAlarm (in_set_alarm P (n_set_alarm w)))].
      split; reflexivity.
    + intros r. apply keeps_bind; [| intros _; apply keeps_ret].
      eapply keeps_sub; [| apply keeps_Delay]. unfold fp_alarm_loop. auto with fp.
  - apply keeps_bind.
    + intros w. exists [ATickSetAlarm; ALog (EvSetAlarm (in_set_alarm P (n_set_alarm w)))].
      split; reflexivity.
    + intros r. apply keeps_bind.
      * eapply keeps_sub; [| apply keeps_Delay]. unfold fp_alarm_loop. auto with fp.
      * intros _. destruct (rtc_ok r); [apply keeps_ret | exact IH].
Qed.

Lemma returns_rtc_alarmconfig_loop (remaining : nat) :
  returns (rtc_alarmconfig_loop P remaining).
Proof.
  induction remaining as [| n IH]; simpl.
  - apply returns_bind; [intros w; eexists; reflexivity |].
    intros r. apply returns_bind; [apply returns_Delay | intros _; apply returns_ret].
  - apply returns_bind; [intros w; eexists; reflexivity |].
    intros r. apply returns_bind; [apply returns_Delay |].
    intros _. destruct (rtc_ok r); [apply returns_ret | exact IH].
Qed.

Lemma keeps_rtc_alarmconfig : keeps fp_alarmconfig (rtc_alarmconfig P).
Proof.
  unfold rtc_alarmconfig. apply keeps_bind.
  - eapply keeps_sub; [| apply keeps_debug_printf]. unfold fp_alarmconfig. auto with fp.
  - intros _. eapply keeps_sub; [| apply keeps_rtc_alarmconfig_loop].
    unfold fp_alarmconfig. auto with fp.
Qed.

Lemma returns_rtc_alarmconfig : returns (rtc_alarmconfig P).
Proof.
  unfold rtc_alarmconfig. apply returns_bind.
  - apply returns_debug_printf.
  - intros _. apply returns_rtc_alarmconfig_loop.
Qed.

Lemma keeps_rtc_init : keeps fp_rtc_init (rtc_init P).
Proof. apply keeps_rtc_init_loop. Qed.

Lemma returns_rtc_init : returns (rtc_init P).
Proof. apply returns_rtc_init_loop. Qed.

Lemma keeps_poll_button (fuel : nat) (press_count : Z) :
  keeps fp_get_switch (poll_button P fuel press_count).
Proof.
  revert press_count. induction fuel as [| f IH]; intros press_count; simpl.
  - intros w. apply acts_refl.
  - apply keeps_bind.
    + intros w. exists [ATickGpio]. split; reflexivity.
    + intros v. destruct (v =? CYBSP_BTN_PRESSED P); [| apply keeps_ret].
      apply keeps_bind; [| intros _; apply IH].
      eapply keeps_sub; [| apply keeps_Delay]. unfold fp_get_switch. auto with fp.
Qed.

Lemma keeps_get_switch_event (fuel : nat) :
  keeps fp_get_switch (get_switch_event P fuel).
Proof.
  unfold get_switch_event. apply keeps_bind; [apply keeps_poll_button |].
  intros pc. apply keeps_bind; [| intros _; apply keeps_ret].
  eapply keeps_sub; [| apply keeps_Delay]. unfold fp_get_switch. auto with fp.
Qed.

End Frames.

Lemma fp_sub_union_lub (Q1 Q2 Q : footprint) :
  fp_sub Q1 Q -> fp_sub Q2 Q -> fp_sub (Q1 \/f Q2) Q.
Proof.
  intros H1 H2 a Ha. unfold fp_union in Ha.
  apply orb_true_iff in Ha. destruct Ha as [Ha | Ha]; auto.
Qed.
#[local] Hint Resolve fp_sub_union_lub : fp.

Section ControlFrames.

Variable P : platform.

Ltac into Q := unfold Q; solve [auto 14 with fp].

Ltac keeps_seq Q :=
  repeat first
    [ apply keeps_ret
    | apply keeps_emit; reflexivity
    | eapply keeps_sub; [| apply keeps_debug_printf]; into Q
    | eapply keeps_sub; [| apply keeps_Delay]; into Q
    | eapply keeps_sub; [| apply keeps_DeepSleep]; into Q
    | eapply keeps_sub; [| apply keeps_rtc_alarmconfig]; into Q
    | eapply keeps_sub; [| apply keeps_rtc_init]; into Q
    | eapply keeps_sub; [| apply keeps_handle_error]; into Q
    | apply keeps_when
    | apply keeps_bind; [| intro] ].

Lemma keeps_Hibernate :
  keeps fp_long (Cy_SysPm_SystemEnterHibernate P).
Proof.
  intros w. unfold Cy_SysPm_SystemEnterHibernate.
  exists [ATickHibernate; ALog (EvEnterHibernate (in_hibernate P (n_hibernate w)))].
  split; [reflexivity |].
  destruct (in_hibernate P (n_hibernate w)); reflexivity.
Qed.

Lemma keeps_switch_event (ev : en_switch_event_t) :
  keeps (fp_switch ev) (switch_event P ev).
Proof.
  destruct ev; simpl.
  - apply keeps_ret.
  - unfold switch_event. keeps_seq fp_short.
  - unfold switch_event.
    apply keeps_bind; [eapply keeps_sub; [| apply keeps_debug_printf]; into fp_long |].
    intros _. apply keeps_bind; [eapply keeps_sub; [| apply keeps_rtc_alarmconfig]; into fp_long |].
    intros _. apply keeps_bind; [eapply keeps_sub; [| apply keeps_Delay]; into fp_long |].
    intros _. apply keeps_bind; [apply keeps_emit; reflexivity |].
    intros _. apply keeps_bind; [apply keeps_Hibernate |].
    intros status. apply keeps_when.
    apply keeps_bind; [apply keeps_emit; reflexivity |].
    intros _. intros w. exists [ALog EvAssertFailed]. split; reflexivity.
Qed.

Lemma fp_switch_loop (ev : en_switch_event_t) : fp_sub (fp_switch ev) fp_loop.
Proof.
  destruct ev; simpl.
  - intros a Ha. discriminate Ha.
  - unfold fp_loop. auto with fp.
  - unfold fp_loop. auto with fp.
Qed.

Lemma keeps_loop_body (fuel : nat) : keeps fp_loop (loop_body P fuel).
Proof.
  unfold loop_body. apply keeps_bind.
  - eapply keeps_sub; [| apply keeps_get_switch_event]. unfold fp_loop. auto with fp.
  - intros ev. eapply keeps_sub; [apply fp_switch_loop | apply keeps_switch_event].
Qed.

Lemma keeps_main_loop (n fuel : nat) : keeps fp_loop (main_loop P n fuel).
Proof.
  induction n as [| n IH]; simpl.
  - apply keeps_ret.
  - apply keeps_bind; [apply keeps_loop_body | intros _; exact IH].
Qed.

Lemma keeps_bring_up : keeps fp_bring_up (bring_up P).
Proof.
  unfold bring_up, printf.
  repeat first
    [ apply keeps_emit; reflexivity
    | eapply keeps_sub; [| apply keeps_handle_error]; into fp_bring_up
    | apply keeps_when
    | apply keeps_modify with (a := ASetNvic true); reflexivity
    | (intros w; exists [ALog EvAssertFailed]; split; reflexivity)
    | apply keeps_bind; [| intro] ].
Qed.

Lemma keeps_check_reset_reason :
  keeps (fp_log HIB_WAKEUP_MSG) (check_reset_reason P).
Proof. apply keeps_when, keeps_debug_printf. Qed.

Lemma keeps___enable_irq : keeps fp_start_rtc __enable_irq.
Proof.
  intros w. exists [ASetIrq true; ALog EvEnableIrq]. split; reflexivity.
Qed.

Lemma keeps_start_rtc : keeps fp_start_rtc (start_rtc P).
Proof.
  unfold start_rtc.
  apply keeps_bind; [eapply keeps_sub; [| apply keeps_rtc_init]; into fp_start_rtc |].
  intros rtcSta. apply keeps_bind;
    [apply keeps_when; eapply keeps_sub; [| apply keeps_handle_error]; into fp_start_rtc |].
  intros _. apply keeps_bind;
    [eapply keeps_sub; [| apply keeps_debug_printf]; into fp_start_rtc |].
  intros _. apply keeps___enable_irq.
Qed.

Lemma keeps_startup : keeps fp_startup (startup P).
Proof.
  unfold startup.
  apply keeps_bind; [eapply keeps_sub; [| apply keeps_bring_up]; into fp_startup |].
  intros _. apply keeps_bind;
    [eapply keeps_sub; [| apply keeps_check_reset_reason]; into fp_startup |].
  intros _. eapply keeps_sub; [| apply keeps_start_rtc]. into fp_startup.
Qed.

End ControlFrames.

(** ** Code that does not look at [alarm_flag]

    Two worlds that differ in [alarm_flag] only are taken to the same result
    and to worlds that again differ in [alarm_flag] only. *)

Definition forget (w : world) : world := set_alarm_flag 0 w.

Definition blind {A} (c : M A) : Prop :=
  forall w1 w2,
    forget w1 = forget w2 ->
    fst (c w1) = fst (c w2) /\ forget (snd (c w1)) = forget (snd (c w2)).

Lemma blind_ret {A} (a : A) : blind (ret a).
Proof. intros w1 w2 H. split; [reflexivity | exact H]. Qed.

Lemma blind_bind {A B} (c : M A) (k : A -> M B) :
  blind c -> (forall a, blind (k a)) -> blind (bind c k).
Proof.
  intros Hc Hk w1 w2 H. unfold bind.
  destruct (Hc w1 w2 H) as [E1 E2].
  destruct (c w1) as [r1 v1], (c w2) as [r2 v2]. simpl in E1, E2. subst r2.
  destruct r1; simpl; [apply Hk; exact E2 | split; [reflexivity | exact E2] ..].
Qed.

Lemma blind_when (b : bool) (c : M unit) : blind c -> blind (when b c).
Proof. intros Hc. destruct b; [exact Hc | apply blind_ret]. Qed.

Ltac same_but_flag :=
  let H := fresh "H" in
  intros [f1 b1 i1 v1 r1 s1 c1 g1 h1 q1 t1] [f2 b2 i2 v2 r2 s2 c2 g2 h2 q2 t2] H;
  unfold forget, set_alarm_flag in H; simpl in H;
  injection H as -> -> -> -> -> -> -> -> -> ->.

Lemma blind_modify (a : action) : blind (modify (apply_action a)).
Proof. same_but_flag. destruct a; split; reflexivity. Qed.

Lemma blind_emit (e : event) : blind (emit e).
Proof. apply (blind_modify (ALog e)). Qed.

Section Blind.

Variable P : platform.

Lemma blind_interrupt_point : blind (interrupt_point P).
Proof.
  same_but_flag. unfold interrupt_point. simpl.
  destruct (in_alarm2 P q2 && i2 && v2); split; reflexivity.
Qed.

Lemma blind_Delay (ms : Z) : blind (Cy_SysLib_Delay P ms).
Proof.
  apply blind_bind; [apply blind_emit | intros _; apply blind_interrupt_point].
Qed.

Lemma blind_DeepSleep : blind (Cy_SysPm_CpuEnterDeepSleep P).
Proof.
  apply blind_bind; [apply blind_emit | intros _; apply blind_interrupt_point].
Qed.

Lemma blind_debug_printf (str : string) : blind (debug_printf P str).
Proof.
  same_but_flag. unfold debug_printf, bind, Cy_RTC_GetDateAndTime. simpl.
  destruct (convert_date_to_string_eq (in_clock P c2)) as [b ->].
  split; reflexivity.
Qed.

Lemma blind_Cy_RTC_Init : blind (Cy_RTC_Init P).
Proof. same_but_flag. split; reflexivity. Qed.

Lemma blind_Cy_RTC_SetAlarmDateAndTime : blind (Cy_RTC_SetAlarmDateAndTime P).
Proof. same_but_flag. split; reflexivity. Qed.

Lemma blind_Cy_GPIO_Read : blind (Cy_GPIO_Read P).
Proof. same_but_flag. split; reflexivity. Qed.

Lemma blind_Hibernate : blind (Cy_SysPm_SystemEnterHibernate P).
Proof.
  same_but_flag. unfold Cy_SysPm_SystemEnterHibernate. simpl.
  destruct (in_hibernate P h2); split; reflexivity.
Qed.

Lemma blind_CY_ASSERT_0 : blind CY_ASSERT_0.
Proof. same_but_flag. split; reflexivity. Qed.

Lemma blind_handle_error : blind handle_error.
Proof. same_but_flag. split; reflexivity. Qed.

Lemma blind_rtc_init_loop (remaining : nat) : blind (rtc_init_loop P remaining).
Proof.
  induction remaining as [| n IH]; simpl;
    (apply blind_bind; [apply blind_Cy_RTC_Init |]);
    intros r; (apply blind_bind; [apply blind_Delay |]); intros _.
  - apply blind_ret.
  - destruct (rtc_ok r); [apply blind_ret | exact IH].
Qed.

Lemma blind_rtc_alarmconfig_loop (remaining : nat) :
  blind (rtc_alarmconfig_loop P remaining).
Proof.
  induction remaining as [| n IH]; simpl;
    (apply blind_bind; [apply blind_Cy_RTC_SetAlarmDateAndTime |]);
    intros r; (apply blind_bind; [apply blind_Delay |]); intros _.
  - apply blind_ret.
  - destruct (rtc_ok r); [apply blind_ret | exact IH].
Qed.

Lemma blind_rtc_alarmconfig : blind (rtc_alarmconfig P).
Proof.
  apply blind_bind; [apply blind_debug_printf |].
  intros _. apply blind_rtc_alarmconfig_loop.
Qed.

Lemma blind_poll_button (fuel : nat) (press_count : Z) :
  blind (poll_button P fuel press_count).
Proof.
  revert press_count. induction fuel as [| f IH]; intros press_count; simpl.
  - intros w1 w2 H. split; [reflexivity | exact H].
  - apply blind_bind; [apply blind_Cy_GPIO_Read |].
    intros v. destruct (v =? CYBSP_BTN_PRESSED P); [| apply blind_ret].
    apply blind_bind; [apply blind_Delay | intros _; apply IH].
Qed.

Lemma blind_get_switch_event (fuel : nat) : blind (get_switch_event P fuel).
Proof.
  apply blind_bind; [apply blind_poll_button |].
  intros pc. apply blind_bind; [apply blind_Delay | intros _; apply blind_ret].
Qed.

Lemma blind_switch_event (ev : en_switch_event_t) : blind (switch_event P ev).
Proof.
  destruct ev; unfold switch_event, printf.
  - apply blind_ret.
  - repeat first
      [ apply blind_debug_printf | apply blind_rtc_alarmconfig | apply blind_Delay
      | apply blind_DeepSleep | apply blind_bind; [| intro] ].
  - repeat first
      [ apply blind_debug_printf | apply blind_rtc_alarmconfig | apply blind_Delay
      | apply blind_Hibernate | apply blind_CY_ASSERT_0 | apply blind_emit
      | apply blind_when | apply blind_bind; [| intro] ].
Qed.

Lemma blind_loop_body (fuel : nat) : blind (loop_body P fuel).
Proof.
  apply blind_bind; [apply blind_get_switch_event | intros ev; apply blind_switch_event].
Qed.

Lemma blind_main_loop (n fuel : nat) : blind (main_loop P n fuel).
Proof.
  induction n as [| n IH]; simpl.
  - apply blind_ret.
  - apply blind_bind; [apply blind_loop_body | intros _; exact IH].
Qed.

Lemma blind_startup : blind (startup P).
Proof.
  unfold startup, bring_up, check_reset_reason, start_rtc, printf, __enable_irq.
  repeat first
    [ apply blind_debug_printf | apply blind_handle_error | apply blind_CY_ASSERT_0
    | apply blind_rtc_init_loop | apply blind_emit
    | apply (blind_modify (ASetNvic true)) | apply (blind_modify (ASetIrq true))
    | apply blind_when | apply blind_bind; [| intro] ].
Qed.

End Blind.

(** ** Running pieces of the firmware *)

Lemma bind_ret_run {A B} (c : M A) (k : A -> M B) (w w1 : world) (a : A) :
  c w = (Ret a, w1) -> bind c k w = k a w1.
Proof. intros H. unfold bind. rewrite H. reflexivity. Qed.

Definition count_events (f : event -> bool) (tr : list event) : nat :=
  List.length (filter f tr).

Lemma count_events_app (f : event -> bool) (l1 l2 : list event) :
  count_events f (l1 ++ l2) = (count_events f l1 + count_events f l2)%nat.
Proof. unfold count_events. rewrite filter_app, length_app. reflexivity. Qed.

Lemma string_app_assoc (a b c : string) :
  ((a ++ b) ++ c)%string = (a ++ b ++ c)%string.
Proof. induction a as [| x a IH]; simpl; [reflexivity | rewrite IH; reflexivity]. Qed.

Section Runs.

Variable P : platform.

(** A delay moves no cursor but the interrupt one and adds one trace entry. *)
Lemma Delay_run (ms : Z) (w : world) :
  exists w',
    Cy_SysLib_Delay P ms w = (Ret tt, w') /\
    trace w' = trace w ++ [EvDelay ms] /\
    n_set_alarm w' = n_set_alarm w /\
    n_rtc_init w' = n_rtc_init w /\
    n_gpio w' = n_gpio w /\
    n_hibernate w' = n_hibernate w /\
    irq_enabled w' = irq_enabled w.
Proof.
  unfold Cy_SysLib_Delay, bind, emit, modify, interrupt_point. simpl.
  destruct (in_alarm2 P (n_irq w) && irq_enabled w && nvic_rtc w);
    eexists; repeat split; reflexivity.
Qed.

Lemma DeepSleep_run (w : world) :
  exists w',
    Cy_SysPm_CpuEnterDeepSleep P w = (Ret tt, w') /\
    trace w' = trace w ++ [EvDeepSleep] /\
    n_hibernate w' = n_hibernate w /\
    irq_enabled w' = irq_enabled w.
Proof.
  unfold Cy_SysPm_CpuEnterDeepSleep, bind, emit, modify, interrupt_point. simpl.
  destruct (in_alarm2 P (n_irq w) && irq_enabled w && nvic_rtc w);
    eexists; repeat split; reflexivity.
Qed.

Lemma debug_printf_run (str : string) (w : world) :
  exists b w',
    debug_printf P str w = (Ret tt, w') /\
    trace w' = trace w ++ [EvLogLine b str] /\
    n_set_alarm w' = n_set_alarm w /\
    n_rtc_init w' = n_rtc_init w /\
    n_gpio w' = n_gpio w /\
    n_hibernate w' = n_hibernate w /\
    irq_enabled w' = irq_enabled w.
Proof.
  destruct (debug_printf_eq P str w) as [b ->].
  exists b. eexists. repeat split; reflexivity.
Qed.

(** The retry loop of [rtc_alarmconfig] stops at pass k+1 when the first k
    answers are failures and either the budget ends there or answer k+1 is
    a success. *)
Lemma rtc_alarmconfig_loop_stops (k remaining : nat) (w : world) :
  (k <= remaining)%nat ->
  (forall i, (i < k)%nat -> rtc_ok (in_set_alarm P (n_set_alarm w + i)) = false) ->
  ((k < remaining)%nat -> rtc_ok (in_set_alarm P (n_set_alarm w + k)) = true) ->
  exists w',
    rtc_alarmconfig_loop P remaining w = (Ret (in_set_alarm P (n_set_alarm w + k)), w') /\
    n_set_alarm w' = (n_set_alarm w + k + 1)%nat /\
    count_events is_set_alarm (trace w') =
      (count_events is_set_alarm (trace w) + k + 1)%nat.
Proof.
  revert remaining w. induction k as [| k IH]; intros remaining w Hk Hfail Hok.
  - set (r := in_set_alarm P (n_set_alarm w)).
    set (w1 := log_event (EvSetAlarm r) (tick_set_alarm w)).
    destruct (Delay_run INIT_DELAY_MS w1) as (w2 & Hrun & Htr & Hn & _).
    exists w2. rewrite Nat.add_0_r in *. fold r. fold r in Hok.
    split; [| split].
    + destruct remaining as [| n]; simpl;
        rewrite (bind_ret_run _ _ w w1 r) by reflexivity;
        rewrite (bind_ret_run _ _ w1 w2 tt) by exact Hrun.
      * reflexivity.
      * rewrite Hok by lia. reflexivity.
    + rewrite Hn. unfold w1. cbn [n_set_alarm log_event tick_set_alarm]. lia.
    + rewrite Htr. unfold w1. cbn [trace log_event tick_set_alarm].
      rewrite !count_events_app. cbn. lia.
  - destruct remaining as [| n]; [lia |].
    set (r := in_set_alarm P (n_set_alarm w)).
    set (w1 := log_event (EvSetAlarm r) (tick_set_alarm w)).
    destruct (Delay_run INIT_DELAY_MS w1) as (w2 & Hrun & Htr & Hn & _).
    assert (Hr : rtc_ok r = false).
    { unfold r. rewrite <- (Nat.add_0_r (n_set_alarm w)). apply Hfail. lia. }
    assert (Hc : n_set_alarm w2 = S (n_set_alarm w)) by (rewrite Hn; reflexivity).
    destruct (IH n w2) as (w' & Hloop & Hn' & Hcount).
    + lia.
    + intros i Hi. rewrite Hc.
      replace (S (n_set_alarm w) + i)%nat with (n_set_alarm w + S i)%nat by lia.
      apply Hfail. lia.
    + intros Hlt. rewrite Hc.
      replace (S (n_set_alarm w) + k)%nat with (n_set_alarm w + S k)%nat by lia.
      apply Hok. lia.
    + exists w'. simpl.
      rewrite (bind_ret_run _ _ w w1 r) by reflexivity.
      rewrite (bind_ret_run _ _ w1 w2 tt) by exact Hrun.
      rewrite Hr, Hloop, Hn', Hcount, Hc, Htr.
      replace (S (n_set_alarm w) + k)%nat with (n_set_alarm w + S k)%nat by lia.
      split; [reflexivity | split; [lia |]].
      unfold w1. cbn [trace log_event tick_set_alarm].
      rewrite !count_events_app. cbn. lia.
Qed.

(** The same for the retry loop of [rtc_init]. *)
Lemma rtc_init_loop_stops (k remaining : nat) (w : world) :
  (k <= remaining)%nat ->
  (forall i, (i < k)%nat -> rtc_ok (in_rtc_init P (n_rtc_init w + i)) = false) ->
  ((k < remaining)%nat -> rtc_ok (in_rtc_init P (n_rtc_init w + k)) = true) ->
  exists w',
    rtc_init_loop P remaining w = (Ret (in_rtc_init P (n_rtc_init w + k)), w') /\
    n_rtc_init w' = (n_rtc_init w + k + 1)%nat /\
    count_events is_rtc_init (trace w') =
      (count_events is_rtc_init (trace w) + k + 1)%nat.
Proof.
  revert remaining w. induction k as [| k IH]; intros remaining w Hk Hfail Hok.
  - set (r := in_rtc_init P (n_rtc_init w)).
    set (w1 := log_event (EvRtcInit r) (tick_rtc_init w)).
    destruct (Delay_run INIT_DELAY_MS w1) as (w2 & Hrun & Htr & _ & Hn & _).
    exists w2. rewrite Nat.add_0_r in *. fold r. fold r in Hok.
    split; [| split].
    + destruct remaining as [| n]; simpl;
        rewrite (bind_ret_run _ _ w w1 r) by reflexivity;
        rewrite (bind_ret_run _ _ w1 w2 tt) by exact Hrun.
      * reflexivity.
      * rewrite Hok by lia. reflexivity.
    + rewrite Hn. unfold w1. cbn [n_rtc_init log_event tick_rtc_init]. lia.
    + rewrite Htr. unfold w1. cbn [trace log_event tick_rtc_init].
      rewrite !count_events_app. cbn. lia.
  - destruct remaining as [| n]; [lia |].
    set (r := in_rtc_init P (n_rtc_init w)).
    set (w1 := log_event (EvRtcInit r) (tick_rtc_init w)).
    destruct (Delay_run INIT_DELAY_MS w1) as (w2 & Hrun & Htr & _ & Hn & _).
    assert (Hr : rtc_ok r = false).
    { unfold r. rewrite <- (Nat.add_0_r (n_rtc_init w)). apply Hfail. lia. }
    assert (Hc : n_rtc_init w2 = S (n_rtc_init w)) by (rewrite Hn; reflexivity).
    destruct (IH n w2) as (w' & Hloop & Hn' & Hcount).
    + lia.
    + intros i Hi. rewrite Hc.
      replace (S (n_rtc_init w) + i)%nat with (n_rtc_init w + S i)%nat by lia.
      apply Hfail. lia.
    + intros Hlt. rewrite Hc.
      replace (S (n_rtc_init w) + k)%nat with (n_rtc_init w + S k)%nat by lia.
      apply Hok. lia.
    + exists w'. simpl.
      rewrite (bind_ret_run _ _ w w1 r) by reflexivity.
      rewrite (bind_ret_run _ _ w1 w2 tt) by exact Hrun.
      rewrite Hr, Hloop, Hn', Hcount, Hc, Htr.
      replace (S (n_rtc_init w) + k)%nat with (n_rtc_init w + S k)%nat by lia.
      split; [reflexivity | split; [lia |]].
      unfold w1. cbn [trace log_event tick_rtc_init].
      rewrite !count_events_app. cbn. lia.
Qed.

End Runs.

Lemma count_events_pos (f : event -> bool) (l : list event) :
  (0 < count_events f l)%nat -> exists e, In e l /\ f e = true.
Proof.
  unfold count_events. induction l as [| x l IH]; simpl; [lia |].
  destruct (f x) eqn:Hx; intros H.
  - exists x. auto.
  - destruct (IH H) as (e & He & Hf). exists e. auto.
Qed.

(** Whatever the answers are, there is a pass at which a retry loop with a
    budget of [remaining + 1] passes stops. *)
Lemma stopping_pass (script : nat -> cy_en_rtc_status_t) (c remaining : nat) :
  exists k,
    (k <= remaining)%nat /\
    (forall i, (i < k)%nat -> rtc_ok (script (c + i)%nat) = false) /\
    ((k < remaining)%nat -> rtc_ok (script (c + k)%nat) = true).
Proof.
  revert c. induction remaining as [| n IH]; intros c.
  - exists 0%nat. repeat split; intros; lia.
  - destruct (rtc_ok (script c)) eqn:Hc.
    + exists 0%nat. repeat split; intros; try lia. rewrite Nat.add_0_r. exact Hc.
    + destruct (IH (S c)) as (k & Hk & Hfail & Hok).
      exists (S k). repeat split; [lia | |].
      * intros i Hi. destruct i as [| i]; [rewrite Nat.add_0_r; exact Hc |].
        replace (c + S i)%nat with (S c + i)%nat by lia. apply Hfail. lia.
      * intros Hlt. replace (c + S k)%nat with (S c + k)%nat by lia. apply Hok. lia.
Qed.

Definition hibernate_result (P : platform) (r : option Z) : result unit :=
  match r with
  | None => PowerDown
  | Some s => if CY_SYSPM_SUCCESS P =? s then Ret tt else Stop
  end.

Definition hibernate_tail (P : platform) (r : option Z) : list event :=
  match r with
  | None => []
  | Some s => if CY_SYSPM_SUCCESS P =? s then [] else [EvPrintf MSG_NO_HIBERNATE; EvAssertFailed]
  end.

Definition HAL_SET_WAKEUP : event := EvHal "Cy_SysPm_SetHibernateWakeupSource".

Section Paths.

Variable P : platform.

Ltac frame_same :=
  let a := fresh "a" in
  let H := fresh "H" in
  intros a ? H; destruct a; try reflexivity; try discriminate H.

(** [rtc_alarmconfig] always returns, after 1 to 500 attempts, and touches
    neither the interrupt mask nor the hibernate call. *)
Lemma rtc_alarmconfig_run (w : world) :
  exists r w' arm,
    rtc_alarmconfig P w = (Ret r, w') /\
    trace w' = trace w ++ arm /\
    Forall (fun e => fp_alarmconfig (ALog e) = true) arm /\
    (1 <= count_events is_set_alarm arm <= 500)%nat /\
    n_hibernate w' = n_hibernate w /\
    irq_enabled w' = irq_enabled w.
Proof.
  pose proof (keeps_rtc_alarmconfig P w) as Hacts.
  destruct (debug_printf_run P MSG_ALARM w) as (b & w1 & Hlog & Htr1 & Hn1 & _).
  destruct (stopping_pass (in_set_alarm P) (n_set_alarm w1) 499)
    as (k & Hk & Hfail & Hok).
  destruct (rtc_alarmconfig_loop_stops P k 499 w1 Hk Hfail Hok)
    as (w' & Hloop & _ & Hcount).
  assert (Hrun : rtc_alarmconfig P w = (Ret (in_set_alarm P (n_set_alarm w1 + k)), w')).
  { unfold rtc_alarmconfig.
    change (Z.to_nat ((MAX_ATTEMPTS - 1) mod UINT32_MOD)) with 499%nat.
    rewrite (bind_ret_run _ _ w w1 tt) by exact Hlog. exact Hloop. }
  rewrite Hrun in Hacts. simpl in Hacts.
  destruct (acts_trace _ _ _ Hacts) as (arm & Harm & Hall).
  exists (in_set_alarm P (n_set_alarm w1 + k)), w', arm.
  repeat split; try assumption.
  - rewrite Harm, Htr1, !count_events_app in Hcount. cbn in Hcount. lia.
  - rewrite Harm, Htr1, !count_events_app in Hcount. cbn in Hcount. lia.
  - apply (acts_same n_hibernate fp_alarmconfig); [frame_same | exact Hacts].
  - apply (acts_same irq_enabled fp_alarmconfig); [frame_same | exact Hacts].
Qed.

(** The Short branch of the switch. *)
Lemma switch_short_run (w : world) :
  exists w' b1 arm b2,
    switch_event P SWITCH_SHORT_PRESS w = (Ret tt, w') /\
    trace w' = trace w ++ [EvLogLine b1 MSG_GO_DEEPSLEEP] ++ arm ++
                 [EvDelay LONG_GLITCH_DELAY_MS; EvDeepSleep;
                  EvLogLine b2 MSG_WAKE_DEEPSLEEP] /\
    Forall (fun e => fp_alarmconfig (ALog e) = true) arm /\
    (1 <= count_events is_set_alarm arm <= 500)%nat.
Proof.
  destruct (debug_printf_run P MSG_GO_DEEPSLEEP w) as (b1 & w1 & H1 & T1 & _).
  destruct (rtc_alarmconfig_run w1) as (r & w2 & arm & H2 & T2 & Harm & Hcnt & _).
  destruct (Delay_run P LONG_GLITCH_DELAY_MS w2) as (w3 & H3 & T3 & _).
  destruct (DeepSleep_run P w3) as (w4 & H4 & T4 & _).
  destruct (debug_printf_run P MSG_WAKE_DEEPSLEEP w4) as (b2 & w5 & H5 & T5 & _).
  exists w5, b1, arm, b2. repeat split; try assumption; try lia.
  - unfold switch_event.
    rewrite (bind_ret_run _ _ w w1 tt) by exact H1.
    rewrite (bind_ret_run _ _ w1 w2 r) by exact H2.
    rewrite (bind_ret_run _ _ w2 w3 tt) by exact H3.
    rewrite (bind_ret_run _ _ w3 w4 tt) by exact H4.
    exact H5.
  - rewrite T5, T4, T3, T2, T1. rewrite <- !app_assoc. reflexivity.
Qed.

(** The Long branch of the switch. *)
Lemma switch_long_run (w : world) :
  exists w' b1 arm,
    switch_event P SWITCH_LONG_PRESS w =
      (hibernate_result P (in_hibernate P (n_hibernate w)), w') /\
    trace w' = trace w ++ [EvLogLine b1 MSG_GO_HIBERNATE] ++ arm ++
                 [EvDelay LONG_GLITCH_DELAY_MS; HAL_SET_WAKEUP;
                  EvEnterHibernate (in_hibernate P (n_hibernate w))] ++
                 hibernate_tail P (in_hibernate P (n_hibernate w)) /\
    Forall (fun e => fp_alarmconfig (ALog e) = true) arm /\
    (1 <= count_events is_set_alarm arm <= 500)%nat /\
    irq_enabled w' = irq_enabled w.
Proof.
  destruct (debug_printf_run P MSG_GO_HIBERNATE w)
    as (b1 & w1 & H1 & T1 & _ & _ & _ & N1 & I1).
  destruct (rtc_alarmconfig_run w1) as (r & w2 & arm & H2 & T2 & Harm & Hcnt & N2 & I2).
  destruct (Delay_run P LONG_GLITCH_DELAY_MS w2)
    as (w3 & H3 & T3 & _ & _ & _ & N3 & I3).
  set (w4 := log_event HAL_SET_WAKEUP w3).
  assert (N4 : n_hibernate w4 = n_hibernate w).
  { unfold w4. cbn [n_hibernate log_event]. rewrite N3, N2, N1. reflexivity. }
  assert (I4 : irq_enabled w4 = irq_enabled w).
  { unfold w4. cbn [irq_enabled log_event]. rewrite I3, I2, I1. reflexivity. }
  assert (T4 : trace w4 = trace w ++ [EvLogLine b1 MSG_GO_HIBERNATE] ++ arm ++
                            [EvDelay LONG_GLITCH_DELAY_MS; HAL_SET_WAKEUP]).
  { unfold w4. cbn [trace log_event]. rewrite T3, T2, T1.
    rewrite <- !app_assoc. reflexivity. }
  assert (Hrun : switch_event P SWITCH_LONG_PRESS w =
                 (status <- Cy_SysPm_SystemEnterHibernate P ;;
                  when (negb (CY_SYSPM_SUCCESS P =? status))
                    (printf MSG_NO_HIBERNATE ;;; CY_ASSERT_0)) w4).
  { unfold switch_event.
    rewrite (bind_ret_run _ _ w w1 tt) by exact H1.
    rewrite (bind_ret_run _ _ w1 w2 r) by exact H2.
    rewrite (bind_ret_run _ _ w2 w3 tt) by exact H3.
    rewrite (bind_ret_run _ _ w3 w4 tt) by reflexivity.
    reflexivity. }
  rewrite Hrun. unfold bind at 1, Cy_SysPm_SystemEnterHibernate.
  rewrite N4. unfold hibernate_result, hibernate_tail.
  destruct (in_hibernate P (n_hibernate w)) as [s |].
  - destruct (CY_SYSPM_SUCCESS P =? s); simpl.
    + eexists. exists b1, arm. repeat split; try assumption; try lia.
      cbn [trace log_event tick_hibernate]. rewrite T4.
      rewrite <- !app_assoc. reflexivity.
    + eexists. exists b1, arm. repeat split; try assumption; try lia.
      cbn [trace log_event tick_hibernate]. rewrite T4.
      rewrite <- !app_assoc. reflexivity.
  - eexists. exists b1, arm. repeat split; try assumption; try lia.
    cbn [trace log_event tick_hibernate]. rewrite T4.
    rewrite <- !app_assoc. reflexivity.
Qed.

End Paths.

Lemma rtc_ok_false (r : cy_en_rtc_status_t) :
  r <> CY_RTC_SUCCESS -> rtc_ok r = false.
Proof. destruct r; [congruence | reflexivity ..]. Qed.

Lemma rtc_ok_true (r : cy_en_rtc_status_t) :
  rtc_ok r = true -> r = CY_RTC_SUCCESS.
Proof. destruct r; [reflexivity | discriminate ..]. Qed.

Lemma count_events_none (Q f : event -> bool) (l : list event) :
  (forall e, Q e = true -> f e = false) ->
  Forall (fun e => Q e = true) l ->
  count_events f l = 0%nat.
Proof.
  intros HQ Hall. unfold count_events.
  induction Hall as [| e l He _ IH]; [reflexivity |].
  simpl. rewrite (HQ e He). exact IH.
Qed.

Lemma count_events_zero_not_in (f : event -> bool) (l : list event) (e : event) :
  count_events f l = 0%nat -> f e = true -> ~ In e l.
Proof.
  unfold count_events. induction l as [| x l IH]; simpl; intros H He Hin; [exact Hin |].
  destruct Hin as [-> | Hin].
  - rewrite He in H. discriminate H.
  - destruct (f x); [discriminate H | exact (IH H He Hin)].
Qed.

(** Start-up gets as far as the reset-reason query when all four set-up
    calls report success. *)
Definition bring_up_ok (P : platform) : bool :=
  (in_cybsp_init P =? CY_RSLT_SUCCESS P) &&
  (in_uart_init P =? CY_RSLT_SUCCESS P) &&
  (in_hal_uart_setup P =? CY_RSLT_SUCCESS P) &&
  (in_retarget_io_init P =? CY_RSLT_SUCCESS P).

(** The test main.c makes on the reset reason. *)
Definition hib_wakeup_reset (P : platform) : bool :=
  CY_SYSLIB_RESET_HIB_WAKEUP P =?
  Z.land (in_reset_reason P) (CY_SYSLIB_RESET_HIB_WAKEUP P).

Definition logs_hib_wakeup (tr : list event) : Prop :=
  exists b, In (EvLogLine b HIB_WAKEUP_MSG) tr.

Section Measure.

Variable P : platform.

Lemma bring_up_result (w : world) :
  fst (bring_up P w) = if bring_up_ok P then Ret tt else Stop.
Proof.
  unfold bring_up, bring_up_ok, bind, when, emit, printf, modify, handle_error,
    __disable_irq, CY_ASSERT_0, ret.
  destruct (in_cybsp_init P =? CY_RSLT_SUCCESS P); [| reflexivity].
  destruct (in_io_frozen P);
    (destruct (in_uart_init P =? CY_RSLT_SUCCESS P); [| reflexivity]);
    (destruct (in_hal_uart_setup P =? CY_RSLT_SUCCESS P); [| reflexivity]);
    (destruct (in_retarget_io_init P =? CY_RSLT_SUCCESS P); reflexivity).
Qed.

(** The button held for [d] polls and then released: the loop of
    [get_switch_event] counts [d] (modulo 2^32). *)
Lemma poll_button_counts (d fuel : nat) (press_count : Z) (w : world) :
  (d < fuel)%nat ->
  0 <= press_count < UINT32_MOD ->
  (forall i, (i < d)%nat -> in_gpio P (n_gpio w + i) = CYBSP_BTN_PRESSED P) ->
  in_gpio P (n_gpio w + d) <> CYBSP_BTN_PRESSED P ->
  exists w',
    poll_button P fuel press_count w =
    (Ret ((press_count + Z.of_nat d) mod UINT32_MOD), w').
Proof.
  revert fuel press_count w.
  induction d as [| d IH]; intros fuel pc w Hfuel Hpc Hheld Hrel;
    (destruct fuel as [| f]; [lia |]); simpl.
  - rewrite (bind_ret_run _ _ w (tick_gpio w) (in_gpio P (n_gpio w))) by reflexivity.
    rewrite Nat.add_0_r in Hrel. apply Z.eqb_neq in Hrel. rewrite Hrel.
    exists (tick_gpio w). unfold ret. rewrite Z.add_0_r, Z.mod_small by exact Hpc.
    reflexivity.
  - rewrite (bind_ret_run _ _ w (tick_gpio w) (in_gpio P (n_gpio w))) by reflexivity.
    assert (H0 : in_gpio P (n_gpio w) = CYBSP_BTN_PRESSED P).
    { rewrite <- (Nat.add_0_r (n_gpio w)). apply Hheld. lia. }
    rewrite H0, Z.eqb_refl.
    destruct (Delay_run P SHORT_GLITCH_DELAY_MS (tick_gpio w))
      as (w2 & Hrun & _ & _ & _ & Hg & _).
    rewrite (bind_ret_run _ _ _ w2 tt) by exact Hrun.
    assert (Hc : n_gpio w2 = S (n_gpio w)) by (rewrite Hg; reflexivity).
    destruct (IH f ((pc + 1) mod UINT32_MOD) w2) as (w' & Hloop).
    + lia.
    + apply Z.mod_pos_bound. reflexivity.
    + intros i Hi. rewrite Hc.
      replace (S (n_gpio w) + i)%nat with (n_gpio w + S i)%nat by lia.
      apply Hheld. lia.
    + rewrite Hc. replace (S (n_gpio w) + d)%nat with (n_gpio w + S d)%nat by lia.
      exact Hrel.
    + exists w'. rewrite Hloop. f_equal. f_equal.
      rewrite Zplus_mod_idemp_l. f_equal. lia.
Qed.

(** [get_switch_event] returns the class of the measured duration. *)
Lemma get_switch_event_measures (d fuel : nat) (w : world) :
  (d < fuel)%nat ->
  (forall i, (i < d)%nat -> in_gpio P (n_gpio w + i) = CYBSP_BTN_PRESSED P) ->
  in_gpio P (n_gpio w + d) <> CYBSP_BTN_PRESSED P ->
  exists w',
    get_switch_event P fuel w =
    (Ret (classify_press (Z.of_nat d mod UINT32_MOD)), w').
Proof.
  intros Hfuel Hheld Hrel.
  destruct (poll_button_counts d fuel 0 w Hfuel) as (w1 & Hpoll); try assumption.
  { unfold UINT32_MOD. lia. }
  destruct (Delay_run P SHORT_GLITCH_DELAY_MS w1) as (w2 & Hrun & _).
  exists w2. unfold get_switch_event.
  rewrite (bind_ret_run _ _ w w1 _) by exact Hpoll.
  rewrite (bind_ret_run _ _ w1 w2 tt) by exact Hrun.
  reflexivity.
Qed.

End Measure.

(** ** Traces of sequenced code *)

Lemma logs_hib_wakeup_app (l1 l2 : list event) :
  logs_hib_wakeup (l1 ++ l2) <-> logs_hib_wakeup l1 \/ logs_hib_wakeup l2.
Proof.
  unfold logs_hib_wakeup. split.
  - intros (b & Hb). apply in_app_or in Hb. destruct Hb; [left | right]; eauto.
  - intros [(b & Hb) | (b & Hb)]; exists b; apply in_or_app; auto.
Qed.

Lemma not_logged (Q : footprint) (l : list event) :
  (forall b, Q (ALog (EvLogLine b HIB_WAKEUP_MSG)) = false) ->
  Forall (fun e => Q (ALog e) = true) l ->
  ~ logs_hib_wakeup l.
Proof.
  intros HQ Hall (b & Hb). rewrite Forall_forall in Hall.
  specialize (Hall _ Hb). rewrite HQ in Hall. discriminate Hall.
Qed.

Lemma bind_extends {A B} (Q : footprint) (c : M A) (k : A -> M B) (w : world) :
  (forall a, keeps Q (k a)) ->
  exists rest,
    trace (snd (bind c k w)) = trace (snd (c w)) ++ rest /\
    Forall (fun e => Q (ALog e) = true) rest.
Proof.
  intros Hk. unfold bind. destruct (c w) as [[a | | |] w1]; simpl;
    try (exists []; split; [symmetry; apply app_nil_r | constructor]).
  apply (acts_trace Q), Hk.
Qed.

Lemma keeps_main (P : platform) (n fuel : nat) :
  keeps fp_main (startup P ;;; main_loop P n fuel).
Proof.
  apply keeps_bind.
  - eapply keeps_sub; [| apply keeps_startup]. unfold fp_main. auto with fp.
  - intros _. eapply keeps_sub; [| apply keeps_main_loop]. unfold fp_main. auto with fp.
Qed.

(** ** Bench platforms *)

(** 1:02:03 on day 6 of month 9 of year 5: every field has one digit. *)
Definition clock_1_2_3 : cy_stc_rtc_config_t := mk_rtc_config 3 2 1 6 9 5.

(** The button reads pressed (0) for the first [d] polls, then released. *)
Definition held_for (d : nat) : nat -> Z :=
  fun n => if (n <? d)%nat then 0 else 1.

(** A board on which set-up succeeds, the reset was not a hibernate wake-up
    and the clock reads [clock_1_2_3]. *)
Definition bench (alarm : nat -> cy_en_rtc_status_t) (gpio : nat -> Z)
    (hib : nat -> option Z) (irq : nat -> bool) : platform :=
  mk_platform 0 0 0 262144 0 false 0 0 0 0 false
    (fun _ => CY_RTC_SUCCESS) alarm (fun _ => clock_1_2_3) gpio hib irq.

Definition lastn {A} (n : nat) (l : list A) : list A := rev (firstn n (rev l)).

(** Short press; the RTC is busy at every attempt to set the alarm. *)
Definition bench_rtc_busy : platform :=
  bench (fun _ => CY_RTC_INVALID_STATE) (held_for 11) (fun _ => None) (fun _ => false).

(** Long press; every attempt to set the alarm times out; the device then
    powers down. *)
Definition bench_rtc_timeout : platform :=
  bench (fun _ => CY_RTC_TIMEOUT) (held_for 201) (fun _ => None) (fun _ => false).

(** Short press; the alarm is set at once and fires during the deep sleep
    (the 16th interruptible point of the run). *)
Definition bench_alarm_fires : platform :=
  bench (fun _ => CY_RTC_SUCCESS) (held_for 11) (fun _ => None) (fun n => (n =? 15)%nat).

(** Long press; the alarm is set at once; the platform refuses to hibernate
    (status 1, success being 0). *)
Definition bench_hibernate_refused : platform :=
  bench (fun _ => CY_RTC_SUCCESS) (held_for 201) (fun _ => Some 1) (fun _ => false).

(** The first three attempts to set the alarm fail, the fourth succeeds. *)
Definition bench_three_failures : platform :=
  bench (fun n => if (n <? 3)%nat then CY_RTC_INVALID_STATE else CY_RTC_SUCCESS)
        (held_for 11) (fun _ => None) (fun _ => false).

(** The time at which main.c's own alarm template points: 10:00:10. *)
Definition clock_10_0_10 : cy_stc_rtc_config_t := mk_rtc_config 10 0 10 6 9 24.

(** * The claims *)

(** ** Press classification *)

(** The thresholds of main.c:401-409, on the value of [press_count]. *)
Lemma classify_press_thresholds (m : Z) :
  (classify_press m = SWITCH_LONG_PRESS <-> 200 < m) /\
  (classify_press m = SWITCH_SHORT_PRESS <-> 10 < m <= 200) /\
  (classify_press m = SWITCH_NO_EVENT <-> m <= 10).
Proof.
  unfold classify_press, LONG_PRESS_COUNT, SHORT_PRESS_COUNT.
  destruct (Z.gtb_spec m 200) as [Hl | Hl].
  - repeat split; intros; try lia; try discriminate; reflexivity.
  - destruct (Z.gtb_spec m 10) as [Hs | Hs];
      repeat split; intros; try lia; try discriminate; reflexivity.
Qed.

(** The event [ev] is the class of the duration [m], in 10 ms quanta. *)
Definition classified_as (ev : en_switch_event_t) (m : Z) : Prop :=
  (ev = SWITCH_LONG_PRESS <-> 200 < m) /\
  (ev = SWITCH_SHORT_PRESS <-> 10 < m <= 200) /\
  (ev = SWITCH_NO_EVENT <-> m <= 10).

(** What [get_switch_event] returns for a press of [d] polls: the class of
    the value its [uint32_t] counter then has, which is [d] itself below
    2^32. *)
Definition press_classified (P : platform) (d fuel : nat) (w : world) : Prop :=
  exists ev w',
    get_switch_event P fuel w = (Ret ev, w') /\
    classified_as ev (Z.of_nat d mod UINT32_MOD) /\
    (Z.of_nat d < UINT32_MOD -> classified_as ev (Z.of_nat d)).

(** A board whose button reads pressed for the first [d] polls. *)
Definition bench_held (d : nat) : platform :=
  bench (fun _ => CY_RTC_SUCCESS) (held_for d) (fun _ => None) (fun _ => false).

Lemma bench_held_pressed (d i : nat) :
  (i < d)%nat ->
  in_gpio (bench_held d) (n_gpio (boot (bench_held d)) + i) =
  CYBSP_BTN_PRESSED (bench_held d).
Proof.
  intros Hi. cbn [in_gpio bench_held bench n_gpio boot CYBSP_BTN_PRESSED Nat.add].
  unfold held_for. destruct (Nat.ltb_spec i d); [reflexivity | lia].
Qed.

Lemma bench_held_released (d : nat) :
  in_gpio (bench_held d) (n_gpio (boot (bench_held d)) + d) <>
  CYBSP_BTN_PRESSED (bench_held d).
Proof.
  cbn [in_gpio bench_held bench n_gpio boot CYBSP_BTN_PRESSED Nat.add].
  unfold held_for. destruct (Nat.ltb_spec d d); [lia | discriminate].
Qed.

(** C4: the event [get_switch_event] returns is a function of the measured
    duration d alone (the number of polls, 10 ms apart, at which the button
    read pressed before it read released): Long when d > 200, else Short
    when d > 10, else none, so that a duration exactly at a threshold falls
    into the lower class.  The duration is counted in a [uint32_t]; the rule
    is on the counter's value, which is d below 2^32. *)
Theorem C4_press_classification (P : platform) (d fuel : nat) (w : world) :
  (d < fuel)%nat ->
  (forall i, (i < d)%nat -> in_gpio P (n_gpio w + i) = CYBSP_BTN_PRESSED P) ->
  in_gpio P (n_gpio w + d) <> CYBSP_BTN_PRESSED P ->
  press_classified P d fuel w.
Proof.
  intros Hfuel Hheld Hrel.
  destruct (get_switch_event_measures P d fuel w Hfuel Hheld Hrel) as (w' & Hrun).
  exists (classify_press (Z.of_nat d mod UINT32_MOD)), w'.
  split; [exact Hrun |]. split.
  - apply classify_press_thresholds.
  - intros Hd. rewrite Z.mod_small by lia. apply classify_press_thresholds.
Qed.

(** The five durations the boundary rule is about: 0 and 10 polls give no
    event, 11 and 200 a short press, 201 a long press. *)
Lemma C4_press_classification_witness :
  (press_classified (bench_held 0) 0 300 (boot (bench_held 0)) /\
   fst (get_switch_event (bench_held 0) 300 (boot (bench_held 0))) =
     Ret SWITCH_NO_EVENT) /\
  (press_classified (bench_held 10) 10 300 (boot (bench_held 10)) /\
   fst (get_switch_event (bench_held 10) 300 (boot (bench_held 10))) =
     Ret SWITCH_NO_EVENT) /\
  (press_classified (bench_held 11) 11 300 (boot (bench_held 11)) /\
   fst (get_switch_event (bench_held 11) 300 (boot (bench_held 11))) =
     Ret SWITCH_SHORT_PRESS) /\
  (press_classified (bench_held 200) 200 300 (boot (bench_held 200)) /\
   fst (get_switch_event (bench_held 200) 300 (boot (bench_held 200))) =
     Ret SWITCH_SHORT_PRESS) /\
  (press_classified (bench_held 201) 201 300 (boot (bench_held 201)) /\
   fst (get_switch_event (bench_held 201) 300 (boot (bench_held 201))) =
     Ret SWITCH_LONG_PRESS).
Proof.
  repeat split;
    try (vm_compute; reflexivity);
    (apply C4_press_classification;
     [lia | intros i Hi; apply bench_held_pressed; exact Hi | apply bench_held_released]).
Defined.

(** ** Bounded retry *)

(** [n] more calls of the retried operation appear in the trace of [w']
    than in the trace of [w]. *)
Definition attempts_made (f : event -> bool) (w w' : world) (n : nat) : Prop :=
  count_events f (trace w') = (count_events f (trace w) + n)%nat.

(** C5: [rtc_alarmconfig] and [rtc_init] always return, after at most 500
    attempts.  k < 500 failures followed by a success: Success after exactly
    k+1 attempts.  Failure at each of the 500 attempts: the outcome of the
    500th, after exactly 500 attempts. *)
Theorem C5_bounded_retry (P : platform) (w : world) :
  (forall k,
      (k < 500)%nat ->
      (forall i, (i < k)%nat -> in_set_alarm P (n_set_alarm w + i) <> CY_RTC_SUCCESS) ->
      in_set_alarm P (n_set_alarm w + k) = CY_RTC_SUCCESS ->
      exists w', rtc_alarmconfig P w = (Ret CY_RTC_SUCCESS, w') /\
                 attempts_made is_set_alarm w w' (k + 1)) /\
  ((forall i, (i < 500)%nat -> in_set_alarm P (n_set_alarm w + i) <> CY_RTC_SUCCESS) ->
   exists w', rtc_alarmconfig P w = (Ret (in_set_alarm P (n_set_alarm w + 499)), w') /\
              attempts_made is_set_alarm w w' 500) /\
  (exists r w' n, rtc_alarmconfig P w = (Ret r, w') /\
                  attempts_made is_set_alarm w w' n /\ (1 <= n <= 500)%nat) /\
  (forall k,
      (k < 500)%nat ->
      (forall i, (i < k)%nat -> in_rtc_init P (n_rtc_init w + i) <> CY_RTC_SUCCESS) ->
      in_rtc_init P (n_rtc_init w + k) = CY_RTC_SUCCESS ->
      exists w', rtc_init P w = (Ret CY_RTC_SUCCESS, w') /\
                 attempts_made is_rtc_init w w' (k + 1)) /\
  ((forall i, (i < 500)%nat -> in_rtc_init P (n_rtc_init w + i) <> CY_RTC_SUCCESS) ->
   exists w', rtc_init P w = (Ret (in_rtc_init P (n_rtc_init w + 499)), w') /\
              attempts_made is_rtc_init w w' 500) /\
  (exists r w' n, rtc_init P w = (Ret r, w') /\
                  attempts_made is_rtc_init w w' n /\ (1 <= n <= 500)%nat).
Proof.
  assert (Halarm : forall k,
             (k <= 499)%nat ->
             (forall i, (i < k)%nat ->
                        rtc_ok (in_set_alarm P (n_set_alarm w + i)) = false) ->
             ((k < 499)%nat -> rtc_ok (in_set_alarm P (n_set_alarm w + k)) = true) ->
             exists w', rtc_alarmconfig P w =
                          (Ret (in_set_alarm P (n_set_alarm w + k)), w') /\
                        attempts_made is_set_alarm w w' (k + 1)).
  { intros k Hk Hfail Hok.
    destruct (debug_printf_run P MSG_ALARM w) as (b & w1 & Hlog & Htr & Hn & _).
    rewrite <- Hn in Hfail, Hok.
    destruct (rtc_alarmconfig_loop_stops P k 499 w1 Hk Hfail Hok)
      as (w' & Hloop & _ & Hcount).
    exists w'. split.
    - unfold rtc_alarmconfig.
      change (Z.to_nat ((MAX_ATTEMPTS - 1) mod UINT32_MOD)) with 499%nat.
      rewrite (bind_ret_run _ _ w w1 tt) by exact Hlog.
      rewrite Hloop, Hn. reflexivity.
    - unfold attempts_made. rewrite Hcount, Htr, count_events_app. cbn. lia. }
  assert (Hinit : forall k,
             (k <= 499)%nat ->
             (forall i, (i < k)%nat ->
                        rtc_ok (in_rtc_init P (n_rtc_init w + i)) = false) ->
             ((k < 499)%nat -> rtc_ok (in_rtc_init P (n_rtc_init w + k)) = true) ->
             exists w', rtc_init P w =
                          (Ret (in_rtc_init P (n_rtc_init w + k)), w') /\
                        attempts_made is_rtc_init w w' (k + 1)).
  { intros k Hk Hfail Hok.
    destruct (rtc_init_loop_stops P k 499 w Hk Hfail Hok)
      as (w' & Hloop & _ & Hcount).
    exists w'. split.
    - unfold rtc_init.
      change (Z.to_nat ((MAX_ATTEMPTS - 1) mod UINT32_MOD)) with 499%nat.
      exact Hloop.
    - unfold attempts_made. rewrite Hcount. lia. }
  repeat split.
  - intros k Hk Hfail Hok.
    destruct (Halarm k) as (w' & Hrun & Hatt); [lia | | | ].
    + intros i Hi. apply rtc_ok_false, Hfail, Hi.
    + intros _. rewrite Hok. reflexivity.
    + exists w'. rewrite Hrun, Hok. auto.
  - intros Hfail.
    destruct (Halarm 499%nat) as (w' & Hrun & Hatt); [lia | | lia | ].
    + intros i Hi. apply rtc_ok_false, Hfail. lia.
    + exists w'. auto.
  - destruct (stopping_pass (in_set_alarm P) (n_set_alarm w) 499)
      as (k & Hk & Hfail & Hok).
    destruct (Halarm k Hk Hfail Hok) as (w' & Hrun & Hatt).
    eexists. exists w', (k + 1)%nat. repeat split; [exact Hrun | exact Hatt | lia | lia].
  - intros k Hk Hfail Hok.
    destruct (Hinit k) as (w' & Hrun & Hatt); [lia | | | ].
    + intros i Hi. apply rtc_ok_false, Hfail, Hi.
    + intros _. rewrite Hok. reflexivity.
    + exists w'. rewrite Hrun, Hok. auto.
  - intros Hfail.
    destruct (Hinit 499%nat) as (w' & Hrun & Hatt); [lia | | lia | ].
    + intros i Hi. apply rtc_ok_false, Hfail. lia.
    + exists w'. auto.
  - destruct (stopping_pass (in_rtc_init P) (n_rtc_init w) 499)
      as (k & Hk & Hfail & Hok).
    destruct (Hinit k Hk Hfail Hok) as (w' & Hrun & Hatt).
    eexists. exists w', (k + 1)%nat. repeat split; [exact Hrun | exact Hatt | lia | lia].
Qed.

(** Three failures, then a success: four attempts; and an RTC that is busy
    for ever: 500 attempts and the last outcome. *)
Lemma C5_bounded_retry_witness :
  (exists w', rtc_alarmconfig bench_three_failures (boot bench_three_failures) =
                (Ret CY_RTC_SUCCESS, w') /\
              attempts_made is_set_alarm (boot bench_three_failures) w' 4) /\
  (exists w', rtc_alarmconfig bench_rtc_busy (boot bench_rtc_busy) =
                (Ret CY_RTC_INVALID_STATE, w') /\
              attempts_made is_set_alarm (boot bench_rtc_busy) w' 500).
Proof.
  split.
  - apply (proj1 (C5_bounded_retry bench_three_failures (boot bench_three_failures))
             3%nat).
    + lia.
    + intros i Hi. destruct i as [| [| [| i]]]; simpl; try discriminate. lia.
    + reflexivity.
  - apply (proj1 (proj2 (C5_bounded_retry bench_rtc_busy (boot bench_rtc_busy)))).
    intros i _. simpl. discriminate.
Defined.

(** ** The conversion buffers *)

(** C10, evaluated where it fails: a field value of 10 (the seconds and the
    hour of main.c's alarm template) renders as two digits, which with the
    terminating NUL are three bytes for a [char secbuf[2]]; the same holds
    for every value from 10 to 99, and [convert_date_to_string] then leaves
    [buffer] undetermined. *)
Theorem C10_two_digit_field_overflows (w : world) :
  fmt_d (to_int 10) = "10" /\
  (String.length (fmt_d (to_int 10)) + 1 = 3)%nat /\
  sprintf_d 2 10 = None /\
  (forall v, 10 <= v <= 99 -> sprintf_d 2 v = None) /\
  buffer (snd (convert_date_to_string clock_10_0_10 w)) = None.
Proof.
  split; [reflexivity |]. split; [reflexivity |]. split; [reflexivity |].
  split; [exact sprintf_d_two_digits | reflexivity].
Qed.

(** ** The status line *)

(** The line the spec describes: [HH:MM:SS: ] and the message. *)
Definition spec_status_prefix (t : cy_stc_rtc_config_t) : string :=
  (spec_hhmmss t ++ ": ")%string.

(** What [debug_printf] puts on the console at clock reading [t]. *)
Definition status_line (t : cy_stc_rtc_config_t) (str : string) : string :=
  (fmt_d (hour t) ++ " : " ++ fmt_d (min t) ++ " : " ++ fmt_d (sec t) ++ "  " ++
   fmt_d (year t) ++ " - " ++ fmt_d (month t) ++ " - " ++ fmt_d (date t) ++
   ": " ++ str ++ CRLF)%string.

Definition prints_status_line (P : platform) (str : string) (w : world) : Prop :=
  let t := in_clock P (n_clock w) in
  exists w',
    debug_printf P str w = (Ret tt, w') /\
    trace w' = trace w ++ [EvLogLine (Some (stamp_of t)) str] /\
    line_text (EvLogLine (Some (stamp_of t)) str) = Some (status_line t str).

(** C8, as the code has it: when every field of the clock reading has one
    digit, [debug_printf] prints hour, minute and second in that order,
    unpadded and separated by [ : ], then two blanks and year, month and day
    separated by [ - ], then [: ], the message and CR LF. *)
Theorem C8_status_line_format (P : platform) (str : string) (w : world) :
  one_digit_fields (in_clock P (n_clock w)) ->
  prints_status_line P str w.
Proof.
  intros Ht. unfold prints_status_line.
  eexists. split; [apply debug_printf_digits; exact Ht |].
  split; [reflexivity |].
  unfold line_text, status_line, stamp_of.
  rewrite !string_app_assoc. reflexivity.
Qed.

Lemma C8_status_line_format_witness :
  one_digit_fields (in_clock bench_rtc_busy (n_clock (boot bench_rtc_busy))) /\
  prints_status_line bench_rtc_busy MSG_GO_DEEPSLEEP (boot bench_rtc_busy).
Proof.
  assert (H : one_digit_fields
                (in_clock bench_rtc_busy (n_clock (boot bench_rtc_busy)))).
  { unfold one_digit_fields, one_digit. simpl. lia. }
  split; [exact H | apply C8_status_line_format; exact H].
Defined.

(** At 1:02:03 the line for "Go to DeepSleep mode" starts with
    [1 : 2 : 3  5 - 9 - 6: ], not with [01:02:03: ]. *)
Lemma C8_counterexample :
  map line_text
      (trace (snd (debug_printf bench_rtc_busy MSG_GO_DEEPSLEEP (boot bench_rtc_busy)))) =
    [Some ("1 : 2 : 3  5 - 9 - 6: Go to DeepSleep mode" ++ CRLF ++ CRLF)%string] /\
  spec_status_prefix clock_1_2_3 = "01:02:03: " /\
  prefix (spec_status_prefix clock_1_2_3)
         ("1 : 2 : 3  5 - 9 - 6: Go to DeepSleep mode" ++ CRLF ++ CRLF)%string = false /\
  prefix "1:2:3: "
         ("1 : 2 : 3  5 - 9 - 6: Go to DeepSleep mode" ++ CRLF ++ CRLF)%string = false.
Proof. repeat split; reflexivity. Qed.

(** ** Routing of press events *)

Definition routed (ev : en_switch_event_t) (new : list event) : Prop :=
  match ev with
  | SWITCH_SHORT_PRESS =>
      (exists pre post,
          new = pre ++ EvDeepSleep :: post /\
          (1 <= count_events is_set_alarm pre)%nat /\
          count_events is_set_alarm post = 0%nat) /\
      count_events is_hibernate new = 0%nat /\
      ~ In HAL_SET_WAKEUP new
  | SWITCH_LONG_PRESS =>
      (exists pre post r,
          new = pre ++ EvEnterHibernate r :: post /\
          In HAL_SET_WAKEUP pre /\
          (1 <= count_events is_set_alarm pre)%nat /\
          count_events is_set_alarm post = 0%nat) /\
      count_events is_deep_sleep new = 0%nat
  | SWITCH_NO_EVENT => new = []
  end.

Definition pass_routed (P : platform) (fuel : nat) (w w1 : world)
    (ev : en_switch_event_t) : Prop :=
  exists new,
    trace (snd (loop_body P fuel w)) = trace w1 ++ new /\ routed ev new.

Lemma alarm_events_only (f : event -> bool) (arm : list event) :
  (forall e, fp_alarmconfig (ALog e) = true -> f e = false) ->
  Forall (fun e => fp_alarmconfig (ALog e) = true) arm ->
  count_events f arm = 0%nat.
Proof. apply (count_events_none (fun e => fp_alarmconfig (ALog e))). Qed.

Ltac not_alarm_event :=
  let e := fresh "e" in
  let H := fresh "H" in
  intros e H; destruct e; try reflexivity; discriminate H.

(** C6: in every pass of the loop, a Short press leads to arming and then
    the deep-sleep call, and to no hibernate call; a Long press leads to
    arming, the wake-up source selection and then the hibernate call, and to
    no deep-sleep call; no press leads to nothing at all. *)
Theorem C6_event_routing (P : platform) (fuel : nat) (w w1 : world)
    (ev : en_switch_event_t) :
  get_switch_event P fuel w = (Ret ev, w1) ->
  pass_routed P fuel w w1 ev.
Proof.
  intros Hev. unfold pass_routed, loop_body.
  rewrite (bind_ret_run _ _ w w1 ev) by exact Hev.
  destruct ev.
  - exists []. split; [symmetry; apply app_nil_r | reflexivity].
  - destruct (switch_short_run P w1) as (w' & b1 & arm & b2 & Hrun & Htr & Harm & Hcnt).
    rewrite Hrun. simpl snd. eexists. split; [exact Htr |].
    assert (Hhib : count_events is_hibernate arm = 0%nat)
      by (apply alarm_events_only; [not_alarm_event | exact Harm]).
    assert (Hhal : count_events is_hal arm = 0%nat)
      by (apply alarm_events_only; [not_alarm_event | exact Harm]).
    repeat split.
    + exists ([EvLogLine b1 MSG_GO_DEEPSLEEP] ++ arm ++ [EvDelay LONG_GLITCH_DELAY_MS]),
        [EvLogLine b2 MSG_WAKE_DEEPSLEEP].
      split; [rewrite <- !app_assoc; reflexivity |].
      split; [| reflexivity].
      rewrite !count_events_app. cbn. lia.
    + rewrite !count_events_app, Hhib. reflexivity.
    + apply (count_events_zero_not_in is_hal); [| reflexivity].
      rewrite !count_events_app, Hhal. reflexivity.
  - destruct (switch_long_run P w1) as (w' & b1 & arm & Hrun & Htr & Harm & Hcnt & _).
    rewrite Hrun. simpl snd. eexists. split; [exact Htr |].
    assert (Hds : count_events is_deep_sleep arm = 0%nat)
      by (apply alarm_events_only; [not_alarm_event | exact Harm]).
    split.
    + exists ([EvLogLine b1 MSG_GO_HIBERNATE] ++ arm ++
              [EvDelay LONG_GLITCH_DELAY_MS; HAL_SET_WAKEUP]),
        (hibernate_tail P (in_hibernate P (n_hibernate w1))),
        (in_hibernate P (n_hibernate w1)).
      split; [rewrite <- !app_assoc; reflexivity |]. split; [| split].
      * apply in_or_app. right. apply in_or_app. right. simpl. auto.
      * rewrite !count_events_app. cbn. lia.
      * unfold hibernate_tail.
        destruct (in_hibernate P (n_hibernate w1)) as [s |]; [| reflexivity].
        destruct (CY_SYSPM_SUCCESS P =? s); reflexivity.
    + rewrite !count_events_app, Hds. unfold hibernate_tail.
      destruct (in_hibernate P (n_hibernate w1)) as [s |]; [| reflexivity].
      destruct (CY_SYSPM_SUCCESS P =? s); reflexivity.
Qed.

Lemma C6_event_routing_witness :
  get_switch_event bench_three_failures 20 (boot bench_three_failures) =
    (Ret SWITCH_SHORT_PRESS,
     snd (get_switch_event bench_three_failures 20 (boot bench_three_failures))) /\
  pass_routed bench_three_failures 20 (boot bench_three_failures)
    (snd (get_switch_event bench_three_failures 20 (boot bench_three_failures)))
    SWITCH_SHORT_PRESS.
Proof.
  assert (H : get_switch_event bench_three_failures 20 (boot bench_three_failures) =
              (Ret SWITCH_SHORT_PRESS,
               snd (get_switch_event bench_three_failures 20
                      (boot bench_three_failures))))
    by (vm_compute; reflexivity).
  split; [exact H | apply C6_event_routing; exact H].
Defined.

(** ** A refused hibernate *)

Definition hibernate_refused_stop (P : platform) (w : world) (s : Z) : Prop :=
  exists w' pre,
    switch_event P SWITCH_LONG_PRESS w = (Stop, w') /\
    trace w' = trace w ++ pre ++
                 [EvEnterHibernate (Some s); EvPrintf MSG_NO_HIBERNATE; EvAssertFailed] /\
    count_events is_disable_irq pre = 0%nat /\
    irq_enabled w' = irq_enabled w.

(** C7, as the code has it: when [Cy_SysPm_SystemEnterHibernate] returns a
    status other than success, main prints "The CPU did not enter Hibernate
    mode" with a plain [printf] and stops in [CY_ASSERT(0)]; nothing of main
    runs after that.  It does not go through [handle_error]: no
    [__disable_irq] is issued and the interrupt mask is as it was. *)
Theorem C7_hibernate_refused (P : platform) (w : world) (s : Z) :
  in_hibernate P (n_hibernate w) = Some s ->
  s <> CY_SYSPM_SUCCESS P ->
  hibernate_refused_stop P w s.
Proof.
  intros Hs Hne.
  destruct (switch_long_run P w) as (w' & b1 & arm & Hrun & Htr & Harm & _ & Hirq).
  rewrite Hs in Hrun, Htr. unfold hibernate_result in Hrun. unfold hibernate_tail in Htr.
  assert (Hcmp : (CY_SYSPM_SUCCESS P =? s) = false) by (apply Z.eqb_neq; congruence).
  rewrite Hcmp in Hrun, Htr.
  exists w', ([EvLogLine b1 MSG_GO_HIBERNATE] ++ arm ++
              [EvDelay LONG_GLITCH_DELAY_MS; HAL_SET_WAKEUP]).
  split; [exact Hrun |]. split; [| split; [| exact Hirq]].
  - rewrite Htr. rewrite <- !app_assoc. reflexivity.
  - rewrite !count_events_app.
    rewrite (alarm_events_only is_disable_irq arm); [reflexivity | | exact Harm].
    intros e H; destruct e; try reflexivity; discriminate H.
Qed.

Lemma C7_hibernate_refused_witness :
  in_hibernate bench_hibernate_refused (n_hibernate (boot bench_hibernate_refused)) =
    Some 1 /\
  1 <> CY_SYSPM_SUCCESS bench_hibernate_refused /\
  hibernate_refused_stop bench_hibernate_refused (boot bench_hibernate_refused) 1.
Proof.
  split; [reflexivity |].
  split; [discriminate |].
  apply C7_hibernate_refused; [reflexivity | discriminate].
Defined.

(** A long press on a board that refuses to hibernate: main stops with
    interrupts still enabled, having issued no [__disable_irq]. *)
Lemma C7_counterexample :
  fst (main bench_hibernate_refused 1 300) = Stop /\
  irq_enabled (snd (main bench_hibernate_refused 1 300)) = true /\
  count_events is_disable_irq (trace (snd (main bench_hibernate_refused 1 300))) = 0%nat /\
  lastn 3 (trace (snd (main bench_hibernate_refused 1 300))) =
    [EvEnterHibernate (Some 1); EvPrintf MSG_NO_HIBERNATE; EvAssertFailed].
Proof. vm_compute. repeat split; reflexivity. Qed.

(** ** The hibernate wake-up message *)

(** C9: start-up logs "Wakeup from the Hibernate mode" exactly when it gets
    as far as the reset-reason query and the reason has the hibernate
    wake-up bit; the entry belongs to the trace of start-up, which every
    run of main begins with, and no pass of the loop logs it. *)
Theorem C9_hibernate_wakeup_logged (P : platform) (n fuel : nat) :
  (logs_hib_wakeup (trace (snd (startup P (boot P)))) <->
   bring_up_ok P = true /\ hib_wakeup_reset P = true) /\
  (exists rest,
      trace (snd (main P n fuel)) = trace (snd (startup P (boot P))) ++ rest /\
      ~ logs_hib_wakeup rest).
Proof.
  split.
  - pose proof (bring_up_result P (boot P)) as Hres.
    destruct (acts_trace _ _ _ (keeps_bring_up P (boot P))) as (new1 & Htr1 & Hall1).
    assert (Hno1 : ~ logs_hib_wakeup new1)
      by (apply (not_logged fp_bring_up); [intros b; reflexivity | exact Hall1]).
    cbn [trace boot app] in Htr1.
    unfold startup. unfold bind at 1.
    destruct (bring_up P (boot P)) as [r1 w1]. simpl in Hres, Htr1.
    destruct (bring_up_ok P).
    + subst r1.
      destruct (bind_extends fp_start_rtc (check_reset_reason P)
                  (fun _ => start_rtc P) w1 (fun _ => keeps_start_rtc P))
        as (new3 & Htr3 & Hall3).
      assert (Hno3 : ~ logs_hib_wakeup new3)
        by (apply (not_logged fp_start_rtc); [intros b; reflexivity | exact Hall3]).
      rewrite Htr3. unfold check_reset_reason. fold (hib_wakeup_reset P).
      destruct (hib_wakeup_reset P); simpl.
      * destruct (debug_printf_run P HIB_WAKEUP_MSG w1) as (b & w2 & Hlog & Htr2 & _).
        rewrite Hlog. simpl. rewrite Htr2. split; [auto |]. intros _.
        apply logs_hib_wakeup_app. left. apply logs_hib_wakeup_app. right.
        exists b. simpl. auto.
      * rewrite Htr1. split; [| intros [_ H]; discriminate H].
        intros H. apply logs_hib_wakeup_app in H. destruct H; contradiction.
    + subst r1. simpl. rewrite Htr1.
      split; [intros H; contradiction | intros [H _]; discriminate H].
  - unfold main.
    destruct (bind_extends fp_loop (startup P) (fun _ => main_loop P n fuel) (boot P)
                (fun _ => keeps_main_loop P n fuel)) as (rest & Htr & Hall).
    exists rest. split; [exact Htr |].
    apply (not_logged fp_loop); [intros b; reflexivity | exact Hall].
Qed.

(** ** The alarm flag *)

(** The flag is false whenever main is between two passes of its loop. *)
Definition flag_false_at_rest (P : platform) : Prop :=
  forall n fuel, fst (main P n fuel) = Ret tt -> alarm_flag (snd (main P n fuel)) = 0.

(** The alarm fires during the deep sleep of the first pass: the flag is set
    when the pass ends and is still set after a second, idle pass. *)
Lemma C3_counterexample :
  alarm_flag (boot bench_alarm_fires) = 0 /\
  fst (main bench_alarm_fires 1 20) = Ret tt /\
  alarm_flag (snd (main bench_alarm_fires 1 20)) = 1 /\
  fst (main bench_alarm_fires 2 20) = Ret tt /\
  alarm_flag (snd (main bench_alarm_fires 2 20)) = 1 /\
  ~ flag_false_at_rest bench_alarm_fires.
Proof.
  assert (H1 : fst (main bench_alarm_fires 1 20) = Ret tt) by (vm_compute; reflexivity).
  assert (H2 : alarm_flag (snd (main bench_alarm_fires 1 20)) = 1)
    by (vm_compute; reflexivity).
  split; [reflexivity |]. split; [exact H1 |]. split; [exact H2 |].
  split; [vm_compute; reflexivity |]. split; [vm_compute; reflexivity |].
  intros H. specialize (H 1%nat 20%nat H1). rewrite H2 in H. discriminate H.
Qed.

(** ** Arming failures *)

(** C1, evaluated where it fails: a short press while the RTC refuses all
    500 attempts to set the alarm.  [rtc_alarmconfig] returns the failure,
    main drops it, delays 100 ms, enters deep sleep and goes on to log the
    wake-up; nothing stops. *)
Theorem C1_arming_failure_not_fatal :
  fst (rtc_alarmconfig bench_rtc_busy (boot bench_rtc_busy)) = Ret CY_RTC_INVALID_STATE /\
  fst (main bench_rtc_busy 1 20) = Ret tt /\
  count_events is_set_alarm (trace (snd (main bench_rtc_busy 1 20))) = 500%nat /\
  count_events is_set_alarm_ok (trace (snd (main bench_rtc_busy 1 20))) = 0%nat /\
  count_events is_assert (trace (snd (main bench_rtc_busy 1 20))) = 0%nat /\
  lastn 5 (trace (snd (main bench_rtc_busy 1 20))) =
    [EvSetAlarm CY_RTC_INVALID_STATE; EvDelay 5; EvDelay 100; EvDeepSleep;
     EvLogLine (Some "1 : 2 : 3  5 - 9 - 6") MSG_WAKE_DEEPSLEEP].
Proof. vm_compute. repeat split; reflexivity. Qed.

(** C2, evaluated where it fails: a long press while every attempt to set
    the alarm times out.  The hibernate call is issued, and the device
    powers down, in a cycle in which no attempt returned Success. *)
Theorem C2_power_down_without_armed_alarm :
  fst (main bench_rtc_timeout 1 300) = PowerDown /\
  count_events is_set_alarm (trace (snd (main bench_rtc_timeout 1 300))) = 500%nat /\
  count_events is_set_alarm_ok (trace (snd (main bench_rtc_timeout 1 300))) = 0%nat /\
  lastn 5 (trace (snd (main bench_rtc_timeout 1 300))) =
    [EvSetAlarm CY_RTC_TIMEOUT; EvDelay 5; EvDelay 100; HAL_SET_WAKEUP;
     EvEnterHibernate None].
Proof. vm_compute. repeat split; reflexivity. Qed.

(** * Further properties of main.c *)

From Stdlib Require Import DecimalPos.

(** ** [convert_date_to_string]: when the conversion buffers are large enough *)

Lemma nilempty_string_empty (u : Decimal.uint) :
  NilEmpty.string_of_uint u = EmptyString -> u = Decimal.Nil.
Proof. destruct u; simpl; intros H; [reflexivity | discriminate H ..]. Qed.

Lemma nilzero_string_nonempty (u : Decimal.uint) :
  (1 <= String.length (NilZero.string_of_uint u))%nat.
Proof. destruct u; simpl; lia. Qed.

Lemma fmt_d_nonempty (z : Z) : (1 <= String.length (fmt_d z))%nat.
Proof.
  unfold fmt_d. destruct z as [| p | p]; simpl.
  - lia.
  - apply nilzero_string_nonempty.
  - lia.
Qed.

(** The decimal text of [z] has one character exactly when 0 <= z <= 9. *)
Lemma fmt_d_one_char_iff (z : Z) :
  (String.length (fmt_d z) <= 1)%nat <-> 0 <= z <= 9.
Proof.
  split.
  - unfold fmt_d. destruct z as [| p | p]; simpl; intros Hlen.
    + lia.
    + pose proof (Unsigned.of_to p) as Hp.
      destruct (Pos.to_uint p) as [| u | u | u | u | u | u | u | u | u | u];
        simpl in Hlen;
        try (simpl in Hp; discriminate Hp);
        (assert (Hu : u = Decimal.Nil)
          by (apply nilempty_string_empty;
              destruct (NilEmpty.string_of_uint u); [reflexivity | simpl in Hlen; lia]));
        subst u; simpl in Hp; try discriminate Hp;
        injection Hp as <-; lia.
    + pose proof (nilzero_string_nonempty (Pos.to_uint p)). lia.
  - intros Hz. destruct (fmt_d_digit z Hz) as [c ->]. simpl. lia.
Qed.

Definition fits_one_digit (v : Z) : Prop := 0 <= to_int v <= 9.

Lemma sprintf_d_some_iff (v : Z) :
  sprintf_d 2 v <> None <-> fits_one_digit v.
Proof.
  unfold sprintf_d, fits_one_digit.
  rewrite <- fmt_d_one_char_iff.
  destruct (Nat.leb_spec (String.length (fmt_d (to_int v)) + 1) 2); split; intros H0;
    try lia; try congruence.
Qed.

Lemma sprintf_d_some_length (v : Z) (s : string) :
  sprintf_d 2 v = Some s -> String.length s = 1%nat.
Proof.
  unfold sprintf_d.
  destruct (Nat.leb_spec (String.length (fmt_d (to_int v)) + 1) 2) as [H | H];
    intros Hs; [| discriminate Hs].
  injection Hs as <-. pose proof (fmt_d_nonempty (to_int v)). lia.
Qed.

Lemma to_int_uint32_digit (v : Z) :
  0 <= v < UINT32_MOD -> (fits_one_digit v <-> 0 <= v <= 9).
Proof.
  intros Hv. unfold fits_one_digit, to_int.
  rewrite Z.mod_small by exact Hv. unfold UINT32_MOD in *.
  destruct (Z.ltb_spec v (2 ^ 31)); lia.
Qed.

(** X1: [convert_date_to_string] leaves a determined text in [buffer]
    exactly when each of the six fields, read as an [int], lies in 0..9;
    for a field that is a [uint32_t] value this is the field itself lying
    in 0..9.  Any other value overruns its two-byte array. *)
Theorem convert_date_to_string_determined_iff (t : cy_stc_rtc_config_t) (w : world) :
  (buffer (snd (convert_date_to_string t w)) <> None <->
   fits_one_digit (sec t) /\ fits_one_digit (min t) /\ fits_one_digit (hour t) /\
   fits_one_digit (date t) /\ fits_one_digit (month t) /\ fits_one_digit (year t)) /\
  (forall v, 0 <= v < UINT32_MOD -> (sprintf_d 2 v <> None <-> 0 <= v <= 9)).
Proof.
  split.
  - rewrite <- !sprintf_d_some_iff. unfold convert_date_to_string.
    destruct (sprintf_d 2 (sec t)), (sprintf_d 2 (min t)), (sprintf_d 2 (hour t)),
      (sprintf_d 2 (date t)), (sprintf_d 2 (month t)), (sprintf_d 2 (year t));
      simpl; split; intros H; try congruence;
      try (repeat split; congruence);
      try (destruct H as (H1 & H2 & H3 & H4 & H5 & H6); congruence).
  - intros v Hv. rewrite sprintf_d_some_iff. apply to_int_uint32_digit, Hv.
Qed.

(** X2: whenever [convert_date_to_string] leaves a determined text in
    [buffer], that text has exactly 20 characters, so the [snprintf] into
    the 80-byte [buffer] never truncates. *)
Theorem convert_date_to_string_length (t : cy_stc_rtc_config_t) (w : world) (s : string) :
  buffer (snd (convert_date_to_string t w)) = Some s ->
  String.length s = 20%nat /\ (String.length s + 1 <= STRING_BUFFER_SIZE)%nat.
Proof.
  unfold convert_date_to_string.
  destruct (sprintf_d 2 (sec t)) as [s1 |] eqn:E1; [| discriminate].
  destruct (sprintf_d 2 (min t)) as [s2 |] eqn:E2; [| discriminate].
  destruct (sprintf_d 2 (hour t)) as [s3 |] eqn:E3; [| discriminate].
  destruct (sprintf_d 2 (date t)) as [s4 |] eqn:E4; [| discriminate].
  destruct (sprintf_d 2 (month t)) as [s5 |] eqn:E5; [| discriminate].
  destruct (sprintf_d 2 (year t)) as [s6 |] eqn:E6; [| discriminate].
  apply sprintf_d_some_length in E1, E2, E3, E4, E5, E6.
  destruct s1 as [| c1 [| ? ?]]; try discriminate E1.
  destruct s2 as [| c2 [| ? ?]]; try discriminate E2.
  destruct s3 as [| c3 [| ? ?]]; try discriminate E3.
  destruct s4 as [| c4 [| ? ?]]; try discriminate E4.
  destruct s5 as [| c5 [| ? ?]]; try discriminate E5.
  destruct s6 as [| c6 [| ? ?]]; try discriminate E6.
  simpl. intros H. injection H as <-.
  split; [reflexivity | unfold STRING_BUFFER_SIZE; simpl; lia].
Qed.

Lemma convert_date_to_string_length_witness :
  buffer (snd (convert_date_to_string clock_1_2_3 (boot bench_rtc_busy))) =
    Some "1 : 2 : 3  5 - 9 - 6" /\
  String.length "1 : 2 : 3  5 - 9 - 6" = 20%nat /\
  (String.length "1 : 2 : 3  5 - 9 - 6" + 1 <= STRING_BUFFER_SIZE)%nat.
Proof.
  split; [reflexivity |].
  apply (convert_date_to_string_length clock_1_2_3 (boot bench_rtc_busy)).
  reflexivity.
Defined.

(** ** [get_switch_event]: what a press costs *)

Definition press_measured (P : platform) (d fuel : nat) (w : world) : Prop :=
  exists w',
    get_switch_event P fuel w =
      (Ret (classify_press (Z.of_nat d mod UINT32_MOD)), w') /\
    trace w' = trace w ++ repeat (EvDelay SHORT_GLITCH_DELAY_MS) (S d) /\
    n_gpio w' = (n_gpio w + d + 1)%nat /\
    n_irq w' = (n_irq w + d + 1)%nat.

Section Press.

Variable P : platform.

Lemma Delay_run_irq (ms : Z) (w : world) :
  exists w',
    Cy_SysLib_Delay P ms w = (Ret tt, w') /\
    trace w' = trace w ++ [EvDelay ms] /\
    n_gpio w' = n_gpio w /\
    n_irq w' = S (n_irq w).
Proof.
  unfold Cy_SysLib_Delay, bind, emit, modify, interrupt_point. simpl.
  destruct (in_alarm2 P (n_irq w) && irq_enabled w && nvic_rtc w);
    eexists; repeat split; reflexivity.
Qed.

Lemma repeat_snoc {A} (x : A) (n : nat) : repeat x n ++ [x] = x :: repeat x n.
Proof. induction n as [| n IH]; simpl; [reflexivity | rewrite IH; reflexivity]. Qed.

Lemma poll_button_held (d fuel : nat) (press_count : Z) (w : world) :
  (d < fuel)%nat ->
  0 <= press_count < UINT32_MOD ->
  (forall i, (i < d)%nat -> in_gpio P (n_gpio w + i) = CYBSP_BTN_PRESSED P) ->
  in_gpio P (n_gpio w + d) <> CYBSP_BTN_PRESSED P ->
  exists w',
    poll_button P fuel press_count w =
      (Ret ((press_count + Z.of_nat d) mod UINT32_MOD), w') /\
    trace w' = trace w ++ repeat (EvDelay SHORT_GLITCH_DELAY_MS) d /\
    n_gpio w' = (n_gpio w + d + 1)%nat /\
    n_irq w' = (n_irq w + d)%nat.
Proof.
  revert fuel press_count w.
  induction d as [| d IH]; intros fuel pc w Hfuel Hpc Hheld Hrel;
    (destruct fuel as [| f]; [lia |]); simpl.
  - rewrite (bind_ret_run _ _ w (tick_gpio w) (in_gpio P (n_gpio w))) by reflexivity.
    rewrite Nat.add_0_r in Hrel. apply Z.eqb_neq in Hrel. rewrite Hrel.
    exists (tick_gpio w). unfold ret. rewrite Z.add_0_r, Z.mod_small by exact Hpc.
    split; [reflexivity |]. split; [symmetry; apply app_nil_r |].
    split; simpl; lia.
  - rewrite (bind_ret_run _ _ w (tick_gpio w) (in_gpio P (n_gpio w))) by reflexivity.
    assert (H0 : in_gpio P (n_gpio w) = CYBSP_BTN_PRESSED P).
    { rewrite <- (Nat.add_0_r (n_gpio w)). apply Hheld. lia. }
    rewrite H0, Z.eqb_refl.
    destruct (Delay_run_irq SHORT_GLITCH_DELAY_MS (tick_gpio w))
      as (w2 & Hrun & Htr & Hg & Hq).
    rewrite (bind_ret_run _ _ _ w2 tt) by exact Hrun.
    assert (Hc : n_gpio w2 = S (n_gpio w)) by (rewrite Hg; reflexivity).
    destruct (IH f ((pc + 1) mod UINT32_MOD) w2) as (w' & Hloop & Htr' & Hg' & Hq').
    + lia.
    + apply Z.mod_pos_bound. reflexivity.
    + intros i Hi. rewrite Hc.
      replace (S (n_gpio w) + i)%nat with (n_gpio w + S i)%nat by lia.
      apply Hheld. lia.
    + rewrite Hc. replace (S (n_gpio w) + d)%nat with (n_gpio w + S d)%nat by lia.
      exact Hrel.
    + exists w'. rewrite Hloop. split; [| split; [| split]].
      * f_equal. f_equal. rewrite Zplus_mod_idemp_l. f_equal. lia.
      * rewrite Htr', Htr. cbn [trace tick_gpio]. rewrite <- app_assoc. reflexivity.
      * rewrite Hg', Hc. lia.
      * rewrite Hq', Hq. cbn [n_irq tick_gpio]. lia.
Qed.

(** X3: when the button reads pressed for exactly [d] polls and then
    released, [get_switch_event] returns the class of [d] (modulo 2^32, the
    counter being a [uint32_t]), having read the pin d+1 times and blocked
    in d+1 delays of 10 ms: one per pressed poll and the settle delay. *)
Theorem get_switch_event_held (d fuel : nat) (w : world) :
  (d < fuel)%nat ->
  (forall i, (i < d)%nat -> in_gpio P (n_gpio w + i) = CYBSP_BTN_PRESSED P) ->
  in_gpio P (n_gpio w + d) <> CYBSP_BTN_PRESSED P ->
  press_measured P d fuel w.
Proof.
  intros Hfuel Hheld Hrel.
  destruct (poll_button_held d fuel 0 w Hfuel) as (w1 & Hpoll & Htr & Hg & Hq);
    try assumption.
  { unfold UINT32_MOD. lia. }
  destruct (Delay_run_irq SHORT_GLITCH_DELAY_MS w1) as (w2 & Hrun & Htr2 & Hg2 & Hq2).
  exists w2. unfold get_switch_event.
  rewrite (bind_ret_run _ _ w w1 _) by exact Hpoll.
  rewrite (bind_ret_run _ _ w1 w2 tt) by exact Hrun.
  split; [reflexivity |]. split; [| split].
  - rewrite Htr2, Htr, <- app_assoc, repeat_snoc. reflexivity.
  - rewrite Hg2, Hg. reflexivity.
  - rewrite Hq2, Hq. lia.
Qed.

Lemma poll_button_stuck (fuel : nat) (press_count : Z) (w : world) :
  (forall i, (i < fuel)%nat -> in_gpio P (n_gpio w + i) = CYBSP_BTN_PRESSED P) ->
  fst (poll_button P fuel press_count w) = Spin.
Proof.
  revert press_count w. induction fuel as [| f IH]; intros pc w Hheld; simpl;
    [reflexivity |].
  rewrite (bind_ret_run _ _ w (tick_gpio w) (in_gpio P (n_gpio w))) by reflexivity.
  assert (H0 : in_gpio P (n_gpio w) = CYBSP_BTN_PRESSED P).
  { rewrite <- (Nat.add_0_r (n_gpio w)). apply Hheld. lia. }
  rewrite H0, Z.eqb_refl.
  destruct (Delay_run_irq SHORT_GLITCH_DELAY_MS (tick_gpio w))
    as (w2 & Hrun & _ & Hg & _).
  rewrite (bind_ret_run _ _ _ w2 tt) by exact Hrun.
  apply IH. intros i Hi. rewrite Hg. cbn [n_gpio tick_gpio].
  replace (S (n_gpio w) + i)%nat with (n_gpio w + S i)%nat by lia.
  apply Hheld. lia.
Qed.

(** X4: there is no time-out on the button: while the pin keeps reading
    pressed, [get_switch_event] does not return, and neither does the pass
    of main's loop that called it, however many polls are allowed. *)
Theorem get_switch_event_stuck_button (fuel : nat) (w : world) :
  (forall i, (i < fuel)%nat -> in_gpio P (n_gpio w + i) = CYBSP_BTN_PRESSED P) ->
  fst (get_switch_event P fuel w) = Spin /\
  fst (loop_body P fuel w) = Spin.
Proof.
  intros Hheld.
  pose proof (poll_button_stuck fuel 0 w Hheld) as Hspin.
  assert (Hget : fst (get_switch_event P fuel w) = Spin).
  { unfold get_switch_event, bind.
    destruct (poll_button P fuel 0 w) as [r w1]. simpl in Hspin. subst r. reflexivity. }
  split; [exact Hget |].
  unfold loop_body, bind.
  destruct (get_switch_event P fuel w) as [r w1]. simpl in Hget. subst r. reflexivity.
Qed.

End Press.

(** A button that is never released. *)
Definition bench_button_stuck : platform :=
  bench (fun _ => CY_RTC_SUCCESS) (fun _ => 0) (fun _ => None) (fun _ => false).

Lemma get_switch_event_held_witness :
  (11 < 20)%nat /\
  press_measured bench_rtc_busy 11 20 (boot bench_rtc_busy).
Proof.
  split; [lia |].
  apply get_switch_event_held.
  - lia.
  - intros i Hi. simpl. unfold held_for.
    destruct (Nat.ltb_spec i 11); [reflexivity | lia].
  - simpl. discriminate.
Defined.

Lemma get_switch_event_stuck_button_witness :
  fst (get_switch_event bench_button_stuck 1000 (boot bench_button_stuck)) = Spin /\
  fst (loop_body bench_button_stuck 1000 (boot bench_button_stuck)) = Spin.
Proof.
  apply get_switch_event_stuck_button. intros i _. reflexivity.
Defined.

(** ** The retry loops: what they do between the first and the last attempt *)

(** [n] attempts from answer [c] on, each followed by its 5 ms delay. *)
Fixpoint attempt_events (ev : cy_en_rtc_status_t -> event)
    (script : nat -> cy_en_rtc_status_t) (c n : nat) : list event :=
  match n with
  | O => []
  | S n' => ev (script c) :: EvDelay INIT_DELAY_MS :: attempt_events ev script (S c) n'
  end.

(** The milliseconds spent in [Cy_SysLib_Delay] along a trace. *)
Fixpoint delay_total (tr : list event) : Z :=
  match tr with
  | [] => 0
  | EvDelay ms :: tr' => ms + delay_total tr'
  | _ :: tr' => delay_total tr'
  end.

Lemma delay_total_app (l1 l2 : list event) :
  delay_total (l1 ++ l2) = delay_total l1 + delay_total l2.
Proof.
  induction l1 as [| e l1 IH]; simpl; [reflexivity |].
  destruct e; rewrite IH; lia.
Qed.

Lemma delay_total_attempts (ev : cy_en_rtc_status_t -> event)
    (script : nat -> cy_en_rtc_status_t) (c n : nat) :
  (forall r ms, ev r <> EvDelay ms) ->
  delay_total (attempt_events ev script c n) = INIT_DELAY_MS * Z.of_nat n.
Proof.
  intros Hev. revert c. induction n as [| n IH]; intros c; [reflexivity |].
  cbn [attempt_events delay_total].
  rewrite IH.
  destruct (ev (script c)) eqn:E; try lia.
  exfalso. exact (Hev _ _ E).
Qed.

Definition alarmconfig_run (P : platform) (w : world) (n : nat) : Prop :=
  exists b w',
    rtc_alarmconfig P w = (Ret (in_set_alarm P (n_set_alarm w + n - 1)), w') /\
    trace w' = trace w ++ EvLogLine b MSG_ALARM ::
                 attempt_events EvSetAlarm (in_set_alarm P) (n_set_alarm w) n /\
    delay_total (trace w') = delay_total (trace w) + INIT_DELAY_MS * Z.of_nat n /\
    INIT_DELAY_MS * Z.of_nat n <= 2500.

Definition rtc_init_run (P : platform) (w : world) (n : nat) : Prop :=
  exists w',
    rtc_init P w = (Ret (in_rtc_init P (n_rtc_init w + n - 1)), w') /\
    trace w' = trace w ++ attempt_events EvRtcInit (in_rtc_init P) (n_rtc_init w) n /\
    delay_total (trace w') = delay_total (trace w) + INIT_DELAY_MS * Z.of_nat n /\
    INIT_DELAY_MS * Z.of_nat n <= 2500.

Section RetryTraces.

Variable P : platform.

Lemma rtc_alarmconfig_loop_trace (k remaining : nat) (w : world) :
  (k <= remaining)%nat ->
  (forall i, (i < k)%nat -> rtc_ok (in_set_alarm P (n_set_alarm w + i)) = false) ->
  ((k < remaining)%nat -> rtc_ok (in_set_alarm P (n_set_alarm w + k)) = true) ->
  exists w',
    rtc_alarmconfig_loop P remaining w = (Ret (in_set_alarm P (n_set_alarm w + k)), w') /\
    trace w' = trace w ++
                 attempt_events EvSetAlarm (in_set_alarm P) (n_set_alarm w) (S k).
Proof.
  revert remaining w. induction k as [| k IH]; intros remaining w Hk Hfail Hok.
  - set (r := in_set_alarm P (n_set_alarm w)).
    set (w1 := log_event (EvSetAlarm r) (tick_set_alarm w)).
    destruct (Delay_run P INIT_DELAY_MS w1) as (w2 & Hrun & Htr & _).
    exists w2. rewrite Nat.add_0_r in *. fold r. fold r in Hok.
    split.
    + destruct remaining as [| n]; simpl;
        rewrite (bind_ret_run _ _ w w1 r) by reflexivity;
        rewrite (bind_ret_run _ _ w1 w2 tt) by exact Hrun.
      * reflexivity.
      * rewrite Hok by lia. reflexivity.
    + rewrite Htr. unfold w1. cbn [trace log_event tick_set_alarm attempt_events].
      fold r. rewrite <- app_assoc. reflexivity.
  - destruct remaining as [| n]; [lia |].
    set (r := in_set_alarm P (n_set_alarm w)).
    set (w1 := log_event (EvSetAlarm r) (tick_set_alarm w)).
    destruct (Delay_run P INIT_DELAY_MS w1) as (w2 & Hrun & Htr & Hn & _).
    assert (Hr : rtc_ok r = false).
    { unfold r. rewrite <- (Nat.add_0_r (n_set_alarm w)). apply Hfail. lia. }
    assert (Hc : n_set_alarm w2 = S (n_set_alarm w)) by (rewrite Hn; reflexivity).
    destruct (IH n w2) as (w' & Hloop & Htr').
    + lia.
    + intros i Hi. rewrite Hc.
      replace (S (n_set_alarm w) + i)%nat with (n_set_alarm w + S i)%nat by lia.
      apply Hfail. lia.
    + intros Hlt. rewrite Hc.
      replace (S (n_set_alarm w) + k)%nat with (n_set_alarm w + S k)%nat by lia.
      apply Hok. lia.
    + exists w'. simpl rtc_alarmconfig_loop.
      rewrite (bind_ret_run _ _ w w1 r) by reflexivity.
      rewrite (bind_ret_run _ _ w1 w2 tt) by exact Hrun.
      rewrite Hr, Hloop, Htr', Hc, Htr.
      replace (S (n_set_alarm w) + k)%nat with (n_set_alarm w + S k)%nat by lia.
      split; [reflexivity |].
      unfold w1. cbn [trace log_event tick_set_alarm].
      change (attempt_events EvSetAlarm (in_set_alarm P) (n_set_alarm w) (S (S k)))
        with (EvSetAlarm r :: EvDelay INIT_DELAY_MS ::
              attempt_events EvSetAlarm (in_set_alarm P) (S (n_set_alarm w)) (S k)).
      rewrite <- !app_assoc. reflexivity.
Qed.

Lemma rtc_init_loop_trace (k remaining : nat) (w : world) :
  (k <= remaining)%nat ->
  (forall i, (i < k)%nat -> rtc_ok (in_rtc_init P (n_rtc_init w + i)) = false) ->
  ((k < remaining)%nat -> rtc_ok (in_rtc_init P (n_rtc_init w + k)) = true) ->
  exists w',
    rtc_init_loop P remaining w = (Ret (in_rtc_init P (n_rtc_init w + k)), w') /\
    trace w' = trace w ++
                 attempt_events EvRtcInit (in_rtc_init P) (n_rtc_init w) (S k).
Proof.
  revert remaining w. induction k as [| k IH]; intros remaining w Hk Hfail Hok.
  - set (r := in_rtc_init P (n_rtc_init w)).
    set (w1 := log_event (EvRtcInit r) (tick_rtc_init w)).
    destruct (Delay_run P INIT_DELAY_MS w1) as (w2 & Hrun & Htr & _).
    exists w2. rewrite Nat.add_0_r in *. fold r. fold r in Hok.
    split.
    + destruct remaining as [| n]; simpl;
        rewrite (bind_ret_run _ _ w w1 r) by reflexivity;
        rewrite (bind_ret_run _ _ w1 w2 tt) by exact Hrun.
      * reflexivity.
      * rewrite Hok by lia. reflexivity.
    + rewrite Htr. unfold w1. cbn [trace log_event tick_rtc_init attempt_events].
      fold r. rewrite <- app_assoc. reflexivity.
  - destruct remaining as [| n]; [lia |].
    set (r := in_rtc_init P (n_rtc_init w)).
    set (w1 := log_event (EvRtcInit r) (tick_rtc_init w)).
    destruct (Delay_run P INIT_DELAY_MS w1) as (w2 & Hrun & Htr & _ & Hn & _).
    assert (Hr : rtc_ok r = false).
    { unfold r. rewrite <- (Nat.add_0_r (n_rtc_init w)). apply Hfail. lia. }
    assert (Hc : n_rtc_init w2 = S (n_rtc_init w)) by (rewrite Hn; reflexivity).
    destruct (IH n w2) as (w' & Hloop & Htr').
    + lia.
    + intros i Hi. rewrite Hc.
      replace (S (n_rtc_init w) + i)%nat with (n_rtc_init w + S i)%nat by lia.
      apply Hfail. lia.
    + intros Hlt. rewrite Hc.
      replace (S (n_rtc_init w) + k)%nat with (n_rtc_init w + S k)%nat by lia.
      apply Hok. lia.
    + exists w'. simpl rtc_init_loop.
      rewrite (bind_ret_run _ _ w w1 r) by reflexivity.
      rewrite (bind_ret_run _ _ w1 w2 tt) by exact Hrun.
      rewrite Hr, Hloop, Htr', Hc, Htr.
      replace (S (n_rtc_init w) + k)%nat with (n_rtc_init w + S k)%nat by lia.
      split; [reflexivity |].
      unfold w1. cbn [trace log_event tick_rtc_init].
      change (attempt_events EvRtcInit (in_rtc_init P) (n_rtc_init w) (S (S k)))
        with (EvRtcInit r :: EvDelay INIT_DELAY_MS ::
              attempt_events EvRtcInit (in_rtc_init P) (S (n_rtc_init w)) (S k)).
      rewrite <- !app_assoc. reflexivity.
Qed.

End RetryTraces.

Lemma count_events_attempts (f : event -> bool) (ev : cy_en_rtc_status_t -> event)
    (script : nat -> cy_en_rtc_status_t) (c n : nat) (b : bool) :
  (forall r, f (ev r) = b) ->
  f (EvDelay INIT_DELAY_MS) = false ->
  count_events f (attempt_events ev script c n) = if b then n else 0%nat.
Proof.
  intros Hev Hd. revert c. induction n as [| n IH]; intros c.
  - destruct b; reflexivity.
  - cbn [attempt_events]. unfold count_events in *. cbn [filter].
    rewrite Hev, Hd. specialize (IH (S c)). destruct b; simpl; rewrite IH; reflexivity.
Qed.

(** The pass at which a retry loop over [script] stops, counted from 1. *)
Definition stops_at (script : nat -> cy_en_rtc_status_t) (c n : nat) : Prop :=
  (1 <= n <= 500)%nat /\
  (forall i, (i < n - 1)%nat -> script (c + i)%nat <> CY_RTC_SUCCESS) /\
  ((n < 500)%nat -> script (c + n - 1)%nat = CY_RTC_SUCCESS).

Lemma rtc_ok_false_neq (r : cy_en_rtc_status_t) :
  rtc_ok r = false -> r <> CY_RTC_SUCCESS.
Proof. intros H ->. discriminate H. Qed.

Section RetryTime.

Variable P : platform.

Lemma alarmconfig_run_at (w : world) (k : nat) :
  (k <= 499)%nat ->
  (forall i, (i < k)%nat -> rtc_ok (in_set_alarm P (n_set_alarm w + i)) = false) ->
  ((k < 499)%nat -> rtc_ok (in_set_alarm P (n_set_alarm w + k)) = true) ->
  alarmconfig_run P w (S k).
Proof.
  intros Hk Hfail Hok.
  destruct (debug_printf_run P MSG_ALARM w) as (b & w1 & Hlog & Htr1 & Hn & _).
  rewrite <- Hn in Hfail, Hok.
  destruct (rtc_alarmconfig_loop_trace P k 499 w1 Hk Hfail Hok) as (w' & Hloop & Htr).
  exists b, w'.
  replace (n_set_alarm w + S k - 1)%nat with (n_set_alarm w + k)%nat by lia.
  assert (Htrace : trace w' = trace w ++ EvLogLine b MSG_ALARM ::
                     attempt_events EvSetAlarm (in_set_alarm P) (n_set_alarm w) (S k)).
  { rewrite Htr, Htr1, Hn, <- app_assoc. reflexivity. }
  split; [| split; [exact Htrace | split]].
  - unfold rtc_alarmconfig.
    change (Z.to_nat ((MAX_ATTEMPTS - 1) mod UINT32_MOD)) with 499%nat.
    rewrite (bind_ret_run _ _ w w1 tt) by exact Hlog.
    rewrite Hloop, Hn. reflexivity.
  - rewrite Htrace, delay_total_app.
    change (delay_total (EvLogLine b MSG_ALARM ::
              attempt_events EvSetAlarm (in_set_alarm P) (n_set_alarm w) (S k)))
      with (delay_total (attempt_events EvSetAlarm (in_set_alarm P) (n_set_alarm w) (S k))).
    rewrite delay_total_attempts by (intros r ms; discriminate). reflexivity.
  - unfold INIT_DELAY_MS. lia.
Qed.

Lemma rtc_init_run_at (w : world) (k : nat) :
  (k <= 499)%nat ->
  (forall i, (i < k)%nat -> rtc_ok (in_rtc_init P (n_rtc_init w + i)) = false) ->
  ((k < 499)%nat -> rtc_ok (in_rtc_init P (n_rtc_init w + k)) = true) ->
  rtc_init_run P w (S k).
Proof.
  intros Hk Hfail Hok.
  destruct (rtc_init_loop_trace P k 499 w Hk Hfail Hok) as (w' & Hloop & Htr).
  exists w'.
  replace (n_rtc_init w + S k - 1)%nat with (n_rtc_init w + k)%nat by lia.
  split; [| split; [exact Htr | split]].
  - unfold rtc_init.
    change (Z.to_nat ((MAX_ATTEMPTS - 1) mod UINT32_MOD)) with 499%nat. exact Hloop.
  - rewrite Htr, delay_total_app.
    rewrite delay_total_attempts by (intros r ms; discriminate). reflexivity.
  - unfold INIT_DELAY_MS. lia.
Qed.

Lemma stopping_pass_stops_at (script : nat -> cy_en_rtc_status_t) (c k : nat) :
  (k <= 499)%nat ->
  (forall i, (i < k)%nat -> rtc_ok (script (c + i)%nat) = false) ->
  ((k < 499)%nat -> rtc_ok (script (c + k)%nat) = true) ->
  stops_at script c (S k).
Proof.
  intros Hk Hfail Hok. unfold stops_at. split; [lia |]. split.
  - intros i Hi. apply rtc_ok_false_neq, Hfail. lia.
  - intros Hlt. replace (c + S k - 1)%nat with (c + k)%nat by lia.
    apply rtc_ok_true, Hok. lia.
Qed.

(** X5: [rtc_alarmconfig] logs one line and then makes n attempts, where n
    is the first successful attempt or 500; every attempt, the successful
    one included, is followed by one 5 ms delay and by nothing else, so the
    call blocks for 5n ms, at most 2.5 s, and returns the n-th answer. *)
Theorem rtc_alarmconfig_blocking_time (w : world) :
  exists n,
    stops_at (in_set_alarm P) (n_set_alarm w) n /\ alarmconfig_run P w n.
Proof.
  destruct (stopping_pass (in_set_alarm P) (n_set_alarm w) 499)
    as (k & Hk & Hfail & Hok).
  exists (S k). split.
  - apply stopping_pass_stops_at; assumption.
  - apply alarmconfig_run_at; assumption.
Qed.

(** X6: [rtc_init] makes n attempts, where n is the first successful
    attempt or 500, each followed by one 5 ms delay, logs nothing, blocks
    for 5n ms, at most 2.5 s, and returns the n-th answer. *)
Theorem rtc_init_blocking_time (w : world) :
  exists n,
    stops_at (in_rtc_init P) (n_rtc_init w) n /\ rtc_init_run P w n.
Proof.
  destruct (stopping_pass (in_rtc_init P) (n_rtc_init w) 499)
    as (k & Hk & Hfail & Hok).
  exists (S k). split.
  - apply stopping_pass_stops_at; assumption.
  - apply rtc_init_run_at; assumption.
Qed.

End RetryTime.

(** ** Whole passes of the loop *)

Definition short_pass_at_once (P : platform) (w : world) : Prop :=
  exists w' b1 b2 b3,
    switch_event P SWITCH_SHORT_PRESS w = (Ret tt, w') /\
    trace w' = trace w ++
      [EvLogLine b1 MSG_GO_DEEPSLEEP; EvLogLine b2 MSG_ALARM;
       EvSetAlarm CY_RTC_SUCCESS; EvDelay INIT_DELAY_MS;
       EvDelay LONG_GLITCH_DELAY_MS; EvDeepSleep;
       EvLogLine b3 MSG_WAKE_DEEPSLEEP] /\
    delay_total (trace w') = delay_total (trace w) + 105.

Definition long_pass_power_down (P : platform) (n fuel : nat) (w w1 : world) : Prop :=
  exists w' pre,
    main_loop P (S n) fuel w = (PowerDown, w') /\
    trace w' = trace w1 ++ pre ++
      [EvDelay LONG_GLITCH_DELAY_MS; HAL_SET_WAKEUP; EvEnterHibernate None] /\
    count_events (is_log_line MSG_WAKE_DEEPSLEEP) pre = 0%nat.

Definition long_pass_goes_on (P : platform) (w : world) : Prop :=
  exists w' pre,
    switch_event P SWITCH_LONG_PRESS w = (Ret tt, w') /\
    trace w' = trace w ++ pre ++
      [EvDelay LONG_GLITCH_DELAY_MS; HAL_SET_WAKEUP;
       EvEnterHibernate (Some (CY_SYSPM_SUCCESS P))] /\
    count_events is_printf pre = 0%nat /\
    count_events is_assert pre = 0%nat.

Lemma alarm_log_line (b : option string) (m : string) :
  fp_alarmconfig (ALog (EvLogLine b m)) = true -> m = MSG_ALARM.
Proof.
  unfold fp_alarmconfig, fp_alarm_loop, fp_delay, fp_union, fp_log, fp_irq, fp_event.
  simpl. rewrite !orb_false_r. apply String.eqb_eq.
Qed.

Section Passes.

Variable P : platform.

(** X7: a short press whose first attempt to set the alarm succeeds: the
    pass logs "Go to DeepSleep mode" and the alarm notice, sets the alarm
    once, waits 5 ms and 100 ms, enters deep sleep and, on wake-up, logs
    "Wakeup from DeepSleep mode"; it does nothing else and falls through to
    the next pass. *)
Theorem short_pass_first_attempt (w : world) :
  in_set_alarm P (n_set_alarm w) = CY_RTC_SUCCESS ->
  short_pass_at_once P w.
Proof.
  intros Hok.
  destruct (debug_printf_run P MSG_GO_DEEPSLEEP w) as (b1 & w1 & H1 & T1 & N1 & _).
  destruct (alarmconfig_run_at P w1 0) as (b2 & w2 & H2 & T2 & _).
  { lia. }
  { intros i Hi. lia. }
  { intros _. rewrite Nat.add_0_r, N1, Hok. reflexivity. }
  destruct (Delay_run P LONG_GLITCH_DELAY_MS w2) as (w3 & H3 & T3 & _).
  destruct (DeepSleep_run P w3) as (w4 & H4 & T4 & _).
  destruct (debug_printf_run P MSG_WAKE_DEEPSLEEP w4) as (b3 & w5 & H5 & T5 & _).
  assert (Htrace : trace w5 = trace w ++
            [EvLogLine b1 MSG_GO_DEEPSLEEP; EvLogLine b2 MSG_ALARM;
             EvSetAlarm CY_RTC_SUCCESS; EvDelay INIT_DELAY_MS;
             EvDelay LONG_GLITCH_DELAY_MS; EvDeepSleep;
             EvLogLine b3 MSG_WAKE_DEEPSLEEP]).
  { rewrite T5, T4, T3, T2, T1. cbn [attempt_events]. rewrite N1, Hok.
    rewrite <- !app_assoc. reflexivity. }
  exists w5, b1, b2, b3. split; [| split; [exact Htrace |]].
  - unfold switch_event.
    rewrite (bind_ret_run _ _ w w1 tt) by exact H1.
    rewrite (bind_ret_run _ _ w1 w2 _) by exact H2.
    rewrite (bind_ret_run _ _ w2 w3 tt) by exact H3.
    rewrite (bind_ret_run _ _ w3 w4 tt) by exact H4.
    exact H5.
  - rewrite Htrace, delay_total_app. reflexivity.
Qed.

(** X8: a long press after which the hibernate call does not return: the
    run ends there, whatever number of further passes is asked for; the
    hibernate call is the last action, directly after the 100 ms delay and
    the selection of the wake-up source, and no wake-up line is logged. *)
Theorem long_pass_ends_run (n fuel : nat) (w w1 : world) :
  get_switch_event P fuel w = (Ret SWITCH_LONG_PRESS, w1) ->
  in_hibernate P (n_hibernate w1) = None ->
  long_pass_power_down P n fuel w w1.
Proof.
  intros Hev Hhib.
  destruct (switch_long_run P w1) as (w' & b1 & arm & Hrun & Htr & Harm & _ & _).
  rewrite Hhib in Hrun, Htr. cbn [hibernate_result hibernate_tail] in Hrun, Htr.
  exists w', ([EvLogLine b1 MSG_GO_HIBERNATE] ++ arm). split; [| split].
  - cbn [main_loop]. unfold bind at 1. unfold loop_body.
    rewrite (bind_ret_run _ _ w w1 _) by exact Hev. rewrite Hrun. reflexivity.
  - rewrite Htr, app_nil_r, <- !app_assoc. reflexivity.
  - rewrite count_events_app.
    rewrite (alarm_events_only (is_log_line MSG_WAKE_DEEPSLEEP) arm);
      [reflexivity | | exact Harm].
    intros e He. destruct e; try reflexivity.
    apply alarm_log_line in He. subst msg. reflexivity.
Qed.

(** X9: a long press after which the hibernate call returns the success
    status: main prints nothing, asserts nothing and falls through to the
    next pass of the loop. *)
Theorem long_pass_hibernate_returns (w : world) :
  in_hibernate P (n_hibernate w) = Some (CY_SYSPM_SUCCESS P) ->
  long_pass_goes_on P w.
Proof.
  intros Hhib.
  destruct (switch_long_run P w) as (w' & b1 & arm & Hrun & Htr & Harm & _ & _).
  rewrite Hhib in Hrun, Htr. unfold hibernate_result in Hrun. unfold hibernate_tail in Htr.
  rewrite Z.eqb_refl in Hrun, Htr.
  exists w', ([EvLogLine b1 MSG_GO_HIBERNATE] ++ arm).
  split; [exact Hrun |]. split; [| split].
  - rewrite Htr, app_nil_r, <- !app_assoc. reflexivity.
  - rewrite count_events_app.
    rewrite (alarm_events_only is_printf arm); [reflexivity | | exact Harm].
    intros e He; destruct e; try reflexivity; discriminate He.
  - rewrite count_events_app.
    rewrite (alarm_events_only is_assert arm); [reflexivity | | exact Harm].
    intros e He; destruct e; try reflexivity; discriminate He.
Qed.

(** X10: no number of passes of the loop changes the interrupt set-up made
    before it: the loop never masks or unmasks interrupts, never touches
    the NVIC line of the RTC and never initialises the RTC again. *)
Theorem main_loop_keeps_interrupt_setup (n fuel : nat) (w : world) :
  irq_enabled (snd (main_loop P n fuel w)) = irq_enabled w /\
  nvic_rtc (snd (main_loop P n fuel w)) = nvic_rtc w /\
  n_rtc_init (snd (main_loop P n fuel w)) = n_rtc_init w /\
  exists new,
    trace (snd (main_loop P n fuel w)) = trace w ++ new /\
    count_events is_disable_irq new = 0%nat /\
    count_events is_enable_irq new = 0%nat /\
    count_events is_rtc_init new = 0%nat.
Proof.
  pose proof (keeps_main_loop P n fuel w) as Hacts.
  split; [| split; [| split]].
  - apply (acts_same irq_enabled fp_loop); [| exact Hacts].
    intros a v Ha; destruct a; try reflexivity; discriminate Ha.
  - apply (acts_same nvic_rtc fp_loop); [| exact Hacts].
    intros a v Ha; destruct a; try reflexivity; discriminate Ha.
  - apply (acts_same n_rtc_init fp_loop); [| exact Hacts].
    intros a v Ha; destruct a; try reflexivity; discriminate Ha.
  - destruct (acts_trace _ _ _ Hacts) as (new & Hnew & Hall).
    exists new. split; [exact Hnew |].
    repeat split;
      (apply (count_events_none (fun e => fp_loop (ALog e))); [| exact Hall]);
      intros e He; destruct e; try reflexivity; discriminate He.
Qed.

End Passes.

(** Short press; the alarm is set at the first attempt and never fires. *)
Definition bench_quiet : platform :=
  bench (fun _ => CY_RTC_SUCCESS) (held_for 11) (fun _ => None) (fun _ => false).

(** Long press; the hibernate call returns the success status. *)
Definition bench_hibernate_returns : platform :=
  bench (fun _ => CY_RTC_SUCCESS) (held_for 201) (fun _ => Some 0) (fun _ => false).

Lemma short_pass_first_attempt_witness :
  in_set_alarm bench_quiet (n_set_alarm (boot bench_quiet)) = CY_RTC_SUCCESS /\
  short_pass_at_once bench_quiet (boot bench_quiet).
Proof.
  split; [reflexivity | apply short_pass_first_attempt; reflexivity].
Defined.

Lemma long_pass_ends_run_witness :
  get_switch_event bench_rtc_timeout 300 (boot bench_rtc_timeout) =
    (Ret SWITCH_LONG_PRESS,
     snd (get_switch_event bench_rtc_timeout 300 (boot bench_rtc_timeout))) /\
  long_pass_power_down bench_rtc_timeout 3 300 (boot bench_rtc_timeout)
    (snd (get_switch_event bench_rtc_timeout 300 (boot bench_rtc_timeout))).
Proof.
  assert (H : get_switch_event bench_rtc_timeout 300 (boot bench_rtc_timeout) =
              (Ret SWITCH_LONG_PRESS,
               snd (get_switch_event bench_rtc_timeout 300 (boot bench_rtc_timeout))))
    by (vm_compute; reflexivity).
  split; [exact H | apply long_pass_ends_run; [exact H | reflexivity]].
Defined.

Lemma long_pass_hibernate_returns_witness :
  in_hibernate bench_hibernate_returns (n_hibernate (boot bench_hibernate_returns)) =
    Some (CY_SYSPM_SUCCESS bench_hibernate_returns) /\
  long_pass_goes_on bench_hibernate_returns (boot bench_hibernate_returns).
Proof.
  split; [reflexivity | apply long_pass_hibernate_returns; reflexivity].
Defined.

(** ** Start-up *)

Definition is_any_log_line (e : event) : bool :=
  match e with EvLogLine _ _ => true | _ => false end.

Section StartUp.

Variable P : platform.

Lemma bring_up_ok_run (w : world) :
  bring_up_ok P = true ->
  exists w1 pre,
    bring_up P w = (Ret tt, w1) /\
    trace w1 = trace w ++ pre /\
    count_events is_printf pre = 6%nat /\
    Forall (fun e => is_hal e || is_printf e = true) pre /\
    nvic_rtc w1 = true /\
    irq_enabled w1 = irq_enabled w /\
    alarm_flag w1 = alarm_flag w /\
    n_rtc_init w1 = n_rtc_init w /\
    n_irq w1 = n_irq w.
Proof.
  unfold bring_up_ok. intros Hok.
  apply andb_true_iff in Hok. destruct Hok as [Hok H4].
  apply andb_true_iff in Hok. destruct Hok as [Hok H3].
  apply andb_true_iff in Hok. destruct Hok as [H1 H2].
  unfold bring_up, bind, when, emit, printf, modify, ret.
  rewrite H1, H2, H3, H4. simpl.
  destruct (in_io_frozen P); simpl;
    eexists; eexists; (split; [reflexivity |]);
    (split; [cbn [trace log_event set_nvic_rtc]; rewrite <- !app_assoc; reflexivity |]);
    (split; [reflexivity |]);
    (split; [repeat constructor |]);
    repeat split; reflexivity.
Qed.

Lemma bring_up_fail_run (w : world) :
  bring_up_ok P = false ->
  exists w1 pre,
    bring_up P w = (Stop, w1) /\
    trace w1 = trace w ++ pre /\
    Forall (fun e => is_hal e || is_disable_irq e || is_assert e = true) pre /\
    alarm_flag w1 = alarm_flag w /\
    irq_enabled w1 =
      (if in_cybsp_init P =? CY_RSLT_SUCCESS P then irq_enabled w else false) /\
    ((in_cybsp_init P =? CY_RSLT_SUCCESS P) = false ->
     pre = [EvHal "cybsp_init"; EvDisableIrq; EvAssertFailed]).
Proof.
  unfold bring_up_ok. intros Hok.
  unfold bring_up, bind, when, emit, printf, modify, ret, handle_error,
    __disable_irq, CY_ASSERT_0.
  destruct (in_cybsp_init P =? CY_RSLT_SUCCESS P); simpl in *.
  - destruct (in_io_frozen P); simpl;
      (destruct (in_uart_init P =? CY_RSLT_SUCCESS P); simpl in *;
       [destruct (in_hal_uart_setup P =? CY_RSLT_SUCCESS P); simpl in *;
        [destruct (in_retarget_io_init P =? CY_RSLT_SUCCESS P); simpl in *;
         [discriminate Hok |] |] |]);
      eexists; eexists; (split; [reflexivity |]);
      (split; [cbn [trace log_event]; rewrite <- !app_assoc; reflexivity |]);
      (split; [repeat constructor |]);
      repeat split; try reflexivity; intros H; discriminate H.
  - eexists; eexists. split; [reflexivity |].
    split; [cbn [trace log_event set_irq_enabled]; rewrite <- !app_assoc; reflexivity |].
    split; [repeat constructor |]. repeat split; reflexivity.
Qed.

Lemma check_reset_reason_run (w : world) :
  exists w1 b,
    check_reset_reason P w = (Ret tt, w1) /\
    trace w1 = trace w ++
      (if hib_wakeup_reset P then [EvLogLine b HIB_WAKEUP_MSG] else []) /\
    nvic_rtc w1 = nvic_rtc w /\
    irq_enabled w1 = irq_enabled w /\
    alarm_flag w1 = alarm_flag w /\
    n_rtc_init w1 = n_rtc_init w /\
    n_irq w1 = n_irq w.
Proof.
  unfold check_reset_reason. fold (hib_wakeup_reset P).
  destruct (hib_wakeup_reset P); simpl.
  - destruct (debug_printf_eq P HIB_WAKEUP_MSG w) as [b ->].
    eexists. exists b. repeat split; reflexivity.
  - exists w, None. unfold ret. repeat split. symmetry. apply app_nil_r.
Qed.

(** [start_rtc] from the pass [k+1] at which [rtc_init] stops. *)
Lemma start_rtc_run (w : world) (k : nat) :
  (k <= 499)%nat ->
  (forall i, (i < k)%nat -> rtc_ok (in_rtc_init P (n_rtc_init w + i)) = false) ->
  ((k < 499)%nat -> rtc_ok (in_rtc_init P (n_rtc_init w + k)) = true) ->
  exists w' tail,
    start_rtc P w =
      ((if rtc_ok (in_rtc_init P (n_rtc_init w + k)) then Ret tt else Stop), w') /\
    trace w' = trace w ++
      attempt_events EvRtcInit (in_rtc_init P) (n_rtc_init w) (S k) ++ tail /\
    irq_enabled w' = rtc_ok (in_rtc_init P (n_rtc_init w + k)) /\
    nvic_rtc w' = nvic_rtc w /\
    ((rtc_ok (in_rtc_init P (n_rtc_init w + k)) = true /\
      exists b, tail = [EvLogLine b MSG_CURRENT; EvEnableIrq]) \/
     (rtc_ok (in_rtc_init P (n_rtc_init w + k)) = false /\
      tail = [EvDisableIrq; EvAssertFailed])).
Proof.
  intros Hk Hfail Hok.
  destruct (rtc_init_loop_trace P k 499 w Hk Hfail Hok) as (w1 & Hloop & Htr).
  pose proof (keeps_rtc_init P w) as Hacts.
  unfold rtc_init in Hacts.
  change (Z.to_nat ((MAX_ATTEMPTS - 1) mod UINT32_MOD)) with 499%nat in Hacts.
  rewrite Hloop in Hacts. simpl in Hacts.
  assert (Hnvic : nvic_rtc w1 = nvic_rtc w).
  { apply (acts_same nvic_rtc fp_rtc_init); [| exact Hacts].
    intros a v Ha; destruct a; try reflexivity; discriminate Ha. }
  unfold start_rtc, rtc_init.
  change (Z.to_nat ((MAX_ATTEMPTS - 1) mod UINT32_MOD)) with 499%nat.
  rewrite (bind_ret_run _ _ w w1 _) by exact Hloop.
  destruct (rtc_ok (in_rtc_init P (n_rtc_init w + k))) eqn:Hr; simpl negb; cbn [when].
  - rewrite (bind_ret_run _ _ w1 w1 tt) by reflexivity.
    destruct (debug_printf_eq P MSG_CURRENT w1) as [b Hlog].
    change ("Current date and time" ++ CRLF)%string with MSG_CURRENT.
    rewrite (bind_ret_run _ _ w1 _ tt) by exact Hlog.
    eexists. exists [EvLogLine b MSG_CURRENT; EvEnableIrq].
    split; [reflexivity |]. split; [| split; [reflexivity | split]].
    + cbn [trace log_event set_irq_enabled set_buffer tick_clock].
      rewrite Htr, <- !app_assoc. reflexivity.
    + exact Hnvic.
    + left. split; [reflexivity | exists b; reflexivity].
  - unfold bind at 1, handle_error, __disable_irq, CY_ASSERT_0, bind, modify, emit.
    simpl.
    eexists. exists [EvDisableIrq; EvAssertFailed].
    split; [reflexivity |]. split; [| split; [reflexivity | split]].
    + cbn [trace log_event set_irq_enabled]. rewrite Htr, <- !app_assoc. reflexivity.
    + exact Hnvic.
    + right. split; reflexivity.
Qed.

End StartUp.

Definition startup_ready (P : platform) : Prop :=
  irq_enabled (snd (startup P (boot P))) = true /\
  nvic_rtc (snd (startup P (boot P))) = true /\
  exists pre b n,
    trace (snd (startup P (boot P))) = pre ++ [EvLogLine b MSG_CURRENT; EvEnableIrq] /\
    count_events is_printf pre = 6%nat /\
    count_events is_rtc_init pre = n /\ (1 <= n <= 500)%nat /\
    count_events is_enable_irq pre = 0%nat /\
    count_events is_disable_irq pre = 0%nat.

Definition startup_rtc_dead (P : platform) : Prop :=
  fst (startup P (boot P)) = Stop /\
  irq_enabled (snd (startup P (boot P))) = false /\
  exists pre,
    trace (snd (startup P (boot P))) = pre ++ [EvDisableIrq; EvAssertFailed] /\
    count_events is_rtc_init pre = 500%nat /\
    delay_total pre = 2500 /\
    count_events (is_log_line MSG_CURRENT) pre = 0%nat /\
    count_events is_enable_irq pre = 0%nat.

Definition startup_silent_stop (P : platform) : Prop :=
  fst (startup P (boot P)) = Stop /\
  count_events is_printf (trace (snd (startup P (boot P)))) = 0%nat /\
  count_events is_any_log_line (trace (snd (startup P (boot P)))) = 0%nat /\
  count_events is_rtc_init (trace (snd (startup P (boot P)))) = 0%nat /\
  irq_enabled (snd (startup P (boot P))) =
    (if in_cybsp_init P =? CY_RSLT_SUCCESS P then in_irq_at_reset P else false) /\
  ((in_cybsp_init P =? CY_RSLT_SUCCESS P) = false ->
   trace (snd (startup P (boot P))) = [EvHal "cybsp_init"; EvDisableIrq; EvAssertFailed]).

Section StartUpOutcome.

Variable P : platform.

Lemma startup_ok_run :
  bring_up_ok P = true ->
  exists k w' pre b tail,
    (k <= 499)%nat /\
    (forall i, (i < k)%nat -> rtc_ok (in_rtc_init P i) = false) /\
    ((k < 499)%nat -> rtc_ok (in_rtc_init P k) = true) /\
    startup P (boot P) = ((if rtc_ok (in_rtc_init P k) then Ret tt else Stop), w') /\
    trace w' = pre ++ (if hib_wakeup_reset P then [EvLogLine b HIB_WAKEUP_MSG] else []) ++
                 attempt_events EvRtcInit (in_rtc_init P) 0 (S k) ++ tail /\
    count_events is_printf pre = 6%nat /\
    Forall (fun e => is_hal e || is_printf e = true) pre /\
    irq_enabled w' = rtc_ok (in_rtc_init P k) /\
    nvic_rtc w' = true /\
    ((rtc_ok (in_rtc_init P k) = true /\
      exists b', tail = [EvLogLine b' MSG_CURRENT; EvEnableIrq]) \/
     (rtc_ok (in_rtc_init P k) = false /\ tail = [EvDisableIrq; EvAssertFailed])).
Proof.
  intros Hok.
  destruct (bring_up_ok_run P (boot P) Hok)
    as (w1 & pre & H1 & T1 & Hpr & Hall & Hnv1 & _ & _ & N1 & _).
  destruct (check_reset_reason_run P w1) as (w2 & b & H2 & T2 & Hnv2 & _ & _ & N2 & _).
  assert (N0 : n_rtc_init w2 = 0%nat) by (rewrite N2, N1; reflexivity).
  destruct (stopping_pass (in_rtc_init P) (n_rtc_init w2) 499) as (k & Hk & Hfail & Hstop).
  destruct (start_rtc_run P w2 k Hk Hfail Hstop)
    as (w' & tail & H3 & T3 & Hirq & Hnv3 & Htail).
  rewrite N0 in *. simpl Nat.add in *.
  exists k, w', pre, b, tail.
  split; [exact Hk |]. split; [exact Hfail |]. split; [exact Hstop |].
  split; [| split; [| split; [exact Hpr | split; [exact Hall | split; [exact Hirq |
    split; [rewrite Hnv3, Hnv2; exact Hnv1 | exact Htail]]]]]].
  - unfold startup.
    rewrite (bind_ret_run _ _ (boot P) w1 tt) by exact H1.
    rewrite (bind_ret_run _ _ w1 w2 tt) by exact H2.
    exact H3.
  - rewrite T3, T2, T1. cbn [trace boot app]. rewrite <- !app_assoc. reflexivity.
Qed.

Lemma startup_fail_run :
  bring_up_ok P = false ->
  exists w1 pre,
    startup P (boot P) = (Stop, w1) /\
    trace w1 = pre /\
    Forall (fun e => is_hal e || is_disable_irq e || is_assert e = true) pre /\
    irq_enabled w1 =
      (if in_cybsp_init P =? CY_RSLT_SUCCESS P then in_irq_at_reset P else false) /\
    ((in_cybsp_init P =? CY_RSLT_SUCCESS P) = false ->
     pre = [EvHal "cybsp_init"; EvDisableIrq; EvAssertFailed]).
Proof.
  intros Hok.
  destruct (bring_up_fail_run P (boot P) Hok) as (w1 & pre & H1 & T1 & Hall & _ & Hirq & Hc).
  exists w1, pre. split; [| split; [exact T1 | split; [exact Hall | split; [exact Hirq | exact Hc]]]].
  unfold startup, bind. rewrite H1. reflexivity.
Qed.

(** X11: main reaches its loop exactly when the four set-up calls report
    success and one of the first 500 answers of [Cy_RTC_Init] is a
    success; in every other case it stops before the loop. *)
Theorem startup_enters_loop_iff :
  (fst (startup P (boot P)) = Ret tt <->
   bring_up_ok P = true /\
   exists k, (k < 500)%nat /\ in_rtc_init P k = CY_RTC_SUCCESS) /\
  (fst (startup P (boot P)) = Ret tt \/ fst (startup P (boot P)) = Stop).
Proof.
  destruct (bring_up_ok P) eqn:Hok.
  - destruct (startup_ok_run Hok)
      as (k & w' & pre & b & tail & Hk & Hfail & Hstop & Hrun & _).
    rewrite Hrun. simpl fst.
    destruct (rtc_ok (in_rtc_init P k)) eqn:Hr.
    + split; [| left; reflexivity].
      split; [intros _ | reflexivity].
      split; [reflexivity |]. exists k. split; [lia | apply rtc_ok_true, Hr].
    + split; [| right; reflexivity].
      split; [discriminate |].
      intros (_ & j & Hj & Hs). exfalso.
      assert (Hk499 : k = 499%nat).
      { destruct (Nat.eq_dec k 499) as [E | E]; [exact E |].
        assert (Hlt : (k < 499)%nat) by lia.
        specialize (Hstop Hlt). discriminate Hstop. }
      destruct (Nat.lt_ge_cases j k) as [Hlt | Hge].
      * specialize (Hfail j Hlt). rewrite Hs in Hfail. discriminate Hfail.
      * assert (j = k) by lia. subst j. rewrite Hs in Hr. discriminate Hr.
  - destruct (startup_fail_run Hok) as (w1 & pre & Hrun & _).
    rewrite Hrun. simpl fst. split; [| right; reflexivity].
    split; [discriminate | intros [H _]; discriminate H].
Qed.

(** X12: when main reaches its loop, interrupts are unmasked and the RTC
    line is enabled in the NVIC; [__enable_irq] is the last thing done and
    is done once, right after the line "Current date and time"; the banner
    of six lines has been printed and [Cy_RTC_Init] has been called 1 to
    500 times. *)
Theorem startup_leaves_interrupts_enabled :
  fst (startup P (boot P)) = Ret tt -> startup_ready P.
Proof.
  intros Hret.
  destruct (bring_up_ok P) eqn:Hok.
  2:{ destruct (startup_fail_run Hok) as (w1 & pre & Hrun & _).
      rewrite Hrun in Hret. discriminate Hret. }
  destruct (startup_ok_run Hok)
    as (k & w' & pre & b & tail & Hk & _ & _ & Hrun & Htr & Hpr & Hall & Hirq & Hnv & Htail).
  rewrite Hrun in Hret. simpl in Hret.
  destruct (rtc_ok (in_rtc_init P k)) eqn:Hr; [| discriminate Hret].
  destruct Htail as [(_ & b' & ->) | (H & _)]; [| discriminate H].
  unfold startup_ready. rewrite Hrun. simpl snd.
  split; [exact Hirq |]. split; [exact Hnv |].
  exists (pre ++ (if hib_wakeup_reset P then [EvLogLine b HIB_WAKEUP_MSG] else []) ++
          attempt_events EvRtcInit (in_rtc_init P) 0 (S k)), b', (S k).
  assert (Hplain : forall f : event -> bool,
             (forall e, is_hal e || is_printf e = true -> f e = false) ->
             count_events f pre = 0%nat).
  { intros f Hf. apply (count_events_none (fun e => is_hal e || is_printf e)); assumption. }
  split; [rewrite Htr, <- !app_assoc; reflexivity |].
  split; [| split; [| split; [lia | split]]].
  - rewrite !count_events_app, Hpr.
    rewrite (count_events_attempts is_printf EvRtcInit _ _ _ false) by reflexivity.
    destruct (hib_wakeup_reset P); reflexivity.
  - rewrite !count_events_app.
    rewrite (count_events_attempts is_rtc_init EvRtcInit _ _ _ true) by reflexivity.
    rewrite Hplain by (intros e He; destruct e; try reflexivity; discriminate He).
    destruct (hib_wakeup_reset P); reflexivity.
  - rewrite !count_events_app.
    rewrite (count_events_attempts is_enable_irq EvRtcInit _ _ _ false) by reflexivity.
    rewrite Hplain by (intros e He; destruct e; try reflexivity; discriminate He).
    destruct (hib_wakeup_reset P); reflexivity.
  - rewrite !count_events_app.
    rewrite (count_events_attempts is_disable_irq EvRtcInit _ _ _ false) by reflexivity.
    rewrite Hplain by (intros e He; destruct e; try reflexivity; discriminate He).
    destruct (hib_wakeup_reset P); reflexivity.
Qed.

End StartUpOutcome.

Lemma delay_total_plain (l : list event) :
  Forall (fun e => is_hal e || is_printf e = true) l -> delay_total l = 0.
Proof.
  induction 1 as [| e l He _ IH]; [reflexivity |].
  destruct e; try discriminate He; simpl; exact IH.
Qed.

Section StartUpFailures.

Variable P : platform.

(** X13: when set-up succeeds but [Cy_RTC_Init] fails at each of its 500
    attempts, main spends 2.5 s in the retry delays, then masks interrupts
    and stops in [handle_error]: "Current date and time" is never logged
    and interrupts are never enabled. *)
Theorem startup_rtc_init_exhausted :
  bring_up_ok P = true ->
  (forall k, (k < 500)%nat -> in_rtc_init P k <> CY_RTC_SUCCESS) ->
  startup_rtc_dead P.
Proof.
  intros Hok Hdead.
  destruct (startup_ok_run P Hok)
    as (k & w' & pre & b & tail & Hk & _ & Hstop & Hrun & Htr & _ & Hall & Hirq & _ & Htail).
  assert (Hr : rtc_ok (in_rtc_init P k) = false) by (apply rtc_ok_false, Hdead; lia).
  assert (Hk499 : k = 499%nat).
  { destruct (Nat.eq_dec k 499) as [E | E]; [exact E |].
    assert (Hlt : (k < 499)%nat) by lia.
    specialize (Hstop Hlt). rewrite Hr in Hstop. discriminate Hstop. }
  rewrite Hr in Hrun, Hirq.
  destruct Htail as [(H & _) | (_ & ->)]; [rewrite Hr in H; discriminate H |].
  subst k. unfold startup_rtc_dead. rewrite Hrun. simpl fst. simpl snd.
  split; [reflexivity |]. split; [exact Hirq |].
  exists (pre ++ (if hib_wakeup_reset P then [EvLogLine b HIB_WAKEUP_MSG] else []) ++
          attempt_events EvRtcInit (in_rtc_init P) 0 500).
  assert (Hplain : forall f : event -> bool,
             (forall e, is_hal e || is_printf e = true -> f e = false) ->
             count_events f pre = 0%nat).
  { intros f Hf. apply (count_events_none (fun e => is_hal e || is_printf e)); assumption. }
  split; [rewrite Htr, <- !app_assoc; reflexivity |].
  split; [| split; [| split]].
  - rewrite !count_events_app.
    rewrite (count_events_attempts is_rtc_init EvRtcInit _ _ _ true) by reflexivity.
    rewrite Hplain by (intros e He; destruct e; try reflexivity; discriminate He).
    destruct (hib_wakeup_reset P); reflexivity.
  - rewrite !delay_total_app, (delay_total_plain pre Hall).
    rewrite delay_total_attempts by (intros r ms; discriminate).
    destruct (hib_wakeup_reset P); reflexivity.
  - rewrite !count_events_app.
    rewrite (count_events_attempts (is_log_line MSG_CURRENT) EvRtcInit _ _ _ false)
      by reflexivity.
    rewrite Hplain by (intros e He; destruct e; try reflexivity; discriminate He).
    destruct (hib_wakeup_reset P); reflexivity.
  - rewrite !count_events_app.
    rewrite (count_events_attempts is_enable_irq EvRtcInit _ _ _ false) by reflexivity.
    rewrite Hplain by (intros e He; destruct e; try reflexivity; discriminate He).
    destruct (hib_wakeup_reset P); reflexivity.
Qed.

(** X14: when one of the four set-up calls fails, main stops without
    having printed or logged anything and without having touched the RTC.
    A failure of [cybsp_init] goes through [handle_error] (interrupts are
    masked, and the whole run is the call, [__disable_irq] and the failed
    assertion); a failure of one of the three UART calls stops in a bare
    [CY_ASSERT(0)] and leaves the interrupt mask as it was at reset. *)
Theorem startup_set_up_failure :
  bring_up_ok P = false -> startup_silent_stop P.
Proof.
  intros Hok.
  destruct (startup_fail_run P Hok) as (w1 & pre & Hrun & Htr & Hall & Hirq & Hc).
  unfold startup_silent_stop. rewrite Hrun. simpl fst. simpl snd. rewrite Htr.
  assert (Hnone : forall f : event -> bool,
             (forall e, is_hal e || is_disable_irq e || is_assert e = true -> f e = false) ->
             count_events f pre = 0%nat).
  { intros f Hf.
    apply (count_events_none (fun e => is_hal e || is_disable_irq e || is_assert e));
      assumption. }
  split; [reflexivity |].
  split; [apply Hnone; intros e He; destruct e; try reflexivity; discriminate He |].
  split; [apply Hnone; intros e He; destruct e; try reflexivity; discriminate He |].
  split; [apply Hnone; intros e He; destruct e; try reflexivity; discriminate He |].
  split; [exact Hirq | exact Hc].
Qed.

End StartUpFailures.

(** Set-up succeeds; [Cy_RTC_Init] times out at every attempt. *)
Definition bench_rtc_init_dead : platform :=
  mk_platform 0 0 0 262144 0 false 0 0 0 0 false
    (fun _ => CY_RTC_TIMEOUT) (fun _ => CY_RTC_SUCCESS) (fun _ => clock_1_2_3)
    (held_for 0) (fun _ => None) (fun _ => false).

(** [Cy_SCB_UART_Init] fails (status 1); interrupts are unmasked at reset. *)
Definition bench_uart_fails : platform :=
  mk_platform 0 0 0 262144 0 false 1 0 0 0 true
    (fun _ => CY_RTC_SUCCESS) (fun _ => CY_RTC_SUCCESS) (fun _ => clock_1_2_3)
    (held_for 0) (fun _ => None) (fun _ => false).

Lemma startup_leaves_interrupts_enabled_witness :
  fst (startup bench_quiet (boot bench_quiet)) = Ret tt /\
  startup_ready bench_quiet.
Proof.
  assert (H : fst (startup bench_quiet (boot bench_quiet)) = Ret tt)
    by (vm_compute; reflexivity).
  split; [exact H | apply startup_leaves_interrupts_enabled; exact H].
Defined.

Lemma startup_rtc_init_exhausted_witness :
  bring_up_ok bench_rtc_init_dead = true /\
  startup_rtc_dead bench_rtc_init_dead.
Proof.
  split; [reflexivity |].
  apply startup_rtc_init_exhausted; [reflexivity | intros k _; discriminate].
Defined.

Lemma startup_set_up_failure_witness :
  bring_up_ok bench_uart_fails = false /\
  startup_silent_stop bench_uart_fails.
Proof.
  split; [reflexivity | apply startup_set_up_failure; reflexivity].
Defined.

(** ** When [alarm_flag] can change *)

(** A relation between the world before and the world after. *)
Definition rkeeps {A} (R : world -> world -> Prop) (c : M A) : Prop :=
  forall w, R w (snd (c w)).

(** The actions that concern neither the flag, nor the interrupt set-up,
    nor the passing of an interruptible point. *)
Definition fp_plain : footprint :=
  fun a =>
    match a with
    | ASetFlag | ASetIrq _ | ASetNvic _ | ATickIrq => false
    | _ => true
    end.

Section Stepwise.

Variable P : platform.
Variable R : world -> world -> Prop.
Hypothesis R_refl : forall w, R w w.
Hypothesis R_trans : forall w1 w2 w3, R w1 w2 -> R w2 w3 -> R w1 w3.

Lemma rkeeps_ret {A} (a : A) : rkeeps R (ret a).
Proof. intros w. apply R_refl. Qed.

Lemma rkeeps_bind {A B} (c : M A) (k : A -> M B) :
  rkeeps R c -> (forall a, rkeeps R (k a)) -> rkeeps R (bind c k).
Proof.
  intros Hc Hk w. unfold bind.
  specialize (Hc w). destruct (c w) as [[a | | |] w1]; simpl in *; try exact Hc.
  eapply R_trans; [exact Hc | apply Hk].
Qed.

Lemma rkeeps_when (b : bool) (c : M unit) : rkeeps R c -> rkeeps R (when b c).
Proof. intros Hc. destruct b; [exact Hc | apply rkeeps_ret]. Qed.

Lemma rkeeps_of_keeps {A} (Q : footprint) (c : M A) :
  (forall a w, Q a = true -> R w (apply_action a w)) ->
  keeps Q c -> rkeeps R c.
Proof.
  intros HQ Hc w. destruct (Hc w) as (l & Hl & ->). clear Hc.
  revert w Hl. induction l as [| a l IH]; intros w Hl; [apply R_refl |].
  simpl in Hl. apply andb_true_iff in Hl. destruct Hl as [Ha Hl].
  change (apply_actions (a :: l) w) with (apply_actions l (apply_action a w)).
  eapply R_trans; [apply HQ, Ha | apply IH, Hl].
Qed.

Hypothesis R_plain : forall a w, fp_plain a = true -> R w (apply_action a w).
Hypothesis R_irq : rkeeps R (interrupt_point P).

Lemma rkeeps_plain {A} (Q : footprint) (c : M A) :
  fp_sub Q fp_plain -> keeps Q c -> rkeeps R c.
Proof.
  intros Hsub Hc. apply (rkeeps_of_keeps Q); [| exact Hc].
  intros a w Ha. apply R_plain, Hsub, Ha.
Qed.

Ltac plain_sub :=
  let a := fresh "a" in
  let H := fresh "H" in
  intros a H; destruct a; try reflexivity; discriminate H.

Lemma rkeeps_emit (e : event) : rkeeps R (emit e).
Proof. intros w. apply (R_plain (ALog e)). reflexivity. Qed.

Lemma rkeeps_Delay (ms : Z) : rkeeps R (Cy_SysLib_Delay P ms).
Proof. apply rkeeps_bind; [apply rkeeps_emit | intros _; exact R_irq]. Qed.

Lemma rkeeps_DeepSleep : rkeeps R (Cy_SysPm_CpuEnterDeepSleep P).
Proof. apply rkeeps_bind; [apply rkeeps_emit | intros _; exact R_irq]. Qed.

Lemma rkeeps_debug_printf (str : string) : rkeeps R (debug_printf P str).
Proof.
  apply (rkeeps_plain (fp_log str)); [plain_sub | apply keeps_debug_printf].
Qed.

Lemma rkeeps_rtc_init_loop (remaining : nat) : rkeeps R (rtc_init_loop P remaining).
Proof.
  assert (Hcall : rkeeps R (Cy_RTC_Init P)).
  { intros w.
    apply (R_trans _ (tick_rtc_init w)).
    - apply (R_plain ATickRtcInit). reflexivity.
    - apply (R_plain (ALog (EvRtcInit (in_rtc_init P (n_rtc_init w))))). reflexivity. }
  induction remaining as [| n IH]; simpl;
    (apply rkeeps_bind; [exact Hcall |]); intros r;
    (apply rkeeps_bind; [apply rkeeps_Delay |]); intros _.
  - apply rkeeps_ret.
  - destruct (rtc_ok r); [apply rkeeps_ret | exact IH].
Qed.

Lemma rkeeps_rtc_alarmconfig_loop (remaining : nat) :
  rkeeps R (rtc_alarmconfig_loop P remaining).
Proof.
  assert (Hcall : rkeeps R (Cy_RTC_SetAlarmDateAndTime P)).
  { intros w.
    apply (R_trans _ (tick_set_alarm w)).
    - apply (R_plain ATickSetAlarm). reflexivity.
    - apply (R_plain (ALog (EvSetAlarm (in_set_alarm P (n_set_alarm w))))). reflexivity. }
  induction remaining as [| n IH]; simpl;
    (apply rkeeps_bind; [exact Hcall |]); intros r;
    (apply rkeeps_bind; [apply rkeeps_Delay |]); intros _.
  - apply rkeeps_ret.
  - destruct (rtc_ok r); [apply rkeeps_ret | exact IH].
Qed.

Lemma rkeeps_rtc_alarmconfig : rkeeps R (rtc_alarmconfig P).
Proof.
  apply rkeeps_bind; [apply rkeeps_debug_printf |].
  intros _. apply rkeeps_rtc_alarmconfig_loop.
Qed.

Lemma rkeeps_poll_button (fuel : nat) (press_count : Z) :
  rkeeps R (poll_button P fuel press_count).
Proof.
  revert press_count. induction fuel as [| f IH]; intros press_count; simpl.
  - intros w. apply R_refl.
  - apply rkeeps_bind.
    + intros w. apply (R_plain ATickGpio). reflexivity.
    + intros v. destruct (v =? CYBSP_BTN_PRESSED P); [| apply rkeeps_ret].
      apply rkeeps_bind; [apply rkeeps_Delay | intros _; apply IH].
Qed.

Lemma rkeeps_get_switch_event (fuel : nat) : rkeeps R (get_switch_event P fuel).
Proof.
  apply rkeeps_bind; [apply rkeeps_poll_button |].
  intros pc. apply rkeeps_bind; [apply rkeeps_Delay | intros _; apply rkeeps_ret].
Qed.

Lemma rkeeps_Hibernate : rkeeps R (Cy_SysPm_SystemEnterHibernate P).
Proof.
  intros w. unfold Cy_SysPm_SystemEnterHibernate.
  assert (H : R w (log_event (EvEnterHibernate (in_hibernate P (n_hibernate w)))
                     (tick_hibernate w))).
  { apply (R_trans _ (tick_hibernate w)).
    - apply (R_plain ATickHibernate). reflexivity.
    - apply (R_plain (ALog (EvEnterHibernate (in_hibernate P (n_hibernate w))))).
      reflexivity. }
  destruct (in_hibernate P (n_hibernate w)); exact H.
Qed.

Lemma rkeeps_CY_ASSERT_0 : rkeeps R CY_ASSERT_0.
Proof. intros w. apply (R_plain (ALog EvAssertFailed)). reflexivity. Qed.

Lemma rkeeps_switch_event (ev : en_switch_event_t) : rkeeps R (switch_event P ev).
Proof.
  destruct ev; unfold switch_event, printf.
  - apply rkeeps_ret.
  - repeat first
      [ apply rkeeps_debug_printf | apply rkeeps_rtc_alarmconfig | apply rkeeps_Delay
      | apply rkeeps_DeepSleep | apply rkeeps_bind; [| intro] ].
  - repeat first
      [ apply rkeeps_debug_printf | apply rkeeps_rtc_alarmconfig | apply rkeeps_Delay
      | apply rkeeps_Hibernate | apply rkeeps_CY_ASSERT_0 | apply rkeeps_emit
      | apply rkeeps_when | apply rkeeps_bind; [| intro] ].
Qed.

Lemma rkeeps_loop_body (fuel : nat) : rkeeps R (loop_body P fuel).
Proof.
  apply rkeeps_bind; [apply rkeeps_get_switch_event | intros ev; apply rkeeps_switch_event].
Qed.

Lemma rkeeps_main_loop (n fuel : nat) : rkeeps R (main_loop P n fuel).
Proof.
  induction n as [| n IH]; simpl.
  - apply rkeeps_ret.
  - apply rkeeps_bind; [apply rkeeps_loop_body | intros _; exact IH].
Qed.

End Stepwise.

(** The flag is as it was, or the alarm was pending at an interruptible
    point passed in between. *)
Definition flag_from_alarm (P : platform) (w w' : world) : Prop :=
  (n_irq w <= n_irq w')%nat /\
  (alarm_flag w' = alarm_flag w \/
   exists i, (n_irq w <= i < n_irq w')%nat /\ in_alarm2 P i = true).

(** While interrupts are masked they stay masked and the flag is as it was. *)
Definition masked (w w' : world) : Prop :=
  irq_enabled w = false -> irq_enabled w' = false /\ alarm_flag w' = alarm_flag w.

Definition fp_noflag : footprint :=
  fun a => match a with ASetFlag => false | _ => true end.

Definition fp_nounmask : footprint :=
  fun a => match a with ASetFlag | ASetIrq true => false | _ => true end.

Section FlagSource.

Variable P : platform.

Lemma flag_from_alarm_refl (w : world) : flag_from_alarm P w w.
Proof. split; [lia | left; reflexivity]. Qed.

Lemma flag_from_alarm_trans (w1 w2 w3 : world) :
  flag_from_alarm P w1 w2 -> flag_from_alarm P w2 w3 -> flag_from_alarm P w1 w3.
Proof.
  intros [Hn1 H1] [Hn2 H2]. split; [lia |].
  destruct H2 as [H2 | (i & Hi & Hp)].
  - destruct H1 as [H1 | (i & Hi & Hp)].
    + left. congruence.
    + right. exists i. split; [lia | exact Hp].
  - right. exists i. split; [lia | exact Hp].
Qed.

Lemma flag_from_alarm_action (a : action) (w : world) :
  fp_noflag a = true -> flag_from_alarm P w (apply_action a w).
Proof.
  intros Ha. destruct a; try discriminate Ha;
    (split; [simpl; lia | left; reflexivity]).
Qed.

Lemma flag_from_alarm_irq : rkeeps (flag_from_alarm P) (interrupt_point P).
Proof.
  intros w. unfold interrupt_point.
  destruct (in_alarm2 P (n_irq w)) eqn:Hp; simpl.
  - destruct (irq_enabled w && nvic_rtc w); unfold flag_from_alarm; simpl.
    + split; [lia |]. right. exists (n_irq w). split; [lia | exact Hp].
    + split; [lia | left; reflexivity].
  - unfold flag_from_alarm; simpl. split; [lia | left; reflexivity].
Qed.

Lemma keeps_enable_irq_noflag : keeps fp_noflag __enable_irq.
Proof.
  intros w. exists [ASetIrq true; ALog EvEnableIrq]. split; reflexivity.
Qed.

Lemma flag_from_alarm_main (n fuel : nat) :
  rkeeps (flag_from_alarm P) (startup P ;;; main_loop P n fuel).
Proof.
  pose proof flag_from_alarm_refl as Hrefl.
  pose proof flag_from_alarm_trans as Htrans.
  assert (Hplain : forall a w, fp_plain a = true -> flag_from_alarm P w (apply_action a w)).
  { intros a w Ha. apply flag_from_alarm_action. destruct a; try reflexivity; discriminate Ha. }
  assert (Hk : forall (A : Type) (Q : footprint) (c : M A),
             fp_sub Q fp_noflag -> keeps Q c -> rkeeps (flag_from_alarm P) c).
  { intros A Q c Hsub Hc. apply (rkeeps_of_keeps _ Hrefl Htrans Q); [| exact Hc].
    intros a w Ha. apply flag_from_alarm_action, Hsub, Ha. }
  apply (rkeeps_bind _ Htrans).
  - unfold startup. apply (rkeeps_bind _ Htrans).
    + apply (Hk _ fp_bring_up); [| apply keeps_bring_up].
      intros a Ha; destruct a; try reflexivity; discriminate Ha.
    + intros _. apply (rkeeps_bind _ Htrans).
      * apply (Hk _ (fp_log HIB_WAKEUP_MSG)); [| apply keeps_check_reset_reason].
        intros a Ha; destruct a; try reflexivity; discriminate Ha.
      * intros _. unfold start_rtc. apply (rkeeps_bind _ Htrans).
        -- apply (rkeeps_rtc_init_loop P _ Hrefl Htrans Hplain flag_from_alarm_irq).
        -- intros r. apply (rkeeps_bind _ Htrans).
           ++ apply (rkeeps_when _ Hrefl).
              apply (Hk _ fp_handle_error); [| apply keeps_handle_error].
              intros a Ha; destruct a; try reflexivity; discriminate Ha.
           ++ intros _. apply (rkeeps_bind _ Htrans).
              ** apply (rkeeps_debug_printf P _ Hrefl Htrans Hplain).
              ** intros _. apply (Hk _ fp_noflag); [intros a Ha; exact Ha |].
                 apply keeps_enable_irq_noflag.
  - intros _. apply (rkeeps_main_loop P _ Hrefl Htrans Hplain flag_from_alarm_irq).
Qed.

(** X15: nothing in main.c but the interrupt path writes [alarm_flag]: at
    the end of any run of main the flag is 0, or the alarm was pending at
    one of the interruptible points the run went through.  On a platform
    whose alarm is never pending the flag is 0 after every run. *)
Theorem alarm_flag_set_only_by_alarm (n fuel : nat) :
  (alarm_flag (snd (main P n fuel)) = 0 \/
   exists i, (i < n_irq (snd (main P n fuel)))%nat /\ in_alarm2 P i = true) /\
  ((forall i, in_alarm2 P i = false) -> alarm_flag (snd (main P n fuel)) = 0).
Proof.
  destruct (flag_from_alarm_main n fuel (boot P)) as [_ H].
  fold (main P n fuel) in H.
  assert (H' : alarm_flag (snd (main P n fuel)) = 0 \/
               exists i, (i < n_irq (snd (main P n fuel)))%nat /\ in_alarm2 P i = true).
  { destruct H as [H | (i & Hi & Hp)]; [left; exact H | right].
    exists i. split; [lia | exact Hp]. }
  split; [exact H' |].
  intros Hquiet. destruct H' as [H' | (i & _ & Hp)]; [exact H' |].
  rewrite Hquiet in Hp. discriminate Hp.
Qed.

Lemma masked_refl (w : world) : masked w w.
Proof. intros H. split; [exact H | reflexivity]. Qed.

Lemma masked_trans (w1 w2 w3 : world) : masked w1 w2 -> masked w2 w3 -> masked w1 w3.
Proof.
  intros H12 H23 H1. destruct (H12 H1) as [H2 E2]. destruct (H23 H2) as [H3 E3].
  split; [exact H3 | congruence].
Qed.

Lemma masked_action (a : action) (w : world) :
  fp_nounmask a = true -> masked w (apply_action a w).
Proof.
  intros Ha H. destruct a as [| | [|] | | | | | | | |]; try discriminate Ha;
    simpl; split; try exact H; reflexivity.
Qed.

Lemma masked_irq : rkeeps masked (interrupt_point P).
Proof.
  intros w H. unfold interrupt_point. rewrite H, andb_false_r. simpl.
  split; [exact H | reflexivity].
Qed.

(** X16: when interrupts are masked at reset, [alarm_flag] is still 0 when
    start-up ends, however often the alarm was pending during the delays of
    [rtc_init]: the unmasking is the last action of start-up. *)
Theorem startup_masked_keeps_flag_clear :
  in_irq_at_reset P = false ->
  alarm_flag (snd (startup P (boot P))) = 0.
Proof.
  intros Hreset.
  pose proof masked_refl as Hrefl.
  pose proof masked_trans as Htrans.
  assert (Hplain : forall a w, fp_plain a = true -> masked w (apply_action a w)).
  { intros a w Ha. apply masked_action. destruct a; try reflexivity; discriminate Ha. }
  assert (Hk : forall (A : Type) (Q : footprint) (c : M A),
             fp_sub Q fp_nounmask -> keeps Q c -> rkeeps masked c).
  { intros A Q c Hsub Hc. apply (rkeeps_of_keeps _ Hrefl Htrans Q); [| exact Hc].
    intros a w Ha. apply masked_action, Hsub, Ha. }
  set (before_unmask :=
         bring_up P ;;; check_reset_reason P ;;;
         rtcSta <- rtc_init P ;;
         when (negb (rtc_ok rtcSta)) handle_error ;;;
         debug_printf P ("Current date and time" ++ CRLF)%string).
  assert (Hpre : rkeeps masked before_unmask).
  { unfold before_unmask. apply (rkeeps_bind _ Htrans).
    - apply (Hk _ fp_bring_up); [| apply keeps_bring_up].
      intros a Ha; destruct a as [| | [|] | | | | | | | |]; try reflexivity; discriminate Ha.
    - intros _. apply (rkeeps_bind _ Htrans).
      + apply (Hk _ (fp_log HIB_WAKEUP_MSG)); [| apply keeps_check_reset_reason].
        intros a Ha; destruct a; try reflexivity; discriminate Ha.
      + intros _. apply (rkeeps_bind _ Htrans).
        * apply (rkeeps_rtc_init_loop P _ Hrefl Htrans Hplain masked_irq).
        * intros r. apply (rkeeps_bind _ Htrans).
          -- apply (rkeeps_when _ Hrefl).
             apply (Hk _ fp_handle_error); [| apply keeps_handle_error].
             intros a Ha; destruct a as [| | [|] | | | | | | | |];
               try reflexivity; discriminate Ha.
          -- intros _. apply (rkeeps_debug_printf P _ Hrefl Htrans Hplain). }
  assert (Hsplit : startup P (boot P) = (before_unmask ;;; __enable_irq) (boot P)).
  { unfold startup, start_rtc, before_unmask, bind.
    destruct (bring_up P (boot P)) as [[[] | | |] w1]; try reflexivity.
    destruct (check_reset_reason P w1) as [[[] | | |] w2]; try reflexivity.
    destruct (rtc_init P w2) as [[r | | |] w3]; try reflexivity.
    destruct (when (negb (rtc_ok r)) handle_error w3) as [[[] | | |] w4]; reflexivity. }
  rewrite Hsplit. unfold bind.
  destruct (Hpre (boot P) Hreset) as [_ Hflag].
  destruct (before_unmask (boot P)) as [[[] | | |] w1]; simpl in *; exact Hflag.
Qed.

End FlagSource.

(** The alarm is pending at every interruptible point; interrupts are
    masked at reset. *)
Definition bench_alarm_always : platform :=
  bench (fun _ => CY_RTC_SUCCESS) (held_for 0) (fun _ => None) (fun _ => true).

Lemma startup_masked_keeps_flag_clear_witness :
  in_irq_at_reset bench_alarm_always = false /\
  alarm_flag (snd (startup bench_alarm_always (boot bench_alarm_always))) = 0.
Proof.
  split; [reflexivity | apply startup_masked_keeps_flag_clear; reflexivity].
Defined.

(** ** The alarm flag has one writer *)

(** The interrupt set-up allows the handler to run. *)
Definition irq_open (w : world) : bool := irq_enabled w && nvic_rtc w.

(** Between [w] and [w'] the handler ran: the set-up allowed it and the
    alarm was pending at an interruptible point passed in between. *)
Definition handler_ran (P : platform) (w w' : world) : Prop :=
  irq_open w = true /\
  exists i, (n_irq w <= i < n_irq w')%nat /\ in_alarm2 P i = true.

(** Between [w] and [w'] the handler did not run. *)
Definition handler_idle (P : platform) (w w' : world) : Prop :=
  irq_open w = false \/
  forall i, (n_irq w <= i < n_irq w')%nat -> in_alarm2 P i = false.

(** From [w] to [w'] the interrupt set-up is kept, and [alarm_flag] is
    written by the handler and by nothing else: it is 1 when the handler
    ran and as it was when the handler did not run. *)
Definition written_by_handler (P : platform) (w w' : world) : Prop :=
  (n_irq w <= n_irq w')%nat /\
  irq_enabled w' = irq_enabled w /\
  nvic_rtc w' = nvic_rtc w /\
  ((handler_idle P w w' /\ alarm_flag w' = alarm_flag w) \/
   (handler_ran P w w' /\ alarm_flag w' = 1)).

Section SingleWriter.

Variable P : platform.

Lemma written_by_handler_refl (w : world) : written_by_handler P w w.
Proof.
  unfold written_by_handler.
  split; [lia |]. split; [reflexivity |]. split; [reflexivity |].
  left. split; [| reflexivity]. right. intros i Hi. lia.
Qed.

Lemma written_by_handler_trans (w1 w2 w3 : world) :
  written_by_handler P w1 w2 -> written_by_handler P w2 w3 ->
  written_by_handler P w1 w3.
Proof.
  intros (Hn1 & Hi1 & Hv1 & H1) (Hn2 & Hi2 & Hv2 & H2).
  assert (Hopen : irq_open w2 = irq_open w1) by (unfold irq_open; congruence).
  unfold written_by_handler.
  split; [lia |]. split; [congruence |]. split; [congruence |].
  destruct H2 as [[Hidle2 Hf2] | [(Ho2 & i & Hr2 & Hp2) Hf2]].
  - destruct H1 as [[Hidle1 Hf1] | [(Ho1 & i & Hr1 & Hp1) Hf1]].
    + left. split; [| congruence].
      destruct Hidle1 as [Hc | Hq1]; [left; exact Hc |].
      destruct Hidle2 as [Hc | Hq2]; [left; congruence |].
      right. intros i Hi.
      destruct (Nat.lt_ge_cases i (n_irq w2)); [apply Hq1 | apply Hq2]; lia.
    + right. split; [| congruence].
      split; [exact Ho1 |]. exists i. split; [lia | exact Hp1].
  - right. split; [| exact Hf2].
    split; [congruence |]. exists i. split; [lia | exact Hp2].
Qed.

Lemma written_by_handler_plain (a : action) (w : world) :
  fp_plain a = true -> written_by_handler P w (apply_action a w).
Proof.
  intros Ha. destruct a; try discriminate Ha;
    (unfold written_by_handler, handler_idle; simpl;
     split; [lia |]; split; [reflexivity |]; split; [reflexivity |];
     left; split; [right; intros i Hi; lia | reflexivity]).
Qed.

Lemma written_by_handler_irq : rkeeps (written_by_handler P) (interrupt_point P).
Proof.
  intros w. unfold interrupt_point, written_by_handler, handler_idle, handler_ran.
  rewrite <- andb_assoc. fold (irq_open w).
  destruct (in_alarm2 P (n_irq w)) eqn:Hp; simpl.
  - destruct (irq_open w) eqn:Ho; simpl.
    + split; [lia |]. split; [reflexivity |]. split; [reflexivity |].
      right. split; [| reflexivity].
      split; [reflexivity |]. exists (n_irq w). split; [lia | exact Hp].
    + split; [lia |]. split; [reflexivity |]. split; [reflexivity |].
      left. split; [left; reflexivity | reflexivity].
  - split; [lia |]. split; [reflexivity |]. split; [reflexivity |].
    left. split; [| reflexivity].
    right. intros i Hi. assert (i = n_irq w) by lia. subst i. exact Hp.
Qed.

Lemma written_by_handler_main_loop (n fuel : nat) :
  rkeeps (written_by_handler P) (main_loop P n fuel).
Proof.
  apply (rkeeps_main_loop P _ written_by_handler_refl written_by_handler_trans).
  - intros a w Ha. apply written_by_handler_plain, Ha.
  - exact written_by_handler_irq.
Qed.

Lemma written_by_handler_loop_body (fuel : nat) :
  rkeeps (written_by_handler P) (loop_body P fuel).
Proof.
  apply (rkeeps_loop_body P _ written_by_handler_refl written_by_handler_trans).
  - intros a w Ha. apply written_by_handler_plain, Ha.
  - exact written_by_handler_irq.
Qed.

End SingleWriter.

(** C3, as the code has it: [alarm_flag] is 0 when main starts.  The Alarm2
    handler does nothing but set it to 1, and it is the only writer: over
    one pass and over any number of passes of the loop the flag is 1 if the
    handler ran (interrupts unmasked, RTC line enabled, alarm pending at an
    interruptible point of those passes) and has the value it had if the
    handler did not run; after a run of main from reset it is 0, or it is 1
    and the alarm was pending at an interruptible point of the run.  The
    loop never clears the flag (it keeps its value or becomes 1), and main
    never reads it: a run from a world with another flag value gives the
    same result and the same world up to the flag. *)
Theorem C3_alarm_flag_latch (P : platform) (n fuel : nat) (w : world) (v : Z) :
  alarm_flag (boot P) = 0 /\
  Cy_RTC_Alarm2Interrupt w = (Ret tt, set_alarm_flag 1 w) /\
  written_by_handler P w (snd (loop_body P fuel w)) /\
  written_by_handler P w (snd (main_loop P n fuel w)) /\
  (alarm_flag (snd (main P n fuel)) = 0 \/
   (alarm_flag (snd (main P n fuel)) = 1 /\
    exists i, (i < n_irq (snd (main P n fuel)))%nat /\ in_alarm2 P i = true)) /\
  (alarm_flag (snd (loop_body P fuel w)) = alarm_flag w \/
   alarm_flag (snd (loop_body P fuel w)) = 1) /\
  (alarm_flag (snd (main P n fuel)) = 0 \/ alarm_flag (snd (main P n fuel)) = 1) /\
  fst (loop_body P fuel (set_alarm_flag v w)) = fst (loop_body P fuel w) /\
  forget (snd (loop_body P fuel (set_alarm_flag v w))) = forget (snd (loop_body P fuel w)) /\
  fst ((startup P ;;; main_loop P n fuel) (set_alarm_flag v (boot P))) = fst (main P n fuel).
Proof.
  assert (H01 : alarm_flag (snd (main P n fuel)) = 0 \/
                alarm_flag (snd (main P n fuel)) = 1)
    by (apply (acts_alarm_flag fp_main (boot P)), keeps_main).
  split; [reflexivity |]. split; [reflexivity |].
  split; [apply written_by_handler_loop_body |].
  split; [apply written_by_handler_main_loop |].
  split.
  { destruct H01 as [H0 | H1]; [left; exact H0 |].
    destruct (flag_from_alarm_main P n fuel (boot P)) as [_ Hsrc].
    fold (main P n fuel) in Hsrc.
    destruct Hsrc as [Hsame | (i & Hi & Hp)]; [left; exact Hsame |].
    right. split; [exact H1 |]. exists i. split; [lia | exact Hp]. }
  split; [apply (acts_alarm_flag fp_loop), keeps_loop_body |].
  split; [exact H01 |].
  assert (Hb : fst (loop_body P fuel (set_alarm_flag v w)) = fst (loop_body P fuel w) /\
               forget (snd (loop_body P fuel (set_alarm_flag v w))) =
               forget (snd (loop_body P fuel w)))
    by (apply blind_loop_body; reflexivity).
  destruct Hb as [Hb1 Hb2]. split; [exact Hb1 |]. split; [exact Hb2 |].
  unfold main.
  apply (blind_bind (startup P) (fun _ => main_loop P n fuel));
    [apply blind_startup | intros _; apply blind_main_loop | reflexivity].
Qed.
